(** * Revisions of the decomposed filesystem (reva)

    A shallow embedding of
    - [pkg/storage/utils/decomposedfs/node/revisions.go]
      ([SplitRevisionKey], [JoinRevisionKey], [RevisionNode], [ReadRevision]),
    - [pkg/storage/utils/decomposedfs/revisions.go]
      ([ListRevisions], [DownloadRevision], [RestoreRevision],
      [DeleteRevision], [getRevisionNode]),
    - [pkg/storage/utils/decomposedfs/upload/revision.go]
      ([SetNodeToUpload], [WriteRevisionMetadataToNode]),
    - the tree walk [Propagate] of the ocis tree,
    together with the properties of the revision subsystem. *)

From Stdlib Require Import String Ascii ZArith Lia Bool DecimalString DecimalZ.
From stdpp Require Import gmap strings list fin_maps.

Local Open Scope string_scope.

(** ** Go's [strings] package, as far as the revision code uses it *)

Module strings.

(** [strings.HasPrefix(s, prefix)] *)
Fixpoint HasPrefix (s prefix : string) {struct prefix} : bool :=
  match prefix with
  | EmptyString => true
  | String p prefix' =>
      match s with
      | EmptyString => false
      | String c s' => if Ascii.eqb c p then HasPrefix s' prefix' else false
      end
  end.

(** [s[k:]] *)
Fixpoint drop (k : nat) (s : string) : string :=
  match k with
  | O => s
  | S k' => match s with EmptyString => EmptyString | String _ s' => drop k' s' end
  end.

(** [s[:k]] *)
Fixpoint take (k : nat) (s : string) : string :=
  match k with
  | O => EmptyString
  | S k' => match s with EmptyString => EmptyString | String c s' => String c (take k' s') end
  end.

(** [strings.Index(s, sep)]: the byte offset of the first occurrence of
    [sep] in [s]; Go's [-1] is [None]. *)
Fixpoint Index (s sep : string) : option nat :=
  if HasPrefix s sep then Some O
  else match s with
       | EmptyString => None
       | String _ s' => option_map S (Index s' sep)
       end.

(** [strings.Contains(s, sep)] is [Index(s, sep) >= 0]. *)
Definition Contains (s sep : string) : bool :=
  match Index s sep with Some _ => true | None => false end.

(** [strings.HasSuffix(s, suffix)] *)
Definition HasSuffix (s suffix : string) : bool :=
  (String.length suffix <=? String.length s)%nat
  && String.eqb (drop (String.length s - String.length suffix) s) suffix.

(** The loop of [genSplit]: at most [k] cuts, the rest of the string is
    the last element. *)
Fixpoint genSplit_loop (k : nat) (s sep : string) : list string :=
  match k with
  | O => [s]
  | S k' =>
      match Index s sep with
      | None => [s]
      | Some m => take m s :: genSplit_loop k' (drop (m + String.length sep) s) sep
      end
  end.

(** [strings.SplitN(s, sep, n)] for [n >= 0] and a non-empty separator
    (the revision code always passes the delimiter [".REV."]; the
    [explode] branch of [genSplit] for an empty separator is left out). *)
Definition SplitN (s sep : string) (n : nat) : list string :=
  match n with
  | O => []
  | S _ => genSplit_loop (Nat.min n (String.length s + 1) - 1) s sep
  end.

End strings.

(** ** node/revisions.go: revision keys *)

(** Define keys and values used in the node metadata *)
Definition RevisionIDDelimiter : string := ".REV.".

(** SplitRevisionKey splits revision key into nodeid and revisionTime *)
Definition SplitRevisionKey (revisionKey : string) : string * string :=
  match strings.SplitN revisionKey RevisionIDDelimiter 2 with
  | [p0; p1] => (p0, p1)
  | _ => (revisionKey, "")
  end.

(** JoinRevisionKey joins nodeid and revision into revision key *)
Definition JoinRevisionKey (nodeID revision : string) : string :=
  nodeID ++ RevisionIDDelimiter ++ revision.

(** ** Data model *)

(** Go's [int64]: a [Z] between [-2^63] and [2^63 - 1]; arithmetic wraps. *)
Definition min_int64 : Z := - 2 ^ 63.
Definition max_int64 : Z := 2 ^ 63 - 1.
Definition in_int64 (z : Z) : bool := (min_int64 <=? z)%Z && (z <=? max_int64)%Z.
Definition wrap64 (z : Z) : Z := ((z + 2 ^ 63) mod 2 ^ 64 - 2 ^ 63)%Z.
Definition sub64 (a b : Z) : Z := wrap64 (a - b).

(** The conversion [uint64(x)] of an [int64]. *)
Definition to_uint64 (z : Z) : Z := (z mod 2 ^ 64)%Z.

(** [strconv.FormatInt(z, 10)] and [strconv.ParseInt(s, 10, 64)]. *)
Definition FormatInt (z : Z) : string := NilZero.string_of_int (Z.to_int z).
Definition ParseInt (s : string) : option Z :=
  match NilZero.int_of_string s with
  | Some d => let z := Z.of_int d in if in_int64 z then Some z else None
  | None => None
  end.

(** [time.Time], as nanoseconds since the epoch. *)
Definition Time : Type := Z.

(** The node handle of [node.Node]: the fields the revision code reads
    and writes ([owner], [lu] and [nodeType] are carried along unchanged
    by [RevisionNode] and are not followed here). *)
Record Node : Type := mkNode {
  SpaceID : string;
  ID : string;
  ParentID : string;
  Name : string;
  Exists : bool;
  BlobID : string;
  Blobsize : Z
}.

#[global] Instance Node_eq_dec : EqDecision Node.
Proof. solve_decision. Defined.

(** [provider.Reference] with its [ResourceId] inlined. *)
Record Reference : Type := mkReference {
  StorageId : string;
  SpaceId : string;
  OpaqueId : string;
  Path : string
}.

(** [provider.ResourcePermissions], the four named booleans the revision
    code consults. *)
Record ResourcePermissions : Type := mkPermissions {
  ListFileVersions : bool;
  InitiateFileDownload : bool;
  RestoreFileVersion : bool;
  Stat : bool
}.

(** [provider.FileVersion] *)
Record FileVersion : Type := mkFileVersion {
  Key : string;
  Mtime : Z;
  Size : Z;
  Etag : string
}.

(** [upload.RevisionMetadata]: all the metadata that will be persisted
    in revisions. A zero [MTime] ([IsZero]) is [None]. *)
Record RevisionMetadata : Type := mkRevisionMetadata {
  rm_MTime : option Time;
  rm_BlobID : string;
  rm_BlobSize : Z;
  rm_ChecksumSHA1 : string;
  rm_ChecksumMD5 : string;
  rm_ChecksumADLER32 : string
}.

(** [node.Attributes]: attribute name to value bytes. *)
Abbreviation Attributes := (gmap string string).

Module Attributes.
(** [attrs.String(key)]: the empty string when the key is absent. *)
Definition String (attrs : Attributes) (key : string) : string :=
  default "" (attrs !! key).
(** [attrs.Int64(key)]: parsing the empty string is an error. *)
Definition Int64 (attrs : Attributes) (key : string) : option Z :=
  ParseInt (String attrs key).
Definition SetString (key val : string) (attrs : Attributes) : Attributes :=
  <[key := val]> attrs.
Definition SetInt64 (key : string) (val : Z) (attrs : Attributes) : Attributes :=
  <[key := FormatInt val]> attrs.
End Attributes.

(** ** The collaborators

    Every call that leaves the revision code (operating system, metadata
    backend, permission engine, tree, blobstore) is recorded, and may
    fail. *)
Inductive Call : Type :=
| node_ReadNode (spaceID nodeID : string)
| p_AssemblePermissions (n : Node)
| node_CheckLock (n : Node)
| node_SetCurrentRevision (n : Node) (revisionKey : string)
| lockedfile_OpenFile (path : string)
| filepath_Glob (pattern : string)
| os_Create (path : string)
| os_Remove (path : string)
| os_RemoveAll (path : string)
| os_Chtimes (path : string) (mtime : Time)
| backend_All (path : string)
| backend_SetMultiple (path : string)
| backend_GetInt64 (path key : string)
| backend_Purge (path : string)
| tp_Propagate (n : Node) (sizeDiff : Z)
| blobstore_Download (n : Node)
| blobstore_Delete (n : Node).

#[global] Instance Call_eq_dec : EqDecision Call.
Proof. solve_decision. Defined.

(** The [errtypes] the revision code builds, the errors of the
    collaborators, and [errors.Wrap]. *)
Inductive Error : Type :=
| NotFound (what : string)
| PermissionDenied (what : string)
| InternalError (msg : string)
| NotExist (path : string)        (* [metadata.IsNotExist] holds of it *)
| Failed (c : Call)               (* what a failing collaborator returned *)
| Wrap (cause : Error) (msg : string).

Definition IsNotExist (e : Error) : bool :=
  match e with NotExist _ => true | _ => false end.

Inductive Result (A : Type) : Type :=
| Ok (a : A)
| Err (e : Error).
Arguments Ok {A} a.
Arguments Err {A} e.

(** The state the code works on: the files on disk, the attributes the
    metadata backend holds per path, and the calls made so far. *)
Record World : Type := mkWorld {
  files : gset string;
  metadata : gmap string Attributes;
  trace : list Call
}.

(** Modelled from the spec: the packages [lookup], [metadata],
    [metadata/prefixes], [storagespace], the permission engine and the
    clock are not part of the sources at hand. Their pure parts are taken
    as the fields of the receiver [fs]: the path functions of the lookup
    and of the metadata backend ("a node's physical storage location is a
    deterministic function of SpaceID and ID alone"), the attribute names,
    the answer of the permission engine, the time functions, and for every
    position of the trace whether the call made there fails. *)
Record Decomposedfs : Type := mkDecomposedfs {
  (* fs.lu *)
  InternalPath : string -> string -> string;
  MetadataPath : string -> string;
  LockfilePath : string -> string;
  IsMetaFile : string -> bool;
  (* metadata/prefixes *)
  ChecksumPrefix : string;
  TypeAttr : string;
  BlobIDAttr : string;
  BlobsizeAttr : string;
  MTimeAttr : string;
  ParentidAttr : string;
  NameAttr : string;
  (* checksum names of the storage provider: XSSHA1, XSMD5, XSAdler32 *)
  XSSHA1 : string;
  XSMD5 : string;
  XSAdler32 : string;
  (* fs.p *)
  permissions : Node -> ResourcePermissions;
  (* storagespace.FormatReference *)
  FormatReference : Reference -> string;
  (* package time: Parse and Format with layout RFC3339Nano, Now, Unix *)
  time_Parse : string -> option Time;
  time_Format : Time -> string;
  time_Now : Time;
  time_Unix : Time -> Z;
  (* node.CalculateEtag *)
  CalculateEtag : Node -> Time -> option string;
  (* the environment: does the call made at this position of the trace fail? *)
  fails : nat -> Call -> bool
}.

(** ** A state and error monad for the code *)

Definition M (A : Type) : Type := World -> Result A * World.

Definition ret {A} (a : A) : M A := fun w => (Ok a, w).
Definition fail {A} (e : Error) : M A := fun w => (Err e, w).
Definition bind {A B} (m : M A) (k : A -> M B) : M B :=
  fun w => match m w with
           | (Ok a, w') => k a w'
           | (Err e, w') => (Err e, w')
           end.
(** [v, err := m]: the error becomes a value the code can look at. *)
Definition attempt {A} (m : M A) : M (Result A) :=
  fun w => match m w with (r, w') => (Ok r, w') end.
(** [if err := m; err != nil { return e }]: the error is replaced. *)
Definition orError {A} (m : M A) (e : Error -> Error) : M A :=
  fun w => match m w with
           | (Ok a, w') => (Ok a, w')
           | (Err x, w') => (Err (e x), w')
           end.
(** [if err := m; err != nil { log... }]: the error is only logged. *)
Definition logged (m : M unit) : M unit :=
  fun w => match m w with (_, w') => (Ok tt, w') end.
(** [defer func() { if returnErr != nil { cleanup } }()] around the rest
    of the function body. *)
Definition deferOnError {A} (body : M A) (cleanup : M unit) : M A :=
  fun w => match body w with
           | (Ok a, w') => (Ok a, w')
           | (Err e, w') => match cleanup w' with (_, w'') => (Err e, w'') end
           end.
(** [filepath.Join(a, b)], for the error messages: empty elements are
    ignored (the cleaning of the result is not followed). *)
Definition filepath_Join (a b : string) : string :=
  if String.eqb a "" then b
  else if String.eqb b "" then a
  else a ++ "/" ++ b.

Declare Scope go_scope.
Delimit Scope go_scope with go.
Notation "x <- m ;; k" := (bind m (fun x => k))
  (at level 100, m at next level, right associativity) : go_scope.
Notation "m ;;; k" := (bind m (fun _ => k))
  (at level 100, right associativity) : go_scope.
Local Open Scope go_scope.

Section Primitives.

Variable fs : Decomposedfs.

(** Record the call; fail when the environment says so. *)
Definition call (c : Call) : M unit :=
  fun w =>
    let w' := mkWorld (files w) (metadata w) (trace w ++ [c])%list in
    if fails fs (length (trace w)) c then (Err (Failed c), w') else (Ok tt, w').

Definition get_metadata (path : string) : M (option Attributes) :=
  fun w => (Ok (metadata w !! path), w).
Definition set_files (f : gset string -> gset string) : M unit :=
  fun w => (Ok tt, mkWorld (f (files w)) (metadata w) (trace w)).
Definition set_metadata (f : gmap string Attributes -> gmap string Attributes) : M unit :=
  fun w => (Ok tt, mkWorld (files w) (f (metadata w)) (trace w)).
Definition file_exists (path : string) : M bool :=
  fun w => (Ok (bool_decide (path ∈ files w)), w).

(** [os.Create(path)]: the file exists afterwards. *)
Definition os_create (path : string) : M unit :=
  call (os_Create path) ;;; set_files (fun f => {[path]} ∪ f).

(** [os.Remove(path)]: removing what is not there is an error. *)
Definition os_remove (path : string) : M unit :=
  call (os_Remove path) ;;;
  b <- file_exists path ;;
  if b then set_files (fun f => f ∖ {[path]}) else fail (NotExist path).

(** [os.RemoveAll(path)]: removing what is not there is fine. *)
Definition os_removeAll (path : string) : M unit :=
  call (os_RemoveAll path) ;;; set_files (fun f => f ∖ {[path]}).

(** [os.Chtimes(path, mtime, mtime)] *)
Definition os_chtimes (path : string) (mtime : Time) : M unit :=
  call (os_Chtimes path mtime).

(** [lockedfile.OpenFile(path, os.O_RDWR|os.O_CREATE, 0600)], and
    without [os.O_CREATE] when [create] is [false]; the handle is the
    path it locks. *)
Definition lockedfile_open (path : string) (create : bool) : M string :=
  call (lockedfile_OpenFile path) ;;;
  b <- file_exists path ;;
  if create || b then set_files (fun f => {[path]} ∪ f) ;;; ret path
  else fail (NotExist path).

(** [MetadataBackend().All(ctx, path)]: all attributes of a path, a
    not-exist error when the backend has none. *)
Definition backend_all (path : string) : M Attributes :=
  call (backend_All path) ;;;
  o <- get_metadata path ;;
  match o with
  | Some attrs => ret attrs
  | None => fail (NotExist path)
  end.

(** [MetadataBackend().SetMultiple(ctx, path, attrs, acquireLock)]: the
    given attributes are written over the ones already there. *)
Definition backend_setMultiple (path : string) (attrs : Attributes) : M unit :=
  call (backend_SetMultiple path) ;;;
  set_metadata (fun m => <[path := attrs ∪ default ∅ (m !! path)]> m).

(** [MetadataBackend().GetInt64(ctx, path, key)] *)
Definition backend_getInt64 (path key : string) : M Z :=
  call (backend_GetInt64 path key) ;;;
  o <- get_metadata path ;;
  match o with
  | Some attrs =>
      match attrs !! key with
      | Some v => match ParseInt v with
                  | Some z => ret z
                  | None => fail (InternalError "invalid syntax")
                  end
      | None => fail (NotExist key)
      end
  | None => fail (NotExist path)
  end.

(** [MetadataBackend().Purge(path)]: the backend forgets the path. *)
Definition backend_purge (path : string) : M unit :=
  call (backend_Purge path) ;;; set_metadata (fun m => delete path m).

End Primitives.

(** ** Package node *)

Section NodePackage.

Variable fs : Decomposedfs.

(** [n.InternalPath()] *)
Definition Node_InternalPath (n : Node) : string :=
  InternalPath fs (SpaceID n) (ID n).

(** [n.Xattrs(ctx)] *)
Definition Xattrs (n : Node) : M Attributes :=
  backend_all fs (Node_InternalPath n).

(** [n.SetXattrsWithContext(ctx, attrs, acquireLock)] *)
Definition SetXattrsWithContext (n : Node) (attrs : Attributes) : M unit :=
  backend_setMultiple fs (Node_InternalPath n) attrs.

(** Modelled from the spec: [node.ReadNode] is not part of the sources
    at hand. "Given a (space, nodeID) pair, produce a Node with Exists
    correctly set and, if it exists, its attributes populated from the
    Metadata Backend; a not-found condition from the backend is
    swallowed and surfaces as Exists=false". The blob attributes are
    populated the way [ReadRevision] populates them. *)
Definition ReadNode (spaceID nodeID : string) : M Node :=
  call fs (node_ReadNode spaceID nodeID) ;;;
  o <- get_metadata (InternalPath fs spaceID nodeID) ;;
  match o with
  | None => ret (mkNode spaceID nodeID "" "" false "" 0%Z)
  | Some attrs =>
      match Attributes.Int64 attrs (BlobsizeAttr fs) with
      | Some size =>
          ret (mkNode spaceID nodeID
                 (Attributes.String attrs (ParentidAttr fs))
                 (Attributes.String attrs (NameAttr fs))
                 true
                 (Attributes.String attrs (BlobIDAttr fs))
                 size)
      | None => fail (InternalError "invalid syntax")
      end
  end.

(** Modelled from the spec: [lu.NodeFromResource] is not part of the
    sources at hand; a reference is resolved by its space and node id
    (the walk along a relative path is not followed). *)
Definition NodeFromResource (ref : Reference) : M Node :=
  ReadNode (SpaceId ref) (OpaqueId ref).

(** Modelled from the spec: [n.GetMTime] is not part of the sources at
    hand; the mtime is the node's mtime attribute, "MTime" being one of
    the attributes of the data model. *)
Definition GetMTime (n : Node) : M Time :=
  attrs <- Xattrs n ;;
  match attrs !! MTimeAttr fs with
  | Some v => match time_Parse fs v with
              | Some t => ret t
              | None => fail (InternalError "cannot parse mtime")
              end
  | None => fail (NotExist (MTimeAttr fs))
  end.

(** [fs.p.AssemblePermissions(ctx, n)] *)
Definition AssemblePermissions (n : Node) : M ResourcePermissions :=
  call fs (p_AssemblePermissions n) ;;; ret (permissions fs n).

(** [n.CheckLock(ctx)] *)
Definition CheckLock (n : Node) : M unit := call fs (node_CheckLock n).

(** [n.SetCurrentRevision(ctx, revisionKey)]: not part of the sources at
    hand; a call that may fail, the attribute it keeps is not one of the
    attributes followed here. *)
Definition SetCurrentRevision (n : Node) (revisionKey : string) : M unit :=
  call fs (node_SetCurrentRevision n revisionKey).

(** RevisionNode will return a node for the revision without reading the metadata *)
Definition RevisionNode (n : Node) (revision : string) : Node :=
  mkNode (SpaceID n) (JoinRevisionKey (ID n) revision) (ParentID n) (Name n)
    false "" 0.

(** ReadRevision will return a node for the revision and read the metadata *)
Definition ReadRevision (n : Node) (revision : string) : M Node :=
  let rn := RevisionNode n revision in
  r <- attempt (Xattrs rn) ;;
  match r with
  | Err err =>
      if IsNotExist err
      then ret rn (* swallow not found, the node defaults to exists = false *)
      else fail err
  | Ok attrs =>
      match Attributes.Int64 attrs (BlobsizeAttr fs) with
      | Some size =>
          ret (mkNode (SpaceID rn) (ID rn) (ParentID rn) (Name rn) true
                 (Attributes.String attrs (BlobIDAttr fs)) size)
      | None => fail (InternalError "invalid syntax")
      end
  end.

(** Modelled from the spec: [lu.CopyMetadata] is not part of the sources
    at hand; "a lock-scoped metadata copy". The filter is asked for
    every attribute of the source and says what to write and whether to
    copy; what it selects is written onto the target. *)
Definition filterAttributes (filter : string -> string -> string * bool)
    (attrs : Attributes) : Attributes :=
  map_imap (fun name value =>
              match filter name value with
              | (newValue, true) => Some newValue
              | (_, false) => None
              end) attrs.

Definition CopyMetadata (sourcePath targetPath : string)
    (filter : string -> string -> string * bool) : M unit :=
  attrs <- backend_all fs sourcePath ;;
  backend_setMultiple fs targetPath (filterAttributes filter attrs).

(** [lu.CopyMetadataWithSourceLock]: as [CopyMetadata], with the lock
    the caller holds, which has to be the lock of the source. *)
Definition CopyMetadataWithSourceLock (sourcePath targetPath : string)
    (filter : string -> string -> string * bool) (lockedSource : string) : M unit :=
  if negb (String.eqb lockedSource (LockfilePath fs sourcePath))
  then fail (InternalError "lockpath does not match filepath")
  else CopyMetadata sourcePath targetPath filter.

(** [fs.tp.Propagate(ctx, n, sizeDiff)]: the tree of the decomposed
    filesystem is not part of the sources at hand; the call and
    whether it fails are what the revision code sees of it. *)
Definition tp_propagate (n : Node) (sizeDiff : Z) : M unit :=
  call fs (tp_Propagate n sizeDiff).

(** [fs.blobstore.Download(n)]: the stream is named by the node whose
    blob it reads. *)
Definition blobstore_download (n : Node) : M Node :=
  call fs (blobstore_Download n) ;;; ret n.

(** [fs.blobstore.Delete(n)] *)
Definition blobstore_delete (n : Node) : M unit :=
  call fs (blobstore_Delete n).

(** [filepath.Glob(prefix + "*")]: the existing paths that start with
    [prefix] and go on within the same directory. *)
Definition glob_matches (prefix : string) (w : World) : list string :=
  filter (fun p => strings.HasPrefix p prefix
                   && negb (strings.Contains (strings.drop (String.length prefix) p) "/"))
         (elements (files w)).

Definition filepath_glob (prefix : string) : M (list string) :=
  call fs (filepath_Glob (prefix ++ "*")) ;;;
  fun w => (Ok (glob_matches prefix w), w).

End NodePackage.

(** ** Package decomposedfs: revisions.go *)

Section Revisions.

Variable fs : Decomposedfs.

(** The permission switch of [ListRevisions], [DownloadRevision] and
    [RestoreRevision]: without the permission, PermissionDenied for
    a caller who may Stat, NotFound otherwise. *)
Definition denied (ref : Reference) (rp : ResourcePermissions) : Error :=
  let f := FormatReference fs ref in
  if Stat rp then PermissionDenied f else NotFound f.

(** One round of the loop of [ListRevisions] over the glob matches. *)
Definition ListRevisions_item (n : Node) (item : string)
    (revisions : list FileVersion) : M (list FileVersion) :=
  if IsMetaFile fs item then ret revisions (* continue *)
  else
    match strings.SplitN item RevisionIDDelimiter 2 with
    | [_; rp1] =>
        r <- attempt (ReadRevision fs n rp1) ;;
        match r with
        | Err _ => ret revisions (* could not read revision, skipping *)
        | Ok rn =>
            if negb (Exists rn) then ret revisions (* revision does not exist, skipping *)
            else
              r <- attempt (GetMTime fs rn) ;;
              match r with
              | Err _ => ret revisions (* could not get revision mtime, skipping *)
              | Ok rmtime =>
                  match CalculateEtag fs rn rmtime with
                  | None => ret revisions (* could not calculate etag, skipping *)
                  | Some etag =>
                      ret (revisions ++
                             [mkFileVersion (ID rn)
                                (to_uint64 (time_Unix fs rmtime))
                                (to_uint64 (Blobsize rn))
                                etag])%list
                  end
              end
        end
    | _ => ret revisions (* invalid revision name, skipping *)
    end.

Fixpoint ListRevisions_loop (n : Node) (items : list string)
    (revisions : list FileVersion) : M (list FileVersion) :=
  match items with
  | [] => ret revisions
  | item :: items' =>
      revisions' <- ListRevisions_item n item revisions ;;
      ListRevisions_loop n items' revisions'
  end.

(** ListRevisions lists the revisions of the given resource *)
Definition ListRevisions (ref : Reference) : M (list FileVersion) :=
  n <- NodeFromResource fs ref ;;
  if negb (Exists n) then fail (NotFound (filepath_Join (ParentID n) (Name n)))
  else
    rp <- AssemblePermissions fs n ;;
    if negb (ListFileVersions rp) then fail (denied ref rp)
    else
      let np := Node_InternalPath fs n in
      r <- attempt (filepath_glob fs (np ++ RevisionIDDelimiter)) ;;
      match r with
      | Ok items => ListRevisions_loop n items []
      | Err _ => ret []
      end.

(** DownloadRevision returns a reader for the specified revision *)
Definition DownloadRevision (ref : Reference) (revisionKey : string) : M Node :=
  (* verify revision key format *)
  match strings.SplitN revisionKey RevisionIDDelimiter 2 with
  | [kp0; kp1] =>
      let spaceID := SpaceId ref in
      (* check if the node is available and has not been deleted *)
      n <- ReadNode fs spaceID kp0 ;;
      if negb (Exists n) then fail (NotFound (filepath_Join (ParentID n) (Name n)))
      else
        rp <- AssemblePermissions fs n ;;
        if negb (ListFileVersions rp) || negb (InitiateFileDownload rp)
        then fail (denied ref rp)
        else
          revisionNode <-
            orError (ReadRevision fs n kp1)
              (fun err => Wrap err "Decomposedfs: could not read revision") ;;
          orError (blobstore_download fs revisionNode)
            (fun err => Wrap err "Decomposedfs: could not download blob of revision")
  | _ => fail (NotFound revisionKey)
  end.

(** What [RestoreRevision] knows once the new revision file is touched. *)
Record Restore : Type := mkRestore {
  r_kp0 : string;
  r_node : Node;
  r_lock : string;
  r_mtime : Time
}.

Section RestoreRevision.

Variables (ref : Reference) (revisionKey : string).

Definition r_nodePath (r : Restore) : string :=
  InternalPath fs (SpaceId ref) (r_kp0 r).
Definition r_newRevisionPath (r : Restore) : string :=
  InternalPath fs (SpaceId ref)
    (r_kp0 r ++ RevisionIDDelimiter ++ time_Format fs (r_mtime r)).
Definition restoredRevisionPath : string :=
  InternalPath fs (SpaceId ref) revisionKey.

(** The filter of the copy from the node to the new revision. *)
Definition filter_to_revision (attributeName value : string) : string * bool :=
  (value,
   strings.HasPrefix attributeName (ChecksumPrefix fs) (* for checksums *)
   || String.eqb attributeName (TypeAttr fs)
   || String.eqb attributeName (BlobIDAttr fs)
   || String.eqb attributeName (BlobsizeAttr fs)
   || String.eqb attributeName (MTimeAttr fs)).

(** The filter of the copy from the restored revision to the node. *)
Definition filter_to_node (attributeName value : string) : string * bool :=
  if String.eqb attributeName (MTimeAttr fs)
  then (* update mtime *) (time_Format fs (time_Now fs), true)
  else
    (value,
     strings.HasPrefix attributeName (ChecksumPrefix fs)
     || String.eqb attributeName (TypeAttr fs)
     || String.eqb attributeName (BlobIDAttr fs)
     || String.eqb attributeName (BlobsizeAttr fs)).

(** Lines 185-247: validation, the lock, and the touch of the new
    revision. *)
Definition RestoreRevision_begin : M Restore :=
  (* verify revision key format *)
  match strings.SplitN revisionKey RevisionIDDelimiter 2 with
  | [kp0; kp1] =>
      let spaceID := SpaceId ref in
      (* check if the node is available and has not been deleted *)
      n <- ReadNode fs spaceID kp0 ;;
      if negb (Exists n) then fail (NotFound (filepath_Join (ParentID n) (Name n)))
      else
        rp <- AssemblePermissions fs n ;;
        if negb (RestoreFileVersion rp) then fail (denied ref rp)
        else
          (* Set space owner in context: nothing of the state changes *)
          (* check lock *)
          CheckLock fs n ;;;
          (* write lock node before copying metadata; [defer f.Close()]
             is not followed *)
          f <- lockedfile_open fs (LockfilePath fs (Node_InternalPath fs n)) true ;;
          (* move current version to new revision *)
          mtime <- GetMTime fs n ;;
          let r := mkRestore kp0 n f mtime in
          (* touch new revision *)
          os_create fs (r_newRevisionPath r) ;;;
          ret r
  | _ => fail (NotFound revisionKey)
  end.

(** Lines 248-257: the deferred clean up of the new revision. *)
Definition RestoreRevision_rollback (r : Restore) : M unit :=
  logged (os_remove fs (r_newRevisionPath r)) ;;;
  logged (backend_purge fs (r_newRevisionPath r)).

(** Lines 259-320: the metadata swap and the drop of the old
    revision; the result is the size difference. The text of the cause
    that the source appends to two of the messages is left out. *)
Definition RestoreRevision_swap (r : Restore) : M Z :=
  let n := r_node r in
  (* copy blob metadata from node to new revision node *)
  orError (CopyMetadataWithSourceLock fs (r_nodePath r) (r_newRevisionPath r)
             filter_to_revision (r_lock r))
    (fun _ => InternalError "failed to copy blob xattrs to version node") ;;;
  (* remember mtime from node as new revision mtime *)
  orError (os_chtimes fs (r_newRevisionPath r) (r_mtime r))
    (fun _ => InternalError "failed to change mtime of version node") ;;;
  (* update revision in node *)
  orError (SetCurrentRevision fs n revisionKey)
    (fun _ => InternalError "failed to update revision for node") ;;;
  (* copy blob metadata from restored revision to node *)
  orError (CopyMetadata fs restoredRevisionPath (r_nodePath r) filter_to_node)
    (fun _ => InternalError "failed to copy blob xattrs to old revision to node") ;;;
  revisionSize <-
    orError (backend_getInt64 fs restoredRevisionPath (BlobsizeAttr fs))
      (fun _ => InternalError "failed to read blob size xattr from old revision") ;;
  (* drop old revision *)
  logged (os_remove fs restoredRevisionPath) ;;;
  logged (os_remove fs (MetadataPath fs restoredRevisionPath)) ;;;
  logged (os_remove fs (LockfilePath fs restoredRevisionPath)) ;;;
  logged (backend_purge fs restoredRevisionPath) ;;;
  (* revision 5, current 10 (restore a smaller blob) -> 5-10 = -5
     revision 10, current 5 (restore a bigger blob) -> 10-5 = +5 *)
  ret (sub64 revisionSize (Blobsize n)).

(** Lines 259-322: what runs under the deferred clean up. *)
Definition RestoreRevision_body (r : Restore) : M unit :=
  sizeDiff <- RestoreRevision_swap r ;;
  tp_propagate fs (r_node r) sizeDiff.

(** RestoreRevision restores the specified revision of the resource *)
Definition RestoreRevision : M unit :=
  r <- RestoreRevision_begin ;;
  deferOnError (RestoreRevision_body r) (RestoreRevision_rollback r).

End RestoreRevision.

Definition getRevisionNode (ref : Reference) (revisionKey : string)
    (hasPermission : ResourcePermissions -> bool) : M Node :=
  (* verify revision key format *)
  match strings.SplitN revisionKey RevisionIDDelimiter 2 with
  | [kp0; kp1] =>
      let spaceID := SpaceId ref in
      (* check if the node is available and has not been deleted *)
      n <- ReadNode fs spaceID kp0 ;;
      if negb (Exists n) then fail (NotFound (filepath_Join (ParentID n) (Name n)))
      else
        p <- AssemblePermissions fs n ;;
        if negb (hasPermission p)
        then fail (PermissionDenied (filepath_Join (ParentID n) (Name n)))
        else ret n
  | _ => fail (NotFound revisionKey)
  end.

(** DeleteRevision deletes the specified revision of the resource *)
Definition DeleteRevision (ref : Reference) (revisionKey : string) : M unit :=
  n <- getRevisionNode ref revisionKey RestoreFileVersion ;;
  os_removeAll fs (InternalPath fs (SpaceID n) revisionKey) ;;;
  blobstore_delete fs n.

End Revisions.

(** ** Package upload: revision.go *)

Section Upload.

Variable fs : Decomposedfs.

Definition WriteRevisionMetadataToNode (n : Node)
    (revisionMetadata : RevisionMetadata) : M unit :=
  let attrs : Attributes := ∅ in
  let attrs := Attributes.SetString (BlobIDAttr fs) (rm_BlobID revisionMetadata) attrs in
  let attrs := Attributes.SetInt64 (BlobsizeAttr fs) (rm_BlobSize revisionMetadata) attrs in
  let attrs := <[ChecksumPrefix fs ++ XSSHA1 fs := rm_ChecksumSHA1 revisionMetadata]> attrs in
  let attrs := <[ChecksumPrefix fs ++ XSMD5 fs := rm_ChecksumMD5 revisionMetadata]> attrs in
  let attrs := <[ChecksumPrefix fs ++ XSAdler32 fs := rm_ChecksumADLER32 revisionMetadata]> attrs in
  SetXattrsWithContext fs n attrs.

(** [SetNodeToUpload]; the result is [sizeDiff] (Go returns [0] next
    to an error). *)
Definition SetNodeToUpload (n : Node) (rm : RevisionMetadata) : M Z :=
  let nodePath := Node_InternalPath fs n in
  (* lock existing node metadata *)
  lockedfile_open fs (LockfilePath fs nodePath) false ;;;
  (* read nodes *)
  n <- ReadNode fs (SpaceID n) (ID n) ;;
  let sizeDiff := sub64 (rm_BlobSize rm) (Blobsize n) in
  let n := mkNode (SpaceID n) (ID n) (ParentID n) (Name n) (Exists n)
             (rm_BlobID rm) (rm_BlobSize rm) in
  let rm := match rm_MTime rm with
            | None => mkRevisionMetadata (Some (time_Now fs)) (rm_BlobID rm)
                        (rm_BlobSize rm) (rm_ChecksumSHA1 rm) (rm_ChecksumMD5 rm)
                        (rm_ChecksumADLER32 rm)
            | Some _ => rm
            end in
  (* update node *)
  orError (WriteRevisionMetadataToNode n rm)
    (fun err => Wrap err "Decomposedfs: could not write metadata") ;;;
  ret sizeDiff.

End Upload.

(** ** The ocis tree: Propagate and Move *)

Module ocis.

(** The node handle of the ocis tree. *)
Record Node : Type := mkNode {
  ID : string;
  ParentID : string;
  Name : string;
  Exists : bool
}.

(** What is on disk under [nodes/]: the node directories, the links
    [nodes/<parent id>/<name>] to the children, the extended attributes
    of the nodes, and the nodes [xattr.Set] was asked to write an etag
    to, latest last. *)
Record State : Type := mkState {
  dirs : gset string;
  links : gmap (string * string) string;
  xattr_parentid : gmap string string;
  xattr_name : gmap string string;
  xattr_etag : gmap string string;
  etag_writes : list string
}.

Inductive OsCall : Type :=
| RemoveAll (nodeID : string)
| Rename (oldParent oldName newParent newName : string)
| SetParentid (nodeID : string)
| SetName (nodeID : string)
| SetEtag (nodeID : string).

(** The error of a failed call to the operating system. *)
Definition Failed_os (c : OsCall) : Error :=
  match c with
  | RemoveAll nodeID => InternalError ("unlinkat " ++ nodeID)
  | Rename _ oldName _ _ => InternalError ("rename " ++ oldName)
  | SetParentid nodeID | SetName nodeID | SetEtag nodeID =>
      InternalError ("setxattr " ++ nodeID)
  end.

(** Modelled from the spec: the path wrapper [t.pw] ([RootNode],
    [HomeNode], [EnableHome]) is not part of the sources at hand; with
    the random source and the failures of the operating system it is
    the environment of the tree. *)
Record Tree : Type := mkTree {
  EnableHome : bool;
  RootNode : Result Node;
  HomeNode : Result Node;
  rand_Read : Result string;
  os_fails : OsCall -> bool
}.

(** Modelled from the spec: [node.Parent()] is not part of the sources
    at hand. "Move to the parent"; the handle of the parent is read from
    the parent's attributes, "an ancestor not existing" is an error, and
    so is asking for the parent of a node without parent id. *)
Definition Parent (st : State) (n : Node) : Result Node :=
  if String.eqb (ParentID n) "" then Err (InternalError "ocisfs: root has no parent")
  else
    match xattr_parentid st !! ParentID n with
    | Some pp =>
        Ok (mkNode (ParentID n) pp
              (default "" (xattr_name st !! ParentID n))
              (bool_decide (ParentID n ∈ dirs st)))
    | None => Err (NotExist (ParentID n))
    end.

(** [xattr.Set(nodes/<id>, "user.ocis.etag", etag)], whose error is
    only logged. *)
Definition set_etag (t : Tree) (nodeID etag : string) (st : State) : State :=
  mkState (dirs st) (links st) (xattr_parentid st) (xattr_name st)
    (if os_fails t (SetEtag nodeID) then xattr_etag st
     else <[nodeID := etag]> (xattr_etag st))
    (etag_writes st ++ [nodeID]).

(** The loop of [Propagate]: [for err == nil && node.ID != root.ID];
    [None] when the fuel runs out. *)
Fixpoint Propagate_loop (t : Tree) (fuel : nat) (etag : string) (root node : Node)
    (st : State) : option (Result unit * State) :=
  if String.eqb (ID node) (ID root) then Some (Ok tt, st)
  else
    match fuel with
    | O => None
    | S fuel' =>
        let st' := set_etag t (ID node) etag st in
        (* TODO propagate mtime *)
        (* TODO size accounting *)
        match Parent st' node with
        | Ok parent => Propagate_loop t fuel' etag root parent st'
        | Err err => Some (Err err, st')
        end
    end.

(** Propagate propagates changes to the root of the tree *)
Definition Propagate (t : Tree) (fuel : nat) (node : Node) (st : State)
    : option (Result unit * State) :=
  (* generate an etag *)
  match rand_Read t with
  | Err err => Some (Err err, st)
  | Ok etag =>
      match (if EnableHome t then HomeNode t else RootNode t) with
      | Err err => Some (Err err, st)
      | Ok root => Propagate_loop t fuel etag root node st
      end
  end.

(** A call to the operating system whose error the code wraps: it fails
    when the environment says so or when the state does not allow it. *)
Definition step (t : Tree) (c : OsCall) (msg : string) (f : State -> option State)
    (st : State) : Result unit * State :=
  if os_fails t c then (Err (Wrap (Failed_os c) msg), st)
  else match f st with
       | Some st' => (Ok tt, st')
       | None => (Err (Wrap (Failed_os c) msg), st)
       end.

(** [os.Rename] of the link of a child: the link has to be there. *)
Definition rename_link (oldParent oldName newParent newName : string)
    (st : State) : option State :=
  match links st !! (oldParent, oldName) with
  | Some child =>
      Some (mkState (dirs st)
              (<[(newParent, newName) := child]> (delete (oldParent, oldName) (links st)))
              (xattr_parentid st) (xattr_name st) (xattr_etag st) (etag_writes st))
  | None => None
  end.

(** [xattr.Set] of the name and of the parent id: the node has to be
    there. *)
Definition set_name (nodeID name : string) (st : State) : option State :=
  if bool_decide (nodeID ∈ dirs st)
  then Some (mkState (dirs st) (links st) (xattr_parentid st)
               (<[nodeID := name]> (xattr_name st)) (xattr_etag st) (etag_writes st))
  else None.

Definition set_parentid (nodeID parentID : string) (st : State) : option State :=
  if bool_decide (nodeID ∈ dirs st)
  then Some (mkState (dirs st) (links st) (<[nodeID := parentID]> (xattr_parentid st))
               (xattr_name st) (xattr_etag st) (etag_writes st))
  else None.

(** [os.RemoveAll] *)
Definition remove_all (nodeID : string) (st : State) : option State :=
  Some (mkState (dirs st ∖ {[nodeID]}) (links st) (xattr_parentid st) (xattr_name st)
          (xattr_etag st) (etag_writes st)).

Definition wrap (r : option (Result unit * State)) (msg : string)
    : option (Result unit * State) :=
  match r with
  | Some (Err err, st) => Some (Err (Wrap err msg), st)
  | other => other
  end.

(** Move replaces the target with the source *)
Definition Move (t : Tree) (fuel : nat) (oldNode newNode : Node) (st : State)
    : option (Result unit * State) :=
  (* if target exists delete it without trashing it *)
  match (if Exists newNode
         then step t (RemoveAll (ID newNode))
                "ocisfs: Move: error deleting target node" (remove_all (ID newNode)) st
         else (Ok tt, st)) with
  | (Err err, st) => Some (Err err, st)
  | (Ok _, st) =>
      (* are we just renaming (parent stays the same)? *)
      if String.eqb (ParentID oldNode) (ParentID newNode) then
        (* rename child *)
        match step t (Rename (ParentID oldNode) (Name oldNode)
                        (ParentID oldNode) (Name newNode))
                "ocisfs: could not rename child"
                (rename_link (ParentID oldNode) (Name oldNode)
                   (ParentID oldNode) (Name newNode)) st with
        | (Err err, st) => Some (Err err, st)
        | (Ok _, st) =>
            (* update name attribute *)
            match step t (SetName (ID newNode)) "ocisfs: could not set name attribute"
                    (set_name (ID newNode) (Name newNode)) st with
            | (Err err, st) => Some (Err err, st)
            | (Ok _, st) => Propagate t fuel newNode st
            end
        end
      else
        (* bring old node to the new parent: rename child *)
        match step t (Rename (ParentID oldNode) (Name oldNode)
                        (ParentID newNode) (Name newNode))
                "ocisfs: could not move child"
                (rename_link (ParentID oldNode) (Name oldNode)
                   (ParentID newNode) (Name newNode)) st with
        | (Err err, st) => Some (Err err, st)
        | (Ok _, st) =>
            (* update parentid and name *)
            match step t (SetParentid (ID newNode))
                    "ocisfs: could not set parentid attribute"
                    (set_parentid (ID newNode) (ParentID newNode)) st with
            | (Err err, st) => Some (Err err, st)
            | (Ok _, st) =>
                match step t (SetName (ID newNode))
                        "ocisfs: could not set name attribute"
                        (set_name (ID newNode) (Name newNode)) st with
                | (Err err, st) => Some (Err err, st)
                | (Ok _, st) =>
                    match wrap (Propagate t fuel oldNode st)
                            "ocisfs: Move: could not propagate old node" with
                    | Some (Ok _, st) =>
                        wrap (Propagate t fuel newNode st)
                          "ocisfs: Move: could not propagate new node"
                    | other => other
                    end
                end
            end
        end
  end.

(** The parent chain of [n] reaches the node with id [root]: the ids on
    the way up, [n] first, the root left out; their number is the depth
    of [n] below the root. *)
Inductive path_below (st : State) (root : string) : Node -> list string -> Prop :=
| path_here (n : Node) : ID n = root -> path_below st root n []
| path_up (n parent : Node) (ids : list string) :
    ID n <> root -> Parent st n = Ok parent -> path_below st root parent ids ->
    path_below st root n (ID n :: ids).

End ocis.

(** ** A concrete storage for the examples *)

Module Sample.

(** Nothing fails. *)
Definition no_faults : nat -> Call -> bool := fun _ _ => false.

Definition all_permissions : ResourcePermissions := mkPermissions true true true true.
Definition no_permissions : ResourcePermissions := mkPermissions false false false false.
Definition stat_only : ResourcePermissions := mkPermissions false false false true.

(** A sidecar-file metadata backend under [/spaces]; timestamps are
    written as decimal nanoseconds. *)
Definition storage (perms : ResourcePermissions) (faults : nat -> Call -> bool)
    : Decomposedfs :=
  {| InternalPath := fun spaceID nodeID => "/spaces/" ++ spaceID ++ "/nodes/" ++ nodeID;
     MetadataPath := fun p => p ++ ".mpk";
     LockfilePath := fun p => p ++ ".mlock";
     IsMetaFile := fun p => strings.HasSuffix p ".mpk" || strings.HasSuffix p ".mlock";
     ChecksumPrefix := "user.ocis.cs.";
     TypeAttr := "user.ocis.type";
     BlobIDAttr := "user.ocis.blobid";
     BlobsizeAttr := "user.ocis.blobsize";
     MTimeAttr := "user.ocis.mtime";
     ParentidAttr := "user.ocis.parentid";
     NameAttr := "user.ocis.name";
     XSSHA1 := "sha1";
     XSMD5 := "md5";
     XSAdler32 := "adler32";
     permissions := fun _ => perms;
     FormatReference := fun r => StorageId r ++ "$" ++ SpaceId r ++ "!" ++ OpaqueId r;
     time_Parse := ParseInt;
     time_Format := FormatInt;
     time_Now := 9000%Z;
     time_Unix := fun t => (t / 1000000000)%Z;
     CalculateEtag := fun n t => Some (ID n ++ "@" ++ FormatInt t);
     fails := faults |}.

Definition file_attrs (blobid : string) (size mtime : Z) : Attributes :=
  {[ "user.ocis.type" := "1";
     "user.ocis.blobid" := blobid;
     "user.ocis.blobsize" := FormatInt size;
     "user.ocis.mtime" := FormatInt mtime;
     "user.ocis.cs.sha1" := "sha1-of-" ++ blobid;
     "user.ocis.parentid" := "root";
     "user.ocis.name" := "a.txt" ]}.

(** Node [n1] (blob [b2], 10 bytes, mtime 2000) with one revision
    [n1.REV.1000] (blob [b1], 5 bytes). *)
Definition world : World :=
  {| files := {[ "/spaces/s1/nodes/n1"; "/spaces/s1/nodes/n1.REV.1000" ]};
     metadata := {[ "/spaces/s1/nodes/n1" := file_attrs "b2" 10%Z 2000%Z;
                    "/spaces/s1/nodes/n1.REV.1000" := file_attrs "b1" 5%Z 1000%Z ]};
     trace := [] |}.

Definition ref : Reference := mkReference "storage-1" "s1" "n1" "".

(** What the restore copies of such attributes: checksums, type, blob
    id, blob size and mtime. *)
Definition blob_attrs (blobid : string) (size mtime : Z) : Attributes :=
  {[ "user.ocis.type" := "1";
     "user.ocis.blobid" := blobid;
     "user.ocis.blobsize" := FormatInt size;
     "user.ocis.mtime" := FormatInt mtime;
     "user.ocis.cs.sha1" := "sha1-of-" ++ blobid ]}.

(** The handle of [n1] as [ReadNode] returns it in [world]. *)
Definition n1 : Node := mkNode "s1" "n1" "root" "a.txt" true "b2" 10.

(** As [world], with a revision [n1.REV.2000] (blob [b0], 3 bytes) whose
    key carries the very mtime of the node. *)
Definition world_same_timestamp : World :=
  {| files := {[ "/spaces/s1/nodes/n1"; "/spaces/s1/nodes/n1.REV.2000" ]};
     metadata := {[ "/spaces/s1/nodes/n1" := file_attrs "b2" 10 2000;
                    "/spaces/s1/nodes/n1.REV.2000" := file_attrs "b0" 3 2000 ]};
     trace := [] |}.

(** As [world], with the sidecar file of the revision and with a second
    revision file [n1.REV.500] the backend holds no metadata for. *)
Definition world_listing : World :=
  {| files := {[ "/spaces/s1/nodes/n1"; "/spaces/s1/nodes/n1.REV.1000";
                 "/spaces/s1/nodes/n1.REV.1000.mpk"; "/spaces/s1/nodes/n1.REV.500" ]};
     metadata := {[ "/spaces/s1/nodes/n1" := file_attrs "b2" 10 2000;
                    "/spaces/s1/nodes/n1.REV.1000" := file_attrs "b1" 5 1000 ]};
     trace := [] |}.


(** An upload of 150 bytes. *)
Definition upload : RevisionMetadata :=
  mkRevisionMetadata None "b3" 150 "sha1-of-b3" "md5-of-b3" "adler32-of-b3".

(** Environments in which one kind of call fails. *)
Definition chtimes_fails : nat -> Call -> bool :=
  fun _ c => match c with os_Chtimes _ _ => true | _ => false end.
Definition chtimes_and_cleanup_fail : nat -> Call -> bool :=
  fun _ c => match c with
             | os_Chtimes _ _ | os_Remove _ | backend_Purge _ => true
             | _ => false
             end.

End Sample.

(** ** A concrete tree for the examples *)

Module TreeSample.

Import ocis.

Definition root : Node := mkNode "root" "" "" true.
Definition a : Node := mkNode "a" "root" "a" true.
Definition b : Node := mkNode "b" "a" "b.txt" true.

(** [root/a/b.txt]; the root carries the etag [e0]. *)
Definition state : State :=
  {| dirs := {[ "root"; "a"; "b" ]};
     links := {[ ("root", "a") := "a"; ("a", "b.txt") := "b" ]};
     xattr_parentid := {[ "root" := ""; "a" := "root"; "b" := "a" ]};
     xattr_name := {[ "root" := ""; "a" := "a"; "b" := "b.txt" ]};
     xattr_etag := {[ "root" := "e0" ]};
     etag_writes := [] |}.

Definition tree : Tree :=
  {| EnableHome := false;
     RootNode := Ok root;
     HomeNode := Err (NotFound "home");
     rand_Read := Ok "0123456789abcdef0123456789abcdef";
     os_fails := fun _ => false |}.

(** [lost] hangs below a directory the tree does not know. *)
Definition lost : Node := mkNode "lost" "gone" "lost.txt" true.
Definition target : Node := mkNode "lost" "a" "found.txt" false.

Definition state_with_lost : State :=
  {| dirs := {[ "root"; "a"; "lost" ]};
     links := {[ ("root", "a") := "a"; ("gone", "lost.txt") := "lost" ]};
     xattr_parentid := {[ "root" := ""; "a" := "root"; "lost" := "gone" ]};
     xattr_name := {[ "root" := ""; "a" := "a"; "lost" := "lost.txt" ]};
     xattr_etag := {[ "root" := "e0" ]};
     etag_writes := [] |}.




End TreeSample.

(** ** The vocabulary of the statements *)

(** The world after one more recorded call. *)
Definition log (w : World) (c : Call) : World :=
  mkWorld (files w) (metadata w) (trace w ++ [c])%list.

Section Vocabulary.

Variables (fs : Decomposedfs) (ref : Reference) (revisionKey : string).

(** The metadata after the two copies, from the metadata before. *)
Definition after_copy_to_revision (r : Restore) (nattrs : Attributes)
    (m : gmap string Attributes) : gmap string Attributes :=
  <[r_newRevisionPath fs ref r :=
      filterAttributes (filter_to_revision fs) nattrs
      ∪ default ∅ (m !! r_newRevisionPath fs ref r)]> m.

Definition after_copy_to_node (r : Restore) (rattrs : Attributes)
    (m : gmap string Attributes) : gmap string Attributes :=
  <[r_nodePath fs ref r :=
      filterAttributes (filter_to_node fs) rattrs
      ∪ default ∅ (m !! r_nodePath fs ref r)]> m.

(** The calls of a swap that went through. *)
Definition swap_calls (r : Restore) : list Call :=
  let revp := restoredRevisionPath fs ref revisionKey in
  [backend_All (r_nodePath fs ref r);
   backend_SetMultiple (r_newRevisionPath fs ref r);
   os_Chtimes (r_newRevisionPath fs ref r) (r_mtime r);
   node_SetCurrentRevision (r_node r) revisionKey;
   backend_All revp;
   backend_SetMultiple (r_nodePath fs ref r);
   backend_GetInt64 revp (BlobsizeAttr fs);
   os_Remove revp;
   os_Remove (MetadataPath fs revp);
   os_Remove (LockfilePath fs revp);
   backend_Purge revp].

(** A glob match is listed when it is no metadata file and the
    metadata, the mtime and the etag of its revision can be read. *)
Definition listed (n : Node) (m : gmap string Attributes) (item : string)
    (v : FileVersion) : Prop :=
  IsMetaFile fs item = false /\
  exists prefix ts attrs size mt t etag,
    strings.SplitN item RevisionIDDelimiter 2 = [prefix; ts] /\
    m !! InternalPath fs (SpaceID n) (JoinRevisionKey (ID n) ts) = Some attrs /\
    Attributes.Int64 attrs (BlobsizeAttr fs) = Some size /\
    attrs !! MTimeAttr fs = Some mt /\
    time_Parse fs mt = Some t /\
    CalculateEtag fs
      (mkNode (SpaceID n) (JoinRevisionKey (ID n) ts) (ParentID n) (Name n) true
         (Attributes.String attrs (BlobIDAttr fs)) size) t = Some etag /\
    v = mkFileVersion (JoinRevisionKey (ID n) ts) (to_uint64 (time_Unix fs t))
          (to_uint64 size) etag.

End Vocabulary.

(** [Propagate] leaves the shape of the tree alone. *)
Definition same_tree (st st' : ocis.State) : Prop :=
  ocis.dirs st = ocis.dirs st' /\ ocis.xattr_parentid st = ocis.xattr_parentid st' /\
  ocis.xattr_name st = ocis.xattr_name st'.


(** What a step may change: files outside [F] are there afterwards exactly
    when they were there before, and the metadata of paths outside [P] is
    as before, whatever the step returns. *)
Definition frame {A : Type} (F P : string -> Prop) (m : M A) : Prop :=
  forall w : World,
    (forall f, ~ F f -> (f ∈ files (snd (m w)) <-> f ∈ files w)) /\
    (forall p, ~ P p -> metadata (snd (m w)) !! p = metadata w !! p).

(** The files [RestoreRevision] of a revision of node [kp0] may create
    or remove: the lock of the node, the revisions of the node, and the
    metadata and lock files of the restored revision. *)
Definition RestoreRevision_files (fs : Decomposedfs) (ref : Reference)
    (revisionKey kp0 : string) (f : string) : Prop :=
  f = LockfilePath fs (InternalPath fs (SpaceId ref) kp0) \/
  (exists ts, f = InternalPath fs (SpaceId ref) (JoinRevisionKey kp0 ts)) \/
  f = MetadataPath fs (InternalPath fs (SpaceId ref) revisionKey) \/
  f = LockfilePath fs (InternalPath fs (SpaceId ref) revisionKey).

(** The paths whose metadata it may change: the node and its revisions. *)
Definition RestoreRevision_paths (fs : Decomposedfs) (ref : Reference)
    (kp0 : string) (p : string) : Prop :=
  p = InternalPath fs (SpaceId ref) kp0 \/
  exists ts, p = InternalPath fs (SpaceId ref) (JoinRevisionKey kp0 ts).

Section UploadRevisionNode.

Variable fs : Decomposedfs.

(** [CreateRevisionNode]: the lock of the revision is opened with
    [os.O_CREATE], then the revision file is touched with
    [os.OpenFile(revisionPath, os.O_CREATE, 0600)], which as [os.Create]
    leaves a file at the path and takes an existing one (no
    [os.O_EXCL]). Go returns the pair [(f, err)]: the lock handle comes
    back next to the error of the touch. *)
Definition CreateRevisionNode (revisionNode : Node) : M (string * option Error) :=
  let revisionPath := Node_InternalPath fs revisionNode in
  (* write lock existing node before reading any metadata *)
  f <- lockedfile_open fs (LockfilePath fs revisionPath) true ;;
  (* we also need to touch the versions node here to list revisions *)
  r <- attempt (os_create fs revisionPath) ;;
  match r with
  | Err err => ret (f, Some err)
  | Ok _ => ret (f, None)
  end.

End UploadRevisionNode.

(** The attributes [WriteRevisionMetadataToNode] writes. *)
Definition revision_attributes (fs : Decomposedfs) (rm : RevisionMetadata) : Attributes :=
  <[ChecksumPrefix fs ++ XSAdler32 fs := rm_ChecksumADLER32 rm]>
    (<[ChecksumPrefix fs ++ XSMD5 fs := rm_ChecksumMD5 rm]>
       (<[ChecksumPrefix fs ++ XSSHA1 fs := rm_ChecksumSHA1 rm]>
          (<[BlobsizeAttr fs := FormatInt (rm_BlobSize rm)]>
             (<[BlobIDAttr fs := rm_BlobID rm]> ∅)))).

(** The parent chain of [n] breaks before it reaches the node with id
    [root]: the ids on the way up, [n] first, the last one being the
    node whose parent cannot be read, and the error of that read. *)
Inductive path_broken (st : ocis.State) (root : string)
    : ocis.Node -> list string -> Error -> Prop :=
| broken_here (n : ocis.Node) (err : Error) :
    ocis.ID n <> root -> ocis.Parent st n = Err err ->
    path_broken st root n [ocis.ID n] err
| broken_up (n parent : ocis.Node) (ids : list string) (err : Error) :
    ocis.ID n <> root -> ocis.Parent st n = Ok parent ->
    path_broken st root parent ids err ->
    path_broken st root n (ocis.ID n :: ids) err.

(** ** The posix filesystem: GetQuota *)

Module posix.

(** [syscall.Statfs_t], the fields [GetQuota] reads: [Blocks] and
    [Bavail] are [uint64], [Bsize] is [int64]. *)
Record Statfs_t : Type := mkStatfs {
  Blocks : Z;
  Bavail : Z;
  Bsize : Z
}.

(** Go's [uint64] arithmetic wraps. *)
Definition mul_uint64 (a b : Z) : Z := ((a * b) mod 2 ^ 64)%Z.
Definition sub_uint64 (a b : Z) : Z := ((a - b) mod 2 ^ 64)%Z.

(** The environment of [GetQuota]: [fs.lu.HomeOrRootNode] is not part of
    the sources at hand, its result is taken as given, and of the node
    the internal path is what [GetQuota] uses; [syscall.Statfs] answers
    by path. *)
Record posixfs : Type := mkPosixfs {
  HomeOrRootNode : Result string;
  Statfs : string -> Result Statfs_t
}.

(** [GetQuota]: total, used and the error, as Go returns them. *)
Definition GetQuota (fs : posixfs) : Z * Z * option Error :=
  match HomeOrRootNode fs with
  | Err err => (0, 0, Some err)%Z
  | Ok path =>
      match Statfs fs path with
      | Err err => (0, 0, Some err)%Z
      | Ok stat =>
          (* Total data blocks in filesystem *)
          let total := mul_uint64 (Blocks stat) (to_uint64 (Bsize stat)) in
          let used := mul_uint64 (sub_uint64 (Blocks stat) (Bavail stat))
                        (to_uint64 (Bsize stat)) in
          (total, used, None)
      end
  end.

End posix.

(** ** The ocis tree: ListFolder *)

Module ocis_tree.

Import ocis.

(** What [ListFolder] asks of the operating system. *)
Inductive DirCall : Type :=
| Open (dir : string)
| Readdirnames (dir : string)
| Readlink (path : string).

Definition Failed_dir (c : DirCall) : Error :=
  match c with
  | Open dir => InternalError ("open " ++ dir)
  | Readdirnames dir => InternalError ("readdirent " ++ dir)
  | Readlink path => InternalError ("readlink " ++ path)
  end.

(** The environment of a listing: [t.pw.Root] and the calls that fail
    for a reason other than a missing directory. *)
Record Dirs : Type := mkDirs {
  Root : string;
  dir_fails : DirCall -> bool
}.

(** [f.Readdirnames(0)]: the names of the links below the node, in the
    order of the directory, which is not specified: no statement depends
    on the order the model reads them in. *)
Definition entries (st : State) (nodeID : string) : list string :=
  omap (fun e : string * string * string =>
          if String.eqb (fst (fst e)) nodeID then Some (snd (fst e)) else None)
       (map_to_list (links st)).

(** The loop of [ListFolder] over the names. The link of a child is
    [../<id>], so [filepath.Base(link)] is the id the state keeps. *)
Fixpoint ListFolder_loop (d : Dirs) (st : State) (dir : string) (node : Node)
    (names : list string) (nodes : list Node) : list Node :=
  match names with
  | [] => nodes
  | name :: names' =>
      if dir_fails d (Readlink (filepath_Join dir name))
      then (* TODO log *) ListFolder_loop d st dir node names' nodes
      else
        match links st !! (ID node, name) with
        | None => ListFolder_loop d st dir node names' nodes
        | Some link =>
            let n := mkNode link (ID node) name true (* TODO *) in
            ListFolder_loop d st dir node names' (nodes ++ [n])
        end
  end.

(** ListFolder lists the content of a folder node *)
Definition ListFolder (d : Dirs) (node : Node) (st : State) : Result (list Node) :=
  let dir := filepath_Join (filepath_Join (Root d) "nodes") (ID node) in
  if negb (bool_decide (ID node ∈ dirs st))
  then (* os.IsNotExist(err) *) Err (NotFound dir)
  else if dir_fails d (Open dir)
  then Err (Wrap (Failed_dir (Open dir)) ("tree: error listing " ++ dir))
  else if dir_fails d (Readdirnames dir)
  then Err (Failed_dir (Readdirnames dir))
  else Ok (ListFolder_loop d st dir node (entries st (ID node)) []).

End ocis_tree.

(** * Properties *)

(** ** Facts about [strings] *)

Section StringFacts.

Import strings.

Lemma app_nil_l_s (s : string) : "" ++ s = s.
Proof. reflexivity. Qed.

Lemma app_cons_s (c : ascii) (p s : string) :
  String c p ++ s = String c (p ++ s).
Proof. reflexivity. Qed.

Lemma HasPrefix_app (p s : string) : HasPrefix (p ++ s) p = true.
Proof.
  induction p as [|c p IH]; [reflexivity|].
  rewrite app_cons_s. simpl. now rewrite Ascii.eqb_refl.
Qed.

Lemma HasPrefix_spec (s p : string) :
  HasPrefix s p = true <-> exists r, s = p ++ r.
Proof.
  revert s; induction p as [|c p IH]; intros s; simpl.
  - split; [intros _; now exists s | reflexivity].
  - destruct s as [|d s]; [split; [discriminate | intros [r Hr]; discriminate]|].
    destruct (Ascii.eqb d c) eqn:E.
    + apply Ascii.eqb_eq in E; subst d. rewrite IH.
      split; intros [r Hr]; exists r.
      * now rewrite Hr.
      * rewrite app_cons_s in Hr. now inversion Hr.
    + apply Ascii.eqb_neq in E.
      split; [discriminate|].
      intros [r Hr]. rewrite app_cons_s in Hr. inversion Hr; congruence.
Qed.

Lemma drop_app_length (p s : string) : drop (String.length p) (p ++ s) = s.
Proof. induction p; [reflexivity|]. rewrite app_cons_s. simpl. auto. Qed.

Lemma take_app_length (p s : string) : take (String.length p) (p ++ s) = p.
Proof.
  induction p; [reflexivity|]. rewrite app_cons_s. simpl. now f_equal.
Qed.

Lemma take_drop (k : nat) (s : string) : take k s ++ drop k s = s.
Proof.
  revert s; induction k as [|k IH]; intros [|c s]; simpl; try reflexivity.
  rewrite app_cons_s. now rewrite IH.
Qed.

Lemma length_app_s (a b : string) :
  String.length (a ++ b) = (String.length a + String.length b)%nat.
Proof. induction a; [reflexivity|]. rewrite app_cons_s. simpl. auto. Qed.

Lemma app_assoc_s (a b c : string) : (a ++ b) ++ c = a ++ b ++ c.
Proof.
  induction a; [reflexivity|]. rewrite !app_cons_s. now f_equal.
Qed.

Lemma app_nil_r_s (a : string) : a ++ "" = a.
Proof. induction a; [reflexivity|]. rewrite app_cons_s. now f_equal. Qed.

Lemma app_inv_head_s (p a b : string) : p ++ a = p ++ b -> a = b.
Proof.
  induction p; intros H; [assumption|].
  rewrite !app_cons_s in H. inversion H; auto.
Qed.

(** [Index] finds the first occurrence: everything before it is no
    occurrence. *)
Lemma Index_Some (s sep : string) (m : nat) :
  Index s sep = Some m ->
  HasPrefix (drop m s) sep = true /\
  forall k, (k < m)%nat -> HasPrefix (drop k s) sep = false.
Proof.
  revert m; induction s as [|c s IH]; intros m; simpl.
  - destruct (HasPrefix "" sep) eqn:E; [|discriminate].
    intros [= <-]. split; [assumption | intros k Hk; lia].
  - destruct (HasPrefix (String c s) sep) eqn:E.
    + intros [= <-]. split; [assumption | intros k Hk; lia].
    + destruct (Index s sep) as [m'|] eqn:Ei; simpl; [|discriminate].
      intros [= <-]. destruct (IH m' eq_refl) as [H1 H2].
      split; [assumption|].
      intros [|k] Hk; simpl; [assumption | apply H2; lia].
Qed.

Lemma Index_None (s sep : string) :
  Index s sep = None -> forall k, HasPrefix (drop k s) sep = false.
Proof.
  induction s as [|c s IH]; simpl.
  - destruct (HasPrefix "" sep) eqn:E; [discriminate|].
    intros _ [|k]; simpl; assumption.
  - destruct (HasPrefix (String c s) sep) eqn:E; [discriminate|].
    destruct (Index s sep) eqn:Ei; simpl; [discriminate|].
    intros _ [|k]; simpl; [assumption | now apply IH].
Qed.

(** An occurrence at offset [m] with none before it is what [Index]
    returns. *)
Lemma Index_first (s sep : string) (m : nat) :
  HasPrefix (drop m s) sep = true ->
  (forall k, (k < m)%nat -> HasPrefix (drop k s) sep = false) ->
  Index s sep = Some m.
Proof.
  revert s; induction m as [|m IH]; intros s Hm Hlt.
  - simpl in Hm. destruct s; simpl; now rewrite Hm.
  - assert (H0 : HasPrefix s sep = false) by (apply (Hlt O); lia).
    destruct s as [|c s]; simpl in *.
    + rewrite H0 in Hm. discriminate.
    + rewrite H0, (IH s Hm); [reflexivity|].
      intros k Hk. apply (Hlt (S k)). lia.
Qed.

Lemma Contains_false (s sep : string) :
  Contains s sep = false <-> forall k, HasPrefix (drop k s) sep = false.
Proof.
  unfold Contains. destruct (Index s sep) as [m|] eqn:E.
  - split; [discriminate|]. intros H.
    apply Index_Some in E as [E _]. rewrite H in E. discriminate.
  - split; [intros _; now apply Index_None | reflexivity].
Qed.

End StringFacts.

(** ** Revision keys: split and join *)

Section RevisionKeys.

Import strings.

Lemma HasPrefix_app_long (x z p : string) :
  (String.length p <= String.length x)%nat ->
  HasPrefix (x ++ z) p = HasPrefix x p.
Proof.
  revert x; induction p as [|c p IH]; intros x Hlen; [reflexivity|].
  destruct x as [|d x]; simpl in Hlen; [lia|].
  rewrite app_cons_s. simpl. destruct (Ascii.eqb d c); [|reflexivity].
  apply IH. lia.
Qed.

Lemma drop_app_le (k : nat) (x z : string) :
  (k <= String.length x)%nat -> drop k (x ++ z) = drop k x ++ z.
Proof.
  revert x; induction k as [|k IH]; intros x Hk; [reflexivity|].
  destruct x as [|d x]; simpl in Hk; [lia|].
  rewrite app_cons_s. simpl. apply IH. lia.
Qed.

Lemma length_drop (k : nat) (x : string) :
  String.length (drop k x) = (String.length x - k)%nat.
Proof.
  revert x; induction k as [|k IH]; intros x; simpl; [lia|].
  destruct x as [|d x]; simpl; [reflexivity | apply IH].
Qed.

(** The joined key read as "everything up to and including [.REV]"
    followed by the dot and the timestamp. *)
Lemma JoinRevisionKey_assoc (id ts : string) :
  JoinRevisionKey id ts = (id ++ ".REV") ++ "." ++ ts.
Proof.
  unfold JoinRevisionKey, RevisionIDDelimiter.
  now rewrite app_assoc_s.
Qed.

(** In a joined key the delimiter is found at the end of the node id
    as soon as it does not occur in [id ++ ".REV"]. *)
Lemma Index_JoinRevisionKey (id ts : string) :
  Contains (id ++ ".REV") RevisionIDDelimiter = false ->
  Index (JoinRevisionKey id ts) RevisionIDDelimiter = Some (String.length id).
Proof.
  intros Hno. apply Index_first.
  - unfold JoinRevisionKey. rewrite drop_app_length. apply HasPrefix_app.
  - intros k Hk. rewrite JoinRevisionKey_assoc.
    rewrite drop_app_le by (rewrite length_app_s; simpl; lia).
    rewrite HasPrefix_app_long.
    + now apply Contains_false.
    + rewrite length_drop, length_app_s. simpl. lia.
Qed.

Lemma SplitN_JoinRevisionKey (id ts : string) :
  Contains (id ++ ".REV") RevisionIDDelimiter = false ->
  SplitN (JoinRevisionKey id ts) RevisionIDDelimiter 2 = [id; ts].
Proof.
  intros Hno. unfold SplitN.
  assert (Hlen : (Nat.min 2 (String.length (JoinRevisionKey id ts) + 1) - 1 = 1)%nat).
  { unfold JoinRevisionKey, RevisionIDDelimiter. rewrite !length_app_s.
    change (String.length ".REV.") with 5%nat. lia. }
  rewrite Hlen. simpl genSplit_loop.
  rewrite (Index_JoinRevisionKey id ts Hno).
  unfold JoinRevisionKey at 1. rewrite take_app_length.
  f_equal. f_equal.
  unfold JoinRevisionKey. rewrite <- app_assoc_s.
  match goal with
  | |- drop ?k _ = _ =>
      replace k with (String.length (id ++ RevisionIDDelimiter))
        by (now rewrite length_app_s)
  end.
  apply drop_app_length.
Qed.

(** Without the delimiter [SplitN] returns the one-element slice. *)
Lemma SplitN_no_delimiter (key : string) :
  Contains key RevisionIDDelimiter = false ->
  SplitN key RevisionIDDelimiter 2 = [key].
Proof.
  intros Hno. unfold SplitN.
  destruct (Nat.min 2 (String.length key + 1) - 1)%nat; simpl; [reflexivity|].
  unfold Contains in Hno.
  destruct (Index key RevisionIDDelimiter); [discriminate | reflexivity].
Qed.

(** With the delimiter [SplitN] cuts at its first occurrence: two
    parts, the first of which is free of the delimiter. *)
Lemma SplitN_delimiter (key : string) (m : nat) :
  Index key RevisionIDDelimiter = Some m ->
  SplitN key RevisionIDDelimiter 2 =
    [take m key; drop (m + String.length RevisionIDDelimiter) key].
Proof.
  intros Hm. unfold SplitN.
  assert (Hlen : (5 <= String.length key)%nat).
  { apply Index_Some in Hm as [Hp _]. apply HasPrefix_spec in Hp as [r Hr].
    assert (H := length_drop m key). rewrite Hr, length_app_s in H.
    simpl in H. lia. }
  replace (Nat.min 2 (String.length key + 1) - 1)%nat with 1%nat by lia.
  simpl genSplit_loop. now rewrite Hm.
Qed.

(** An id without any dot (a UUID, say) is a valid id for the
    round trip. *)
Lemma no_dot_valid_id (id : string) :
  Contains id "." = false ->
  Contains (id ++ ".REV") RevisionIDDelimiter = false.
Proof.
  induction id as [|c id IH]; [reflexivity|].
  unfold Contains. rewrite app_cons_s. simpl.
  destruct (Ascii.eqb c ".") eqn:E; [discriminate|].
  intros H. unfold Contains in IH.
  destruct (Index id ".") eqn:Ei; [discriminate|].
  specialize (IH eq_refl).
  destruct (Index (id ++ ".REV") RevisionIDDelimiter); [discriminate | reflexivity].
Qed.

(** The delimiter occurs in [id ++ ".REV"] exactly when it occurs in [id]
    or [id] ends in [".REV"]. *)
Lemma valid_id_spec (id : string) :
  Contains (id ++ ".REV") RevisionIDDelimiter = false <->
  Contains id RevisionIDDelimiter = false /\ HasSuffix id ".REV" = false.
Proof.
  rewrite !Contains_false. split.
  - intros Hno. split.
    + intros k.
      destruct (HasPrefix (drop k id) RevisionIDDelimiter) eqn:E; [|reflexivity].
      apply HasPrefix_spec in E as [r Hr].
      assert (Hk : (k <= String.length id)%nat).
      { assert (Hl := length_drop k id). rewrite Hr, length_app_s in Hl.
        change (String.length RevisionIDDelimiter) with 5%nat in Hl. lia. }
      specialize (Hno k). rewrite drop_app_le in Hno by exact Hk.
      rewrite Hr, app_assoc_s, HasPrefix_app in Hno. discriminate.
    + unfold HasSuffix. change (String.length ".REV") with 4%nat.
      destruct (4 <=? String.length id)%nat eqn:Hlen; [|reflexivity].
      apply Nat.leb_le in Hlen. cbn [andb].
      destruct (String.eqb_spec (drop (String.length id - 4) id) ".REV") as [E|_];
        [|reflexivity].
      specialize (Hno (String.length id - 4)%nat).
      rewrite drop_app_le, E in Hno by lia. discriminate.
  - intros [Hno Hsuf] k.
    destruct (HasPrefix (drop k (id ++ ".REV")) RevisionIDDelimiter) eqn:E;
      [|reflexivity].
    apply HasPrefix_spec in E as [r Hr].
    assert (Hlen := length_drop k (id ++ ".REV")).
    rewrite Hr, !length_app_s in Hlen.
    change (String.length RevisionIDDelimiter) with 5%nat in Hlen.
    change (String.length ".REV") with 4%nat in Hlen.
    rewrite drop_app_le in Hr by lia.
    specialize (Hno k).
    assert (Hla := length_drop k id).
    destruct (drop k id) as [|c1 [|c2 [|c3 [|c4 [|c5 a]]]]] eqn:Ha;
      simpl in Hla; try (exfalso; lia).
    + rewrite !app_cons_s in Hr. discriminate.
    + rewrite !app_cons_s in Hr. discriminate.
    + rewrite !app_cons_s in Hr. discriminate.
    + rewrite !app_cons_s, app_nil_l_s in Hr.
      unfold RevisionIDDelimiter in Hr. rewrite !app_cons_s in Hr.
      injection Hr as -> -> -> -> _.
      unfold HasSuffix in Hsuf. change (String.length ".REV") with 4%nat in Hsuf.
      replace (String.length id - 4)%nat with k in Hsuf by lia.
      rewrite Ha in Hsuf.
      assert (H4 : (4 <=? String.length id)%nat = true) by (apply Nat.leb_le; lia).
      rewrite H4 in Hsuf. discriminate.
    + rewrite !app_cons_s in Hr.
      unfold RevisionIDDelimiter in Hr. rewrite !app_cons_s in Hr.
      injection Hr as -> -> -> -> -> _.
      simpl in Hno. discriminate.
Qed.

End RevisionKeys.

(** C3, the claim as stated fails: the delimiter starts and ends with a
    dot, so a node id that ends in [.REV] (and does not contain the
    delimiter) forms the delimiter one position early once it is joined. *)
Lemma SplitRevisionKey_roundtrip_overlap :
  strings.Contains "a.REV" RevisionIDDelimiter = false /\
  strings.HasSuffix "a.REV" ".REV" = true /\
  JoinRevisionKey "a.REV" "t" = "a.REV.REV.t" /\
  SplitRevisionKey (JoinRevisionKey "a.REV" "t") = ("a", "REV.t") /\
  ~ (forall id ts : string,
        strings.Contains id RevisionIDDelimiter = false ->
        SplitRevisionKey (JoinRevisionKey id ts) = (id, ts)).
Proof.
  repeat split; try reflexivity.
  intros H. specialize (H "a.REV" "t" eq_refl). discriminate H.
Qed.

(** C3 (amended): for every node id [id] that neither contains the
    delimiter [".REV."] nor ends in [".REV"], and every timestamp [ts],
    [SplitRevisionKey (JoinRevisionKey id ts) = (id, ts)] and
    [JoinRevisionKey id ts = id ++ ".REV." ++ ts]; and for every key that
    does not contain the delimiter, [SplitRevisionKey] returns the pair
    (original key, empty string). *)
Theorem SplitRevisionKey_roundtrip (id ts key : string)
    (Hid : strings.Contains id RevisionIDDelimiter = false)
    (Hend : strings.HasSuffix id ".REV" = false)
    (Hkey : strings.Contains key RevisionIDDelimiter = false) :
  SplitRevisionKey (JoinRevisionKey id ts) = (id, ts) /\
  JoinRevisionKey id ts = id ++ ".REV." ++ ts /\
  SplitRevisionKey key = (key, "").
Proof.
  assert (Hvalid : strings.Contains (id ++ ".REV") RevisionIDDelimiter = false)
    by (apply valid_id_spec; now split).
  unfold SplitRevisionKey.
  rewrite (SplitN_JoinRevisionKey id ts Hvalid), (SplitN_no_delimiter key Hkey).
  repeat split.
Qed.

Lemma SplitRevisionKey_roundtrip_witness :
  SplitRevisionKey
    (JoinRevisionKey "4c510ada-c86b-4815-8820-42cdf82c3d51" "2023-01-02T03:04:05.000000006Z")
  = ("4c510ada-c86b-4815-8820-42cdf82c3d51", "2023-01-02T03:04:05.000000006Z") /\
  JoinRevisionKey "4c510ada-c86b-4815-8820-42cdf82c3d51" "2023-01-02T03:04:05.000000006Z"
  = "4c510ada-c86b-4815-8820-42cdf82c3d51" ++ ".REV." ++ "2023-01-02T03:04:05.000000006Z" /\
  SplitRevisionKey "4c510ada-c86b-4815-8820-42cdf82c3d51"
  = ("4c510ada-c86b-4815-8820-42cdf82c3d51", "").
Proof.
  apply (SplitRevisionKey_roundtrip
           "4c510ada-c86b-4815-8820-42cdf82c3d51" "2023-01-02T03:04:05.000000006Z"
           "4c510ada-c86b-4815-8820-42cdf82c3d51"); vm_compute; reflexivity.
Defined.

(** ** Facts about the monad and the primitives *)

Lemma Sample_InternalPath_inj (perms : ResourcePermissions) (faults : nat -> Call -> bool)
    (spaceID id id' : string) :
  InternalPath (Sample.storage perms faults) spaceID id
  = InternalPath (Sample.storage perms faults) spaceID id' -> id = id'.
Proof.
  simpl. intros H.
  apply app_inv_head_s in H. apply app_inv_head_s in H.
  now apply app_inv_head_s in H.
Qed.


Section MonadFacts.

Variable fs : Decomposedfs.

Lemma call_eq (c : Call) (w : World) :
  call fs c w =
    (if fails fs (length (trace w)) c then Err (Failed c) else Ok tt, log w c).
Proof. unfold call, log. now destruct (fails fs _ c). Qed.

Lemma metadata_log (w : World) (c : Call) : metadata (log w c) = metadata w.
Proof. reflexivity. Qed.

Lemma files_log (w : World) (c : Call) : files (log w c) = files w.
Proof. reflexivity. Qed.


Lemma bind_Ok {A B} (m : M A) (k : A -> M B) (w w' : World) (b : B) :
  bind m k w = (Ok b, w') <->
  exists a w1, m w = (Ok a, w1) /\ k a w1 = (Ok b, w').
Proof.
  unfold bind. destruct (m w) as [[a|e] w1]; split.
  - intros H. now exists a, w1.
  - intros (a' & w1' & [= -> ->] & H). exact H.
  - discriminate.
  - intros (a' & w1' & [=] & _).
Qed.

Lemma bind_Err {A B} (m : M A) (k : A -> M B) (w w' : World) (e : Error) :
  bind m k w = (Err e, w') <->
  m w = (Err e, w') \/ exists a w1, m w = (Ok a, w1) /\ k a w1 = (Err e, w').
Proof.
  unfold bind. destruct (m w) as [[a|e0] w1]; split.
  - intros H. right. now exists a, w1.
  - intros [[=] | (a' & w1' & [= -> ->] & H)]. exact H.
  - intros [= -> ->]. now left.
  - intros [[= -> ->] | (a' & w1' & [=] & _)]. reflexivity.
Qed.

(** A call that does not fail only extends the trace. *)
Lemma bind_call_ok {B} (c : Call) (k : M B) (w : World) :
  fails fs (length (trace w)) c = false ->
  (call fs c ;;; k) w = k (log w c).
Proof. intros H. unfold bind. now rewrite call_eq, H. Qed.

Lemma bind_call_fail {B} (c : Call) (k : M B) (w : World) :
  fails fs (length (trace w)) c = true ->
  (call fs c ;;; k) w = (Err (Failed c), log w c).
Proof. intros H. unfold bind. now rewrite call_eq, H. Qed.

(** [ReadNode] of a node the backend knows. *)
Lemma ReadNode_exists (spaceID nodeID : string) (w : World)
    (attrs : Attributes) (size : Z) :
  fails fs (length (trace w)) (node_ReadNode spaceID nodeID) = false ->
  metadata w !! InternalPath fs spaceID nodeID = Some attrs ->
  Attributes.Int64 attrs (BlobsizeAttr fs) = Some size ->
  ReadNode fs spaceID nodeID w =
    (Ok (mkNode spaceID nodeID
           (Attributes.String attrs (ParentidAttr fs))
           (Attributes.String attrs (NameAttr fs))
           true
           (Attributes.String attrs (BlobIDAttr fs))
           size),
     log w (node_ReadNode spaceID nodeID)).
Proof.
  intros Hf Hm Hs. unfold ReadNode. rewrite bind_call_ok by assumption.
  unfold bind, get_metadata. simpl. now rewrite Hm, Hs.
Qed.

Lemma AssemblePermissions_ok (n : Node) (w : World) :
  fails fs (length (trace w)) (p_AssemblePermissions n) = false ->
  AssemblePermissions fs n w = (Ok (permissions fs n), log w (p_AssemblePermissions n)).
Proof.
  intros Hf. unfold AssemblePermissions. now rewrite bind_call_ok by assumption.
Qed.

End MonadFacts.

(** [SplitN] with two results cuts the key at the delimiter. *)
Lemma drop_drop (m k : nat) (s : string) :
  strings.drop (m + k) s = strings.drop k (strings.drop m s).
Proof.
  revert s; induction m as [|m IH]; intros s; [reflexivity|].
  destruct s as [|c s]; simpl; [now destruct k | apply IH].
Qed.

Lemma SplitN_two (key kp0 kp1 : string) :
  strings.SplitN key RevisionIDDelimiter 2 = [kp0; kp1] ->
  key = JoinRevisionKey kp0 kp1 /\
  strings.Contains kp0 RevisionIDDelimiter = false.
Proof.
  intros H.
  destruct (strings.Index key RevisionIDDelimiter) as [m|] eqn:Hi.
  - rewrite (SplitN_delimiter key m Hi) in H. injection H as <- <-.
    destruct (Index_Some _ _ _ Hi) as [Hp Hlt].
    apply HasPrefix_spec in Hp as [r Hr].
    split.
    + unfold JoinRevisionKey. rewrite drop_drop, Hr.
      change 5%nat with (String.length RevisionIDDelimiter).
      rewrite drop_app_length.
      rewrite <- Hr. symmetry. apply take_drop.
    + apply Contains_false. intros k.
      destruct (Nat.lt_ge_cases k m) as [Hk|Hk].
      * specialize (Hlt k Hk).
        rewrite <- (take_drop m key) in Hlt.
        destruct (strings.HasPrefix (strings.drop k (strings.take m key))
                    RevisionIDDelimiter) eqn:E; [|reflexivity].
        apply HasPrefix_spec in E as [r' Hr'].
        assert (Hkl : (k <= String.length (strings.take m key))%nat).
        { assert (Hl := length_drop k (strings.take m key)).
          rewrite Hr', length_app_s in Hl.
          change (String.length RevisionIDDelimiter) with 5%nat in Hl. lia. }
        rewrite drop_app_le in Hlt by exact Hkl.
        rewrite Hr', app_assoc_s, HasPrefix_app in Hlt. discriminate.
      * destruct (strings.HasPrefix (strings.drop k (strings.take m key))
                    RevisionIDDelimiter) eqn:E; [|reflexivity].
        apply HasPrefix_spec in E as [r' Hr'].
        assert (Hl := length_drop k (strings.take m key)).
        rewrite Hr', length_app_s in Hl.
        change (String.length RevisionIDDelimiter) with 5%nat in Hl.
        assert (Ht : (String.length (strings.take m key) <= m)%nat).
        { clear. revert key; induction m as [|m IH]; intros [|c s]; simpl; try lia.
          specialize (IH s). lia. }
        lia.
  - unfold strings.SplitN in H.
    destruct (Nat.min 2 (String.length key + 1) - 1)%nat; simpl in H;
      [discriminate|]. rewrite Hi in H. discriminate.
Qed.

(** ** Reading a revision that does not exist *)

Section ReadRevisionFacts.

Variable fs : Decomposedfs.

(** When the backend has nothing at the revision's path, the handle
    comes back as [RevisionNode] built it, with [Exists = false], and no
    error. *)
Lemma ReadRevision_not_exist (n : Node) (revision : string) (w : World) :
  let rn := RevisionNode n revision in
  fails fs (length (trace w)) (backend_All (Node_InternalPath fs rn)) = false ->
  metadata w !! Node_InternalPath fs rn = None ->
  ReadRevision fs n revision w = (Ok rn, log w (backend_All (Node_InternalPath fs rn))).
Proof.
  intros rn Hf Hm. unfold ReadRevision, attempt, Xattrs, backend_all.
  fold rn. unfold bind at 1.
  rewrite bind_call_ok by assumption.
  unfold bind, get_metadata. simpl. rewrite Hm. reflexivity.
Qed.

(** When the backend has the revision, the handle carries its blob. *)
Lemma ReadRevision_exists (n : Node) (revision : string) (w : World)
    (attrs : Attributes) (size : Z) :
  let rn := RevisionNode n revision in
  fails fs (length (trace w)) (backend_All (Node_InternalPath fs rn)) = false ->
  metadata w !! Node_InternalPath fs rn = Some attrs ->
  Attributes.Int64 attrs (BlobsizeAttr fs) = Some size ->
  ReadRevision fs n revision w =
    (Ok (mkNode (SpaceID n) (JoinRevisionKey (ID n) revision) (ParentID n) (Name n)
           true (Attributes.String attrs (BlobIDAttr fs)) size),
     log w (backend_All (Node_InternalPath fs rn))).
Proof.
  intros rn Hf Hm Hs. unfold ReadRevision, attempt, Xattrs, backend_all.
  fold rn. unfold bind at 1.
  rewrite bind_call_ok by assumption.
  unfold bind, get_metadata. rewrite metadata_log, Hm.
  unfold ret. cbv beta iota. rewrite Hs. reflexivity.
Qed.

End ReadRevisionFacts.

(** C10: when the metadata backend reports a not-exist condition for the
    revision, [ReadRevision] returns the revision handle with
    [Exists = false] and no error; and [DownloadRevision], for a
    well-formed key of an existing node on which the caller may list and
    download, does not answer NotFound but asks the blobstore for the blob
    of that nonexistent revision node: its result is the blobstore's. *)
Theorem DownloadRevision_missing_revision
    (fs : Decomposedfs) (ref : Reference) (revisionKey kp0 kp1 : string)
    (w : World) (attrs : Attributes) (size : Z) :
  let n := mkNode (SpaceId ref) kp0
             (Attributes.String attrs (ParentidAttr fs))
             (Attributes.String attrs (NameAttr fs))
             true (Attributes.String attrs (BlobIDAttr fs)) size in
  let rn := RevisionNode n kp1 in
  let w1 := log w (node_ReadNode (SpaceId ref) kp0) in
  let w2 := log w1 (p_AssemblePermissions n) in
  let w3 := log w2 (backend_All (Node_InternalPath fs rn)) in
  strings.SplitN revisionKey RevisionIDDelimiter 2 = [kp0; kp1] ->
  metadata w !! InternalPath fs (SpaceId ref) kp0 = Some attrs ->
  Attributes.Int64 attrs (BlobsizeAttr fs) = Some size ->
  ListFileVersions (permissions fs n) = true ->
  InitiateFileDownload (permissions fs n) = true ->
  metadata w !! InternalPath fs (SpaceId ref) revisionKey = None ->
  fails fs (length (trace w)) (node_ReadNode (SpaceId ref) kp0) = false ->
  fails fs (length (trace w1)) (p_AssemblePermissions n) = false ->
  fails fs (length (trace w2)) (backend_All (Node_InternalPath fs rn)) = false ->
  ReadRevision fs n kp1 w2 = (Ok rn, w3) /\
  Exists rn = false /\
  ID rn = revisionKey /\
  DownloadRevision fs ref revisionKey w =
    (if fails fs (length (trace w3)) (blobstore_Download rn)
     then Err (Wrap (Failed (blobstore_Download rn))
                 "Decomposedfs: could not download blob of revision")
     else Ok rn,
     log w3 (blobstore_Download rn)).
Proof.
  intros n rn w1 w2 w3 Hsplit Hmeta Hsize Hlist Hdown Hrev Hf1 Hf2 Hf3.
  destruct (SplitN_two _ _ _ Hsplit) as [Hkey _].
  assert (Hpath : Node_InternalPath fs rn = InternalPath fs (SpaceId ref) revisionKey).
  { unfold Node_InternalPath, rn, RevisionNode, n. simpl. now rewrite Hkey. }
  assert (Hread : ReadRevision fs n kp1 w2 = (Ok rn, w3)).
  { apply ReadRevision_not_exist; [exact Hf3|]. fold rn. rewrite Hpath. exact Hrev. }
  repeat split.
  - exact Hread.
  - unfold rn, RevisionNode, n. simpl. now rewrite Hkey.
  - unfold DownloadRevision. rewrite Hsplit.
    unfold bind at 1.
    rewrite (ReadNode_exists fs _ _ w attrs size Hf1 Hmeta Hsize). fold n w1.
    change (negb (Exists n)) with false. cbv iota.
    unfold bind at 1. rewrite (AssemblePermissions_ok fs n w1 Hf2). fold w2.
    rewrite Hlist, Hdown. cbn [negb orb].
    unfold bind, orError. rewrite Hread.
    unfold blobstore_download, bind. rewrite call_eq.
    destruct (fails fs (length (trace w3)) (blobstore_Download rn)); reflexivity.
Qed.

Lemma DownloadRevision_missing_revision_witness :
  let fs := Sample.storage Sample.all_permissions Sample.no_faults in
  let rn := mkNode "s1" "n1.REV.777" "root" "a.txt" false "" 0 in
  DownloadRevision fs Sample.ref "n1.REV.777" Sample.world =
    (Ok rn,
     mkWorld (files Sample.world) (metadata Sample.world)
       [node_ReadNode "s1" "n1";
        p_AssemblePermissions (mkNode "s1" "n1" "root" "a.txt" true "b2" 10);
        backend_All "/spaces/s1/nodes/n1.REV.777";
        blobstore_Download rn]).
Proof.
  intros fs rn.
  exact (proj2 (proj2 (proj2
    (DownloadRevision_missing_revision fs Sample.ref "n1.REV.777" "n1" "777"
       Sample.world (Sample.file_attrs "b2" 10 2000) 10
       eq_refl eq_refl eq_refl eq_refl eq_refl eq_refl eq_refl eq_refl eq_refl)))).
Defined.

(** ** Permissions of the revision operations *)

Section Permissions.

Variables (fs : Decomposedfs) (ref : Reference) (revisionKey kp0 kp1 : string).
Variables (w : World) (attrs : Attributes) (size : Z).

(** The node [ReadNode] returns for [kp0]. *)
Let n : Node :=
  mkNode (SpaceId ref) kp0
    (Attributes.String attrs (ParentidAttr fs))
    (Attributes.String attrs (NameAttr fs))
    true (Attributes.String attrs (BlobIDAttr fs)) size.
Let w1 : World := log w (node_ReadNode (SpaceId ref) kp0).
Let w2 : World := log w1 (p_AssemblePermissions n).

Hypothesis Hsplit : strings.SplitN revisionKey RevisionIDDelimiter 2 = [kp0; kp1].
Hypothesis Hmeta : metadata w !! InternalPath fs (SpaceId ref) kp0 = Some attrs.
Hypothesis Hsize : Attributes.Int64 attrs (BlobsizeAttr fs) = Some size.
Hypothesis Hread : fails fs (length (trace w)) (node_ReadNode (SpaceId ref) kp0) = false.
Hypothesis Hperm : fails fs (length (trace w1)) (p_AssemblePermissions n) = false.

Lemma ListRevisions_denied :
  OpaqueId ref = kp0 ->
  ListFileVersions (permissions fs n) = false ->
  ListRevisions fs ref w = (Err (denied fs ref (permissions fs n)), w2).
Proof using Hmeta Hsize Hread Hperm.
  intros Hid Hp. unfold ListRevisions, NodeFromResource. rewrite Hid.
  unfold bind at 1.
  rewrite (ReadNode_exists fs _ _ w attrs size Hread Hmeta Hsize). fold n w1.
  change (negb (Exists n)) with false. cbv iota.
  unfold bind at 1. rewrite (AssemblePermissions_ok fs n w1 Hperm). fold w2.
  now rewrite Hp.
Qed.

Lemma DownloadRevision_denied :
  ListFileVersions (permissions fs n) && InitiateFileDownload (permissions fs n) = false ->
  DownloadRevision fs ref revisionKey w = (Err (denied fs ref (permissions fs n)), w2).
Proof using Hsplit Hmeta Hsize Hread Hperm.
  intros Hp. unfold DownloadRevision. rewrite Hsplit.
  unfold bind at 1.
  rewrite (ReadNode_exists fs _ _ w attrs size Hread Hmeta Hsize). fold n w1.
  change (negb (Exists n)) with false. cbv iota.
  unfold bind at 1. rewrite (AssemblePermissions_ok fs n w1 Hperm). fold w2.
  rewrite <- negb_andb, Hp. reflexivity.
Qed.

Lemma RestoreRevision_denied :
  RestoreFileVersion (permissions fs n) = false ->
  RestoreRevision fs ref revisionKey w = (Err (denied fs ref (permissions fs n)), w2).
Proof using Hsplit Hmeta Hsize Hread Hperm.
  intros Hp. unfold RestoreRevision, RestoreRevision_begin. rewrite Hsplit.
  unfold bind at 1. unfold bind at 1.
  rewrite (ReadNode_exists fs _ _ w attrs size Hread Hmeta Hsize). fold n w1.
  change (negb (Exists n)) with false. cbv iota.
  unfold bind at 1. rewrite (AssemblePermissions_ok fs n w1 Hperm). fold w2.
  now rewrite Hp.
Qed.

(** [getRevisionNode] has no Stat case. *)
Lemma getRevisionNode_denied (hasPermission : ResourcePermissions -> bool) :
  hasPermission (permissions fs n) = false ->
  getRevisionNode fs ref revisionKey hasPermission w =
    (Err (PermissionDenied (filepath_Join (ParentID n) (Name n))), w2).
Proof using Hsplit Hmeta Hsize Hread Hperm.
  intros Hp. unfold getRevisionNode. rewrite Hsplit.
  unfold bind at 1.
  rewrite (ReadNode_exists fs _ _ w attrs size Hread Hmeta Hsize). fold n w1.
  change (negb (Exists n)) with false. cbv iota.
  unfold bind at 1. rewrite (AssemblePermissions_ok fs n w1 Hperm). fold w2.
  now rewrite Hp.
Qed.

Lemma getRevisionNode_permitted (hasPermission : ResourcePermissions -> bool) :
  hasPermission (permissions fs n) = true ->
  getRevisionNode fs ref revisionKey hasPermission w = (Ok n, w2).
Proof using Hsplit Hmeta Hsize Hread Hperm.
  intros Hp. unfold getRevisionNode. rewrite Hsplit.
  unfold bind at 1.
  rewrite (ReadNode_exists fs _ _ w attrs size Hread Hmeta Hsize). fold n w1.
  change (negb (Exists n)) with false. cbv iota.
  unfold bind at 1. rewrite (AssemblePermissions_ok fs n w1 Hperm). fold w2.
  now rewrite Hp.
Qed.

(** X3: the three operations with the Stat switch: on an existing node,
    without the permission the operation asks for, the error is
    PermissionDenied for a caller who may Stat and NotFound otherwise. *)
Lemma permission_switch :
  let rp := permissions fs n in
  let expected := if Stat rp then PermissionDenied (FormatReference fs ref)
                  else NotFound (FormatReference fs ref) in
  (OpaqueId ref = kp0 -> ListFileVersions rp = false ->
   fst (ListRevisions fs ref w) = Err expected) /\
  (ListFileVersions rp && InitiateFileDownload rp = false ->
   fst (DownloadRevision fs ref revisionKey w) = Err expected) /\
  (RestoreFileVersion rp = false ->
   fst (RestoreRevision fs ref revisionKey w) = Err expected).
Proof using Hsplit Hmeta Hsize Hread Hperm.
  intros rp expected. repeat split.
  - intros Hid Hp. now rewrite ListRevisions_denied.
  - intros Hp. now rewrite DownloadRevision_denied.
  - intros Hp. now rewrite RestoreRevision_denied.
Qed.

(** C5, where the code departs from the claim: [DeleteRevision] on an
    existing node without the RestoreFileVersion permission answers
    PermissionDenied whether or not the caller may Stat; for a caller
    without Stat the claim asks for NotFound. *)
Theorem DeleteRevision_denied_without_stat :
  RestoreFileVersion (permissions fs n) = false ->
  Stat (permissions fs n) = false ->
  DeleteRevision fs ref revisionKey w =
    (Err (PermissionDenied (filepath_Join (ParentID n) (Name n))), w2) /\
  forall what, fst (DeleteRevision fs ref revisionKey w) <> Err (NotFound what).
Proof using Hsplit Hmeta Hsize Hread Hperm.
  intros Hp _. unfold DeleteRevision, bind.
  rewrite (getRevisionNode_denied _ Hp). now split.
Qed.

(** [DeleteRevision] of a permitted caller: the revision's path is
    removed, and the blobstore is told to delete the blob of [n], the
    node read for [kp0]. *)
Lemma DeleteRevision_permitted :
  let revisionPath := InternalPath fs (SpaceId ref) revisionKey in
  let w3 := log w2 (os_RemoveAll revisionPath) in
  RestoreFileVersion (permissions fs n) = true ->
  fails fs (length (trace w2)) (os_RemoveAll revisionPath) = false ->
  DeleteRevision fs ref revisionKey w =
    (if fails fs (length (trace w3)) (blobstore_Delete n)
     then Err (Failed (blobstore_Delete n)) else Ok tt,
     mkWorld (files w ∖ {[revisionPath]}) (metadata w)
       (trace w3 ++ [blobstore_Delete n])).
Proof using Hsplit Hmeta Hsize Hread Hperm.
  intros revisionPath w3 Hp Hf. unfold DeleteRevision.
  unfold bind at 1. rewrite (getRevisionNode_permitted _ Hp).
  unfold os_removeAll. change (SpaceID n) with (SpaceId ref). fold revisionPath.
  unfold bind at 1. rewrite bind_call_ok by exact Hf. fold w3.
  unfold set_files, blobstore_delete. rewrite call_eq.
  simpl. destruct (fails fs _ (blobstore_Delete n)); reflexivity.
Qed.

End Permissions.

Lemma DeleteRevision_denied_without_stat_witness :
  DeleteRevision (Sample.storage Sample.no_permissions Sample.no_faults)
    Sample.ref "n1.REV.1000" Sample.world =
  (Err (PermissionDenied "root/a.txt"),
   mkWorld (files Sample.world) (metadata Sample.world)
     [node_ReadNode "s1" "n1";
      p_AssemblePermissions (mkNode "s1" "n1" "root" "a.txt" true "b2" 10)]).
Proof.
  exact (proj1
    (DeleteRevision_denied_without_stat
       (Sample.storage Sample.no_permissions Sample.no_faults)
       Sample.ref "n1.REV.1000" "n1" "1000" Sample.world
       (Sample.file_attrs "b2" 10 2000) 10
       eq_refl eq_refl eq_refl eq_refl eq_refl eq_refl eq_refl)).
Defined.

(** C7, where the code departs from the claim: the node [DeleteRevision]
    hands to [blobstore.Delete] is the one [getRevisionNode] read for the
    node id in front of the delimiter, the current node with the current
    blob, and not the node of the revision key. *)
Theorem DeleteRevision_deletes_blob_of_current_node
    (fs : Decomposedfs) (ref : Reference) (revisionKey kp0 kp1 : string)
    (w : World) (attrs : Attributes) (size : Z) :
  let n := mkNode (SpaceId ref) kp0
             (Attributes.String attrs (ParentidAttr fs))
             (Attributes.String attrs (NameAttr fs))
             true (Attributes.String attrs (BlobIDAttr fs)) size in
  let w1 := log w (node_ReadNode (SpaceId ref) kp0) in
  let w2 := log w1 (p_AssemblePermissions n) in
  let revisionPath := InternalPath fs (SpaceId ref) revisionKey in
  strings.SplitN revisionKey RevisionIDDelimiter 2 = [kp0; kp1] ->
  metadata w !! InternalPath fs (SpaceId ref) kp0 = Some attrs ->
  Attributes.Int64 attrs (BlobsizeAttr fs) = Some size ->
  RestoreFileVersion (permissions fs n) = true ->
  fails fs (length (trace w)) (node_ReadNode (SpaceId ref) kp0) = false ->
  fails fs (length (trace w1)) (p_AssemblePermissions n) = false ->
  fails fs (length (trace w2)) (os_RemoveAll revisionPath) = false ->
  trace (snd (DeleteRevision fs ref revisionKey w)) =
    (trace w ++ [node_ReadNode (SpaceId ref) kp0; p_AssemblePermissions n;
                 os_RemoveAll revisionPath; blobstore_Delete n])%list /\
  ID n <> revisionKey /\
  BlobID n = Attributes.String attrs (BlobIDAttr fs).
Proof.
  intros n w1 w2 revisionPath Hsplit Hmeta Hsize Hp Hf1 Hf2 Hf3.
  rewrite (DeleteRevision_permitted fs ref revisionKey kp0 kp1 w attrs size
             Hsplit Hmeta Hsize Hf1 Hf2 Hp Hf3).
  repeat split.
  - simpl. now rewrite <- !app_assoc.
  - simpl. intros Heq. destruct (SplitN_two _ _ _ Hsplit) as [Hkey Hno].
    rewrite Heq in Hno. apply Contains_false with (k := String.length kp0) in Hno.
    rewrite Hkey in Hno at 1. unfold JoinRevisionKey in Hno.
    rewrite drop_app_length, HasPrefix_app in Hno. discriminate.
Qed.

Lemma DeleteRevision_deletes_blob_of_current_node_witness :
  let fs := Sample.storage Sample.all_permissions Sample.no_faults in
  trace (snd (DeleteRevision fs Sample.ref "n1.REV.1000" Sample.world)) =
    [node_ReadNode "s1" "n1";
     p_AssemblePermissions (mkNode "s1" "n1" "root" "a.txt" true "b2" 10);
     os_RemoveAll "/spaces/s1/nodes/n1.REV.1000";
     blobstore_Delete (mkNode "s1" "n1" "root" "a.txt" true "b2" 10)] /\
  Attributes.String (Sample.file_attrs "b1" 5 1000) (BlobIDAttr fs) = "b1".
Proof.
  intros fs. split; [|reflexivity].
  exact (proj1
    (DeleteRevision_deletes_blob_of_current_node fs Sample.ref "n1.REV.1000" "n1" "1000"
       Sample.world (Sample.file_attrs "b2" 10 2000) 10
       eq_refl eq_refl eq_refl eq_refl eq_refl eq_refl eq_refl)).
Defined.

(** ** Inversion of the steps of the code *)

Section Inversion.

Variable fs : Decomposedfs.

Lemma call_Ok (c : Call) (w w' : World) (u : unit) :
  call fs c w = (Ok u, w') ->
  w' = log w c /\ fails fs (length (trace w)) c = false.
Proof.
  rewrite call_eq. destruct (fails fs _ c); [discriminate|].
  intros [= <-]. now split.
Qed.

Lemma orError_Ok {A} (m : M A) (f : Error -> Error) (w w' : World) (a : A) :
  orError m f w = (Ok a, w') -> m w = (Ok a, w').
Proof.
  unfold orError. destruct (m w) as [[a'|e] w1]; [|discriminate].
  now intros [= -> ->].
Qed.

Lemma backend_all_Ok (path : string) (w w' : World) (attrs : Attributes) :
  backend_all fs path w = (Ok attrs, w') ->
  w' = log w (backend_All path) /\ metadata w !! path = Some attrs.
Proof.
  unfold backend_all. intros H.
  apply bind_Ok in H as (u & w1 & Hc & H). apply call_Ok in Hc as [-> _].
  unfold bind, get_metadata in H. rewrite metadata_log in H.
  destruct (metadata w !! path) as [a|]; [|discriminate].
  injection H as -> ->. now split.
Qed.

Lemma backend_setMultiple_Ok (path : string) (attrs : Attributes)
    (w w' : World) (u : unit) :
  backend_setMultiple fs path attrs w = (Ok u, w') ->
  files w' = files w /\
  metadata w' = <[path := attrs ∪ default ∅ (metadata w !! path)]> (metadata w) /\
  trace w' = (trace w ++ [backend_SetMultiple path])%list.
Proof.
  unfold backend_setMultiple. intros H.
  apply bind_Ok in H as (u' & w1 & Hc & H). apply call_Ok in Hc as [-> _].
  unfold set_metadata in H. inversion H; subst. now repeat split.
Qed.

Lemma backend_getInt64_Ok (path key : string) (w w' : World) (z : Z) :
  backend_getInt64 fs path key w = (Ok z, w') ->
  w' = log w (backend_GetInt64 path key) /\
  exists attrs v, metadata w !! path = Some attrs /\ attrs !! key = Some v /\
                  ParseInt v = Some z.
Proof.
  unfold backend_getInt64. intros H.
  apply bind_Ok in H as (u & w1 & Hc & H). apply call_Ok in Hc as [-> _].
  unfold bind, get_metadata in H. rewrite metadata_log in H.
  destruct (metadata w !! path) as [a|]; [|discriminate].
  destruct (a !! key) as [v|] eqn:Hv; [|discriminate].
  destruct (ParseInt v) as [z'|] eqn:Hz; [|discriminate].
  injection H as -> ->. split; [reflexivity|]. now exists a, v.
Qed.

Lemma CopyMetadata_Ok (source target : string)
    (filter : string -> string -> string * bool) (w w' : World) (u : unit) :
  CopyMetadata fs source target filter w = (Ok u, w') ->
  exists attrs,
    metadata w !! source = Some attrs /\
    files w' = files w /\
    metadata w' =
      <[target := filterAttributes filter attrs ∪ default ∅ (metadata w !! target)]>
        (metadata w) /\
    trace w' = (trace w ++ [backend_All source; backend_SetMultiple target])%list.
Proof.
  unfold CopyMetadata. intros H.
  apply bind_Ok in H as (attrs & w1 & Ha & H).
  apply backend_all_Ok in Ha as [-> Ha].
  apply backend_setMultiple_Ok in H as (Hf & Hm & Ht).
  exists attrs. rewrite metadata_log in Hm. rewrite files_log in Hf.
  repeat split; try assumption.
  rewrite Ht. unfold log; simpl. now rewrite <- app_assoc.
Qed.

(** What the logged removals can do to the world. *)
Lemma logged_os_remove (path : string) (w : World) :
  exists w', logged (os_remove fs path) w = (Ok tt, w') /\
    metadata w' = metadata w /\
    trace w' = (trace w ++ [os_Remove path])%list /\
    (files w' = files w \/ files w' = files w ∖ {[path]}) /\
    (fails fs (length (trace w)) (os_Remove path) = false -> path ∉ files w').
Proof.
  unfold logged, os_remove, bind. rewrite call_eq.
  destruct (fails fs _ (os_Remove path)) eqn:Hf.
  - eexists. split; [reflexivity|]. repeat split; [now left | discriminate].
  - unfold file_exists, set_files, fail. rewrite files_log.
    destruct (bool_decide (path ∈ files w)) eqn:Hb.
    + eexists. split; [reflexivity|]. simpl. repeat split; [now right|].
      intros _ [_ Hn]%elem_of_difference. apply Hn. now apply elem_of_singleton.
    + eexists. split; [reflexivity|]. simpl. repeat split; [now left|].
      intros _. now apply bool_decide_eq_false in Hb.
Qed.

Lemma logged_backend_purge (path : string) (w : World) :
  exists w', logged (backend_purge fs path) w = (Ok tt, w') /\
    files w' = files w /\
    trace w' = (trace w ++ [backend_Purge path])%list /\
    (metadata w' = metadata w \/ metadata w' = delete path (metadata w)) /\
    (fails fs (length (trace w)) (backend_Purge path) = false ->
     metadata w' !! path = None).
Proof.
  unfold logged, backend_purge, bind. rewrite call_eq.
  destruct (fails fs _ (backend_Purge path)) eqn:Hf.
  - eexists. split; [reflexivity|]. repeat split; [now left | discriminate].
  - unfold set_metadata. eexists. split; [reflexivity|]. simpl.
    repeat split; [now right|]. intros _. apply lookup_delete_eq.
Qed.

End Inversion.

(** ** RestoreRevision, step by step *)

Section RestoreFacts.

Variables (fs : Decomposedfs) (ref : Reference) (revisionKey : string).

Lemma ReadNode_Ok (spaceID nodeID : string) (w w' : World) (n : Node) :
  ReadNode fs spaceID nodeID w = (Ok n, w') ->
  w' = log w (node_ReadNode spaceID nodeID) /\
  SpaceID n = spaceID /\ ID n = nodeID /\
  (Exists n = true ->
   exists attrs,
     metadata w !! InternalPath fs spaceID nodeID = Some attrs /\
     Attributes.Int64 attrs (BlobsizeAttr fs) = Some (Blobsize n) /\
     BlobID n = Attributes.String attrs (BlobIDAttr fs)).
Proof.
  unfold ReadNode. intros H.
  apply bind_Ok in H as (u & w1 & Hc & H). apply call_Ok in Hc as [-> _].
  unfold bind, get_metadata in H. rewrite metadata_log in H.
  destruct (metadata w !! InternalPath fs spaceID nodeID) as [attrs|].
  - destruct (Attributes.Int64 attrs (BlobsizeAttr fs)) as [size|] eqn:Hs;
      [|discriminate].
    injection H as <- <-. repeat split. intros _. now exists attrs.
  - injection H as <- <-. repeat split. discriminate.
Qed.

Lemma GetMTime_Ok (n : Node) (w w' : World) (t : Time) :
  GetMTime fs n w = (Ok t, w') ->
  w' = log w (backend_All (Node_InternalPath fs n)) /\
  exists attrs v, metadata w !! Node_InternalPath fs n = Some attrs /\
                  attrs !! MTimeAttr fs = Some v /\ time_Parse fs v = Some t.
Proof.
  unfold GetMTime, Xattrs. intros H.
  apply bind_Ok in H as (attrs & w1 & Ha & H).
  apply backend_all_Ok in Ha as [-> Ha].
  destruct (attrs !! MTimeAttr fs) as [v|] eqn:Hv; [|discriminate].
  destruct (time_Parse fs v) as [t'|] eqn:Ht; [|discriminate].
  injection H as <- <-. split; [reflexivity|]. now exists attrs, v.
Qed.

(** What holds once [RestoreRevision] has touched the new revision. *)
Lemma RestoreRevision_begin_Ok (w w1 : World) (r : Restore) :
  RestoreRevision_begin fs ref revisionKey w = (Ok r, w1) ->
  exists kp1 attrs v,
    strings.SplitN revisionKey RevisionIDDelimiter 2 = [r_kp0 r; kp1] /\
    SpaceID (r_node r) = SpaceId ref /\ ID (r_node r) = r_kp0 r /\
    metadata w !! r_nodePath fs ref r = Some attrs /\
    Attributes.Int64 attrs (BlobsizeAttr fs) = Some (Blobsize (r_node r)) /\
    BlobID (r_node r) = Attributes.String attrs (BlobIDAttr fs) /\
    RestoreFileVersion (permissions fs (r_node r)) = true /\
    r_lock r = LockfilePath fs (r_nodePath fs ref r) /\
    attrs !! MTimeAttr fs = Some v /\ time_Parse fs v = Some (r_mtime r) /\
    metadata w1 = metadata w /\
    files w1 = {[r_newRevisionPath fs ref r]}
               ∪ ({[LockfilePath fs (r_nodePath fs ref r)]} ∪ files w) /\
    trace w1 = (trace w ++
                [node_ReadNode (SpaceId ref) (r_kp0 r);
                 p_AssemblePermissions (r_node r);
                 node_CheckLock (r_node r);
                 lockedfile_OpenFile (LockfilePath fs (r_nodePath fs ref r));
                 backend_All (r_nodePath fs ref r);
                 os_Create (r_newRevisionPath fs ref r)])%list.
Proof.
  unfold RestoreRevision_begin. intros H.
  destruct (strings.SplitN revisionKey RevisionIDDelimiter 2)
    as [|kp0 [|kp1 [|? ?]]] eqn:Hsplit; try discriminate.
  apply bind_Ok in H as (n & wa & Hn & H).
  apply ReadNode_Ok in Hn as (-> & Hspace & Hid & Hex).
  destruct (Exists n) eqn:Hexists; [|discriminate]. cbn [negb] in H.
  destruct (Hex eq_refl) as (attrs & Hmeta & Hsize & Hblob).
  apply bind_Ok in H as (rp & wb & Hrp & H).
  unfold AssemblePermissions in Hrp.
  apply bind_Ok in Hrp as (u & wb' & Hc & Hrp). apply call_Ok in Hc as [-> _].
  injection Hrp as <- <-.
  destruct (RestoreFileVersion (permissions fs n)) eqn:Hperm; [|discriminate].
  cbn [negb] in H.
  apply bind_Ok in H as (u1 & wc & Hc & H). apply call_Ok in Hc as [-> _].
  apply bind_Ok in H as (f & wd & Hlock & H).
  unfold lockedfile_open in Hlock.
  apply bind_Ok in Hlock as (u2 & wd' & Hc & Hlock). apply call_Ok in Hc as [-> _].
  unfold bind, file_exists, set_files in Hlock. cbn [orb] in Hlock.
  injection Hlock as <- <-.
  apply bind_Ok in H as (mtime & we & Hmt & H).
  apply GetMTime_Ok in Hmt as (-> & attrs' & v & Hmeta' & Hv & Ht).
  apply bind_Ok in H as (u3 & wf & Hcreate & H).
  injection H as <- <-.
  unfold os_create in Hcreate.
  apply bind_Ok in Hcreate as (u4 & wf' & Hc & Hcreate).
  apply call_Ok in Hc as [-> _].
  unfold set_files in Hcreate. injection Hcreate as Hwf. subst wf.
  assert (Hpath : Node_InternalPath fs n = InternalPath fs (SpaceId ref) kp0).
  { unfold Node_InternalPath. now rewrite Hspace, Hid. }
  simpl in Hmeta'. rewrite Hpath, Hmeta in Hmeta'. injection Hmeta' as <-.
  exists kp1, attrs, v. unfold r_nodePath, r_newRevisionPath. simpl.
  rewrite Hpath.
  repeat split; try assumption; try reflexivity.
  now rewrite <- !app_assoc.
Qed.

(** C2 (amended): when [RestoreRevision] fails after the new revision
    file has been created, whatever the later step that failed, the
    removal of the new revision file and the purge of its metadata are
    both attempted, as the last two calls before [RestoreRevision]
    returns; each is best effort (its failure is only logged), and when
    neither fails the file is gone and the backend holds no metadata
    for it. *)
Theorem RestoreRevision_rolls_back (w w1 w' : World) (r : Restore) (e : Error) :
  RestoreRevision_begin fs ref revisionKey w = (Ok r, w1) ->
  RestoreRevision fs ref revisionKey w = (Err e, w') ->
  let path := r_newRevisionPath fs ref r in
  path ∈ files w1 /\
  exists w2,
    RestoreRevision_body fs ref revisionKey r w1 = (Err e, w2) /\
    trace w' = (trace w2 ++ [os_Remove path; backend_Purge path])%list /\
    (fails fs (length (trace w2)) (os_Remove path) = false ->
     fails fs (S (length (trace w2))) (backend_Purge path) = false ->
     (path ∉ files w') /\ metadata w' !! path = None).
Proof.
  intros Hbegin Hrun path. split.
  { apply RestoreRevision_begin_Ok in Hbegin
      as (kp1 & attrs & v & _ & _ & _ & _ & _ & _ & _ & _ & _ & _ & _ & Hf & _).
    rewrite Hf. apply elem_of_union_l. now apply elem_of_singleton. }
  unfold RestoreRevision in Hrun. unfold bind at 1 in Hrun.
  rewrite Hbegin in Hrun. unfold deferOnError in Hrun.
  destruct (RestoreRevision_body fs ref revisionKey r w1) as [[u|e2] w2] eqn:Hbody;
    [discriminate|].
  exists w2. unfold RestoreRevision_rollback in Hrun. fold path in Hrun.
  unfold bind in Hrun.
  destruct (logged_os_remove fs path w2) as (wa & Ha & Hma & Hta & Hfa & Hgone).
  rewrite Ha in Hrun.
  destruct (logged_backend_purge fs path wa) as (wb & Hb & Hfb & Htb & Hmb & Hpurged).
  rewrite Hb in Hrun. injection Hrun as <- <-.
  split; [reflexivity|]. split.
  - rewrite Htb, Hta. now rewrite <- app_assoc.
  - intros Hf1 Hf2. split.
    + rewrite Hfb. now apply Hgone.
    + apply Hpurged. rewrite Hta, length_app. simpl.
      now rewrite Nat.add_1_r.
Qed.

End RestoreFacts.

(** ** The metadata swap of RestoreRevision *)

Section SwapFacts.

Variables (fs : Decomposedfs) (ref : Reference) (revisionKey : string).

Lemma filterAttributes_lookup (filter : string -> string -> string * bool)
    (attrs : Attributes) (name : string) :
  filterAttributes filter attrs !! name =
    match attrs !! name with
    | Some value => match filter name value with
                    | (newValue, true) => Some newValue
                    | (_, false) => None
                    end
    | None => None
    end.
Proof.
  unfold filterAttributes. rewrite map_lookup_imap.
  now destruct (attrs !! name).
Qed.

Lemma RestoreRevision_swap_Ok (r : Restore) (w1 w2 : World) (sizeDiff : Z) :
  RestoreRevision_swap fs ref revisionKey r w1 = (Ok sizeDiff, w2) ->
  let revp := restoredRevisionPath fs ref revisionKey in
  exists nattrs rattrs sattrs v revisionSize,
    metadata w1 !! r_nodePath fs ref r = Some nattrs /\
    let m1 := after_copy_to_revision fs ref r nattrs (metadata w1) in
    m1 !! revp = Some rattrs /\
    let m2 := after_copy_to_node fs ref r rattrs m1 in
    m2 !! revp = Some sattrs /\
    sattrs !! BlobsizeAttr fs = Some v /\
    ParseInt v = Some revisionSize /\
    sizeDiff = sub64 revisionSize (Blobsize (r_node r)) /\
    (metadata w2 = m2 \/ metadata w2 = delete revp m2) /\
    trace w2 = (trace w1 ++ swap_calls fs ref revisionKey r)%list.
Proof.
  intros H revp. unfold RestoreRevision_swap in H.
  apply bind_Ok in H as (u1 & wa & H1 & H). apply orError_Ok in H1.
  unfold CopyMetadataWithSourceLock in H1.
  destruct (negb (r_lock r =? LockfilePath fs (r_nodePath fs ref r))%string);
    [discriminate|].
  apply CopyMetadata_Ok in H1 as (nattrs & Hn & Hfa & Hma & Hta).
  apply bind_Ok in H as (u2 & wb & H2 & H). apply orError_Ok in H2.
  apply call_Ok in H2 as [-> _].
  apply bind_Ok in H as (u3 & wc & H3 & H). apply orError_Ok in H3.
  apply call_Ok in H3 as [-> _].
  apply bind_Ok in H as (u4 & wd & H4 & H). apply orError_Ok in H4.
  apply CopyMetadata_Ok in H4 as (rattrs & Hr & Hfd & Hmd & Htd).
  apply bind_Ok in H as (revisionSize & we & H5 & H). apply orError_Ok in H5.
  apply backend_getInt64_Ok in H5 as (-> & sattrs & v & Hs & Hv & Hz).
  fold revp in H, Hr, Hs, Htd.
  apply bind_Ok in H as (u6 & wf & H6 & H).
  destruct (logged_os_remove fs revp (log wd (backend_GetInt64 revp (BlobsizeAttr fs))))
    as (wf' & E6 & Hm6 & Ht6 & _). rewrite E6 in H6. injection H6 as _ <-.
  apply bind_Ok in H as (u7 & wg & H7 & H).
  destruct (logged_os_remove fs (MetadataPath fs revp) wf')
    as (wg' & E7 & Hm7 & Ht7 & _). rewrite E7 in H7. injection H7 as _ <-.
  apply bind_Ok in H as (u8 & wh & H8 & H).
  destruct (logged_os_remove fs (LockfilePath fs revp) wg')
    as (wh' & E8 & Hm8 & Ht8 & _). rewrite E8 in H8. injection H8 as _ <-.
  apply bind_Ok in H as (u9 & wi & H9 & H).
  destruct (logged_backend_purge fs revp wh')
    as (wi' & E9 & _ & Ht9 & Hm9 & _). rewrite E9 in H9. injection H9 as _ <-.
  injection H as <- <-.
  rewrite !metadata_log in Hr, Hmd. rewrite Hma in Hr, Hmd.
  rewrite Hmd in Hs. rewrite metadata_log in Hm6.
  exists nattrs, rattrs, sattrs, v, revisionSize.
  unfold after_copy_to_revision, after_copy_to_node.
  repeat split; try assumption; try reflexivity.
  - rewrite Hm8, Hm7, Hm6, Hmd in Hm9. exact Hm9.
  - rewrite Ht9, Ht8, Ht7, Ht6. unfold log; simpl. rewrite Htd. simpl.
    rewrite Hta. unfold swap_calls. fold revp.
    rewrite <- !app_assoc. reflexivity.
Qed.


End SwapFacts.

(** ** Numbers *)





(** ** The size difference handed to propagation *)

Section SizeDiff.

Variable fs : Decomposedfs.

(** A successful [RestoreRevision] ends with the propagation of the
    size difference of the swap. *)
Lemma RestoreRevision_Ok (ref : Reference) (revisionKey : string) (w w' : World) :
  RestoreRevision fs ref revisionKey w = (Ok tt, w') ->
  exists r w1 w2 sizeDiff,
    RestoreRevision_begin fs ref revisionKey w = (Ok r, w1) /\
    RestoreRevision_swap fs ref revisionKey r w1 = (Ok sizeDiff, w2) /\
    fails fs (length (trace w2)) (tp_Propagate (r_node r) sizeDiff) = false /\
    w' = log w2 (tp_Propagate (r_node r) sizeDiff).
Proof.
  unfold RestoreRevision. intros H.
  apply bind_Ok in H as (r & w1 & Hbegin & H).
  unfold deferOnError in H.
  destruct (RestoreRevision_body fs ref revisionKey r w1) as [[u|e] w2'] eqn:Hbody.
  - injection H as ->. unfold RestoreRevision_body in Hbody.
    apply bind_Ok in Hbody as (sizeDiff & w2 & Hswap & Hprop).
    apply call_Ok in Hprop as [-> Hf].
    now exists r, w1, w2, sizeDiff.
  - destruct (RestoreRevision_rollback fs ref r w2'). discriminate.
Qed.


End SizeDiff.



(** C2, the claim as stated fails: the clean up is best effort. When the
    change of the revision's mtime fails and the removal of the new
    revision file and the purge of its metadata fail as well (the code
    only logs that), [RestoreRevision] returns its error and the new
    revision stays behind, file and metadata. *)
Lemma RestoreRevision_rollback_is_best_effort :
  let fs := Sample.storage Sample.all_permissions Sample.chtimes_and_cleanup_fail in
  let path := "/spaces/s1/nodes/n1.REV.2000" in
  let w' := snd (RestoreRevision fs Sample.ref "n1.REV.1000" Sample.world) in
  fst (RestoreRevision_begin fs Sample.ref "n1.REV.1000" Sample.world)
    = Ok (mkRestore "n1" Sample.n1 "/spaces/s1/nodes/n1.mlock" 2000%Z) /\
  (path ∉ files Sample.world) /\
  fst (RestoreRevision fs Sample.ref "n1.REV.1000" Sample.world)
    = Err (InternalError "failed to change mtime of version node") /\
  (path ∈ files w') /\
  metadata w' !! path = Some (Sample.blob_attrs "b2" 10 2000) /\
  trace w' =
    [node_ReadNode "s1" "n1"; p_AssemblePermissions Sample.n1;
     node_CheckLock Sample.n1; lockedfile_OpenFile "/spaces/s1/nodes/n1.mlock";
     backend_All "/spaces/s1/nodes/n1"; os_Create path;
     backend_All "/spaces/s1/nodes/n1"; backend_SetMultiple path;
     os_Chtimes path 2000%Z; os_Remove path; backend_Purge path].
Proof.
  intros fs path w'.
  assert (Hbefore : elements (files Sample.world)
                    = ["/spaces/s1/nodes/n1.REV.1000"; "/spaces/s1/nodes/n1"])
    by (vm_compute; reflexivity).
  assert (Hafter : elements (files w')
                   = ["/spaces/s1/nodes/n1.mlock"; "/spaces/s1/nodes/n1.REV.1000";
                      path; "/spaces/s1/nodes/n1"])
    by (vm_compute; reflexivity).
  split; [vm_compute; reflexivity|].
  split.
  { intros Hin. apply elem_of_elements in Hin. rewrite Hbefore in Hin.
    apply list_elem_of_In in Hin. simpl in Hin.
    destruct Hin as [H|[H|[]]]; discriminate H. }
  split; [vm_compute; reflexivity|].
  split.
  { apply elem_of_elements. rewrite Hafter. apply list_elem_of_In. simpl. tauto. }
  split; vm_compute; reflexivity.
Qed.

Lemma RestoreRevision_rolls_back_witness :
  let fs := Sample.storage Sample.all_permissions Sample.chtimes_fails in
  let path := "/spaces/s1/nodes/n1.REV.2000" in
  let w' := snd (RestoreRevision fs Sample.ref "n1.REV.1000" Sample.world) in
  fst (RestoreRevision fs Sample.ref "n1.REV.1000" Sample.world)
    = Err (InternalError "failed to change mtime of version node") /\
  (path ∉ files w') /\ metadata w' !! path = None.
Proof.
  intros fs path w'. split; [vm_compute; reflexivity|].
  destruct (RestoreRevision_rolls_back fs Sample.ref "n1.REV.1000" Sample.world
              (snd (RestoreRevision_begin fs Sample.ref "n1.REV.1000" Sample.world))
              w' (mkRestore "n1" Sample.n1 "/spaces/s1/nodes/n1.mlock" 2000%Z)
              (InternalError "failed to change mtime of version node"))
    as (_ & w2 & _ & _ & Hclean).
  - vm_compute. reflexivity.
  - vm_compute. reflexivity.
  - apply Hclean; reflexivity.
Defined.

(** ** Propagation failures *)



(** ** Restoring a revision: the regular case *)

Lemma app_not_self (s t : string) : t <> "" -> s <> s ++ t.
Proof.
  intros Ht E. assert (H := f_equal String.length E).
  rewrite length_app_s in H. destruct t; [contradiction | simpl in H; lia].
Qed.

(** X7: when the timestamp of the key is not the node's mtime, a successful
    [RestoreRevision] leaves a new revision, named after the node's
    mtime, which carries the checksum, type, blob id, blob size and mtime
    attributes the node had; and the node carries the checksum, type, blob
    id and blob size attributes of the restored revision, with its mtime
    attribute set to the current time when the restored revision has
    one. *)
Lemma RestoreRevision_promotes
    (fs : Decomposedfs) (ref : Reference) (revisionKey : string) (w w' : World) :
  (forall id id', InternalPath fs (SpaceId ref) id = InternalPath fs (SpaceId ref) id' ->
                  id = id') ->
  RestoreRevision fs ref revisionKey w = (Ok tt, w') ->
  exists (r : Restore) (kp1 : string) (nattrs : Attributes) (v : string),
    strings.SplitN revisionKey RevisionIDDelimiter 2 = [r_kp0 r; kp1] /\
    ID (r_node r) = r_kp0 r /\
    metadata w !! r_nodePath fs ref r = Some nattrs /\
    nattrs !! MTimeAttr fs = Some v /\ time_Parse fs v = Some (r_mtime r) /\
    r_newRevisionPath fs ref r
      = InternalPath fs (SpaceId ref) (JoinRevisionKey (r_kp0 r) (time_Format fs (r_mtime r))) /\
    (time_Format fs (r_mtime r) <> kp1 ->
     exists rattrs new node',
       metadata w !! restoredRevisionPath fs ref revisionKey = Some rattrs /\
       metadata w' !! r_newRevisionPath fs ref r = Some new /\
       (forall name value,
           nattrs !! name = Some value ->
           snd (filter_to_revision fs name value) = true -> new !! name = Some value) /\
       metadata w' !! r_nodePath fs ref r = Some node' /\
       (forall name value,
           rattrs !! name = Some value -> name <> MTimeAttr fs ->
           snd (filter_to_node fs name value) = true -> node' !! name = Some value) /\
       (is_Some (rattrs !! MTimeAttr fs) ->
        node' !! MTimeAttr fs = Some (time_Format fs (time_Now fs)))).
Proof.
  intros Hinj Hrun.
  apply RestoreRevision_Ok in Hrun
    as (r & w1 & w2 & sizeDiff & Hbegin & Hswap & _ & ->).
  destruct (RestoreRevision_begin_Ok fs ref revisionKey w w1 r Hbegin)
    as (kp1 & nattrs & v & Hsplit & _ & Hid & Hnode & _ & _ & _ & _ & Hv & Hparse
        & Hm1 & _ & _).
  exists r, kp1, nattrs, v.
  repeat (split; [assumption || reflexivity|]).
  intros Hts.
  destruct (SplitN_two _ _ _ Hsplit) as [Hkey _].
  assert (Hnew_rev : r_newRevisionPath fs ref r <> restoredRevisionPath fs ref revisionKey).
  { intros E. apply Hinj in E. rewrite Hkey in E. unfold JoinRevisionKey in E.
    apply app_inv_head_s in E. apply app_inv_head_s in E. contradiction. }
  assert (Hnode_rev : r_nodePath fs ref r <> restoredRevisionPath fs ref revisionKey).
  { intros E. apply Hinj in E. rewrite Hkey in E.
    revert E. apply app_not_self. discriminate. }
  assert (Hnode_new : r_nodePath fs ref r <> r_newRevisionPath fs ref r).
  { intros E. apply Hinj in E. revert E. apply app_not_self. discriminate. }
  apply RestoreRevision_swap_Ok in Hswap
    as (nattrs' & rattrs & sattrs & sv & revisionSize
        & Hn & Hr & _ & _ & _ & _ & Hm & _).
  rewrite Hm1, Hnode in Hn. injection Hn as <-.
  unfold after_copy_to_revision in Hr.
  rewrite lookup_insert_ne in Hr by exact Hnew_rev. rewrite Hm1 in Hr.
  set (m1 := after_copy_to_revision fs ref r nattrs (metadata w1)) in *.
  set (m2 := after_copy_to_node fs ref r rattrs m1) in *.
  assert (Hfinal : forall path, path <> restoredRevisionPath fs ref revisionKey ->
                                metadata w2 !! path = m2 !! path).
  { intros path Hp. destruct Hm as [-> | ->]; [reflexivity|].
    apply lookup_delete_ne. intros E. apply Hp. now rewrite E. }
  eexists rattrs, _, _. rewrite !metadata_log.
  split; [exact Hr|]. split.
  { rewrite (Hfinal _ Hnew_rev). unfold m2, after_copy_to_node.
    rewrite lookup_insert_ne by exact Hnode_new.
    unfold m1, after_copy_to_revision. apply lookup_insert_eq. }
  split.
  { intros name value Hname Hsel. apply lookup_union_Some_l.
    rewrite filterAttributes_lookup, Hname.
    destruct (filter_to_revision fs name value) as [nv c] eqn:E.
    simpl in Hsel. subst c. unfold filter_to_revision in E. now injection E as <- _. }
  split.
  { rewrite (Hfinal _ Hnode_rev). unfold m2, after_copy_to_node.
    apply lookup_insert_eq. }
  split.
  - intros name value Hname Hne Hsel. apply lookup_union_Some_l.
    rewrite filterAttributes_lookup, Hname.
    destruct (filter_to_node fs name value) as [nv c] eqn:E.
    simpl in Hsel. subst c. unfold filter_to_node in E.
    destruct (String.eqb_spec name (MTimeAttr fs)) as [|_]; [contradiction|].
    now injection E as <- _.
  - intros [mt Hmt]. apply lookup_union_Some_l.
    rewrite filterAttributes_lookup, Hmt. unfold filter_to_node.
    now rewrite String.eqb_refl.
Qed.

(** The restore of [n1.REV.1000] in the sample world: the new revision
    [n1.REV.2000] holds the blob attributes the node had, the node holds
    those of the restored revision with its mtime set to now, the
    restored revision is gone, and the size difference is propagated. *)
Example RestoreRevision_sample :
  let fs := Sample.storage Sample.all_permissions Sample.no_faults in
  let w' := snd (RestoreRevision fs Sample.ref "n1.REV.1000" Sample.world) in
  fst (RestoreRevision fs Sample.ref "n1.REV.1000" Sample.world) = Ok tt /\
  metadata w' !! "/spaces/s1/nodes/n1.REV.2000" = Some (Sample.blob_attrs "b2" 10 2000) /\
  metadata w' !! "/spaces/s1/nodes/n1" = Some (Sample.file_attrs "b1" 5 9000) /\
  metadata w' !! "/spaces/s1/nodes/n1.REV.1000" = None /\
  elements (files w') = ["/spaces/s1/nodes/n1.mlock"; "/spaces/s1/nodes/n1.REV.2000";
                         "/spaces/s1/nodes/n1"] /\
  last (trace w') = Some (tp_Propagate Sample.n1 (-5)).
Proof.
  repeat split; vm_compute; reflexivity.
Qed.

(** ** Restoring a revision whose timestamp is the node's mtime *)

(** C1, where the code departs from the claim: the new revision is named
    after the node's mtime, so when the key of the revision to restore
    carries that very timestamp, the new revision and the restored
    revision are one path. The copy from the node overwrites the blob
    attributes of the revision to restore, the copy back hands the node
    its own attributes, and the drop of the old revision removes the only
    revision entry. [RestoreRevision] reports success, the node still
    points to blob [b2], blob [b0] was never promoted, and no revision
    entry is left. *)
Theorem RestoreRevision_same_timestamp :
  let fs := Sample.storage Sample.all_permissions Sample.no_faults in
  let w := Sample.world_same_timestamp in
  let w' := snd (RestoreRevision fs Sample.ref "n1.REV.2000" w) in
  metadata w !! "/spaces/s1/nodes/n1" = Some (Sample.file_attrs "b2" 10 2000) /\
  metadata w !! "/spaces/s1/nodes/n1.REV.2000" = Some (Sample.file_attrs "b0" 3 2000) /\
  fst (RestoreRevision fs Sample.ref "n1.REV.2000" w) = Ok tt /\
  metadata w' !! "/spaces/s1/nodes/n1" = Some (Sample.file_attrs "b2" 10 9000) /\
  metadata w' !! "/spaces/s1/nodes/n1.REV.2000" = None /\
  elements (files w') = ["/spaces/s1/nodes/n1.mlock"; "/spaces/s1/nodes/n1"] /\
  last (trace w') = Some (tp_Propagate Sample.n1 0).
Proof.
  repeat split; vm_compute; reflexivity.
Qed.

(** ** Propagate stops below the root *)

Section PropagateFacts.

Import ocis.

Variable t : Tree.

Lemma Parent_same_tree (st st' : State) (n : Node) :
  same_tree st st' -> Parent st' n = Parent st n.
Proof. intros (Hd & Hp & Hn). unfold Parent. now rewrite Hd, Hp, Hn. Qed.

Lemma same_tree_set_etag (st st' : State) (nodeID etag : string) :
  same_tree st st' -> same_tree st (set_etag t nodeID etag st').
Proof. intros H. exact H. Qed.

Lemma path_below_not_root (st : State) (root : string) (n : Node) (ids : list string) :
  path_below st root n ids -> root ∉ ids.
Proof.
  induction 1 as [n Hn | n parent ids Hn Hp Hpath IH].
  - apply not_elem_of_nil.
  - intros Hin. apply elem_of_cons in Hin as [Heq | Hin]; [|now apply IH].
    now apply Hn.
Qed.

(** The loop walks the chain: one write per node below the root, in
    order, then it stops at the root. *)
Lemma Propagate_loop_walks (st : State) (etag : string) (root node : Node)
    (ids : list string) :
  path_below st (ID root) node ids ->
  forall (fuel : nat) (st0 : State),
    same_tree st st0 -> length ids <= fuel ->
    exists st',
      Propagate_loop t fuel etag root node st0 = Some (Ok tt, st') /\
      same_tree st st' /\
      etag_writes st' = (etag_writes st0 ++ ids)%list /\
      (forall id, id ∉ ids -> xattr_etag st' !! id = xattr_etag st0 !! id) /\
      (forall id, xattr_etag st0 !! id = Some etag -> xattr_etag st' !! id = Some etag) /\
      (forall id, id ∈ ids -> os_fails t (SetEtag id) = false ->
                  xattr_etag st' !! id = Some etag).
Proof.
  induction 1 as [n Hn | n parent ids Hn Hp Hpath IH]; intros fuel st0 Hsame Hfuel.
  - exists st0. destruct fuel; simpl; rewrite Hn, String.eqb_refl.
    all: rewrite app_nil_r; repeat split; try apply Hsame; auto.
    all: intros id Hin; now apply elem_of_nil in Hin.
  - destruct fuel as [|fuel]; [simpl in Hfuel; lia|]. simpl.
    destruct (String.eqb_spec (ID n) (ID root)) as [E|_]; [contradiction|].
    set (st1 := set_etag t (ID n) etag st0).
    assert (Hsame1 : same_tree st st1) by exact Hsame.
    rewrite (Parent_same_tree st st1 n Hsame1), Hp.
    destruct (IH fuel st1 Hsame1) as (st' & Hrun & Hs' & Hw & Hout & Hkeep & Hin).
    { simpl in Hfuel. lia. }
    exists st'. split; [exact Hrun|]. split; [exact Hs'|]. split.
    { rewrite Hw. unfold st1, set_etag; simpl. now rewrite <- app_assoc. }
    split; [|split].
    + intros id Hid. apply not_elem_of_cons in Hid as [Hne Hid].
      rewrite (Hout id Hid). unfold st1, set_etag; simpl.
      destruct (os_fails t (SetEtag (ID n))); [reflexivity|].
      now rewrite lookup_insert_ne by (intros E; apply Hne; now rewrite E).
    + intros id Hid. apply Hkeep. unfold st1, set_etag; simpl.
      destruct (os_fails t (SetEtag (ID n))); [exact Hid|].
      destruct (decide (ID n = id)) as [->|Hne].
      * apply lookup_insert_eq.
      * now rewrite lookup_insert_ne.
    + intros id Hid Hok. apply elem_of_cons in Hid as [-> | Hid].
      * apply Hkeep. unfold st1, set_etag; simpl. rewrite Hok.
        apply lookup_insert_eq.
      * now apply Hin.
Qed.

End PropagateFacts.

(** C9: for every starting node whose parent chain reaches the space
    root, [Propagate] runs to the end with as many rounds as the node is
    deep below the root (that much fuel is enough), it asks for an etag
    write once for every node on the way up, the starting node first, and
    for no other; the root is not among them, so the root's own etag is
    never updated: the walk stops, by comparison of node ids, before the
    root is processed. Every node below the root whose write does not
    fail carries the fresh etag afterwards. *)
Theorem Propagate_stops_below_root
    (t : ocis.Tree) (st : ocis.State) (etag : string) (root node : ocis.Node)
    (ids : list string) (fuel : nat) :
  ocis.rand_Read t = Ok etag ->
  (if ocis.EnableHome t then ocis.HomeNode t else ocis.RootNode t) = Ok root ->
  ocis.path_below st (ocis.ID root) node ids ->
  length ids <= fuel ->
  exists st',
    ocis.Propagate t fuel node st = Some (Ok tt, st') /\
    ocis.etag_writes st' = (ocis.etag_writes st ++ ids)%list /\
    length (ocis.etag_writes st') = length (ocis.etag_writes st) + length ids /\
    (ocis.ID root ∉ ids) /\
    ocis.xattr_etag st' !! ocis.ID root = ocis.xattr_etag st !! ocis.ID root /\
    (forall id, id ∉ ids -> ocis.xattr_etag st' !! id = ocis.xattr_etag st !! id) /\
    (forall id, id ∈ ids -> ocis.os_fails t (ocis.SetEtag id) = false ->
                ocis.xattr_etag st' !! id = Some etag).
Proof.
  intros Hrand Hroot Hpath Hfuel.
  destruct (Propagate_loop_walks t st etag root node ids Hpath fuel st)
    as (st' & Hrun & _ & Hw & Hout & _ & Hin).
  { now repeat split. }
  { exact Hfuel. }
  assert (Hnot := path_below_not_root st (ocis.ID root) node ids Hpath).
  exists st'. unfold ocis.Propagate. rewrite Hrand, Hroot.
  repeat split; try assumption.
  - rewrite Hw, length_app. reflexivity.
  - now apply Hout.
Qed.


Lemma Propagate_stops_below_root_witness :
  exists st',
    ocis.Propagate TreeSample.tree 2 TreeSample.b TreeSample.state = Some (Ok tt, st') /\
    ocis.etag_writes st' = ["b"; "a"] /\
    ocis.xattr_etag st' !! "root" = Some "e0" /\
    ocis.xattr_etag st' !! "a" = Some "0123456789abcdef0123456789abcdef" /\
    ocis.xattr_etag st' !! "b" = Some "0123456789abcdef0123456789abcdef".
Proof.
  destruct (Propagate_stops_below_root TreeSample.tree TreeSample.state
              "0123456789abcdef0123456789abcdef" TreeSample.root TreeSample.b
              ["b"; "a"] 2)
    as (st' & Hrun & Hw & _ & _ & Hroot & _ & Hin).
  - reflexivity.
  - reflexivity.
  - apply (ocis.path_up _ _ TreeSample.b TreeSample.a); [discriminate | reflexivity |].
    apply (ocis.path_up _ _ TreeSample.a TreeSample.root); [discriminate | reflexivity |].
    now apply ocis.path_here.
  - simpl. lia.
  - exists st'. repeat split.
    + exact Hrun.
    + exact Hw.
    + etransitivity; [exact Hroot | reflexivity].
    + apply Hin; [|reflexivity]. apply list_elem_of_In. simpl. tauto.
    + apply Hin; [|reflexivity]. apply list_elem_of_In. simpl. tauto.
Defined.

(** ** Move and the propagation error *)




(** ** ListRevisions *)

Section ListRevisionsFacts.

Variable fs : Decomposedfs.

(** Reading a revision only adds a call to the trace; a handle with
    [Exists = true] carries what the backend holds for the revision. *)
Lemma ReadRevision_run (n : Node) (revision : string) (w : World) :
  let path := InternalPath fs (SpaceID n) (JoinRevisionKey (ID n) revision) in
  exists res,
    ReadRevision fs n revision w = (res, log w (backend_All path)) /\
    forall rn, res = Ok rn -> Exists rn = true ->
      exists attrs size,
        metadata w !! path = Some attrs /\
        Attributes.Int64 attrs (BlobsizeAttr fs) = Some size /\
        rn = mkNode (SpaceID n) (JoinRevisionKey (ID n) revision) (ParentID n) (Name n)
               true (Attributes.String attrs (BlobIDAttr fs)) size.
Proof.
  intros path. unfold ReadRevision, attempt, Xattrs, backend_all.
  change (Node_InternalPath fs (RevisionNode n revision)) with path.
  unfold bind. rewrite call_eq.
  destruct (fails fs _ (backend_All path)).
  - eexists; split; [reflexivity|]. discriminate.
  - unfold get_metadata. rewrite metadata_log.
    destruct (metadata w !! path) as [attrs|] eqn:Hm.
    + unfold ret. cbv beta iota.
      destruct (Attributes.Int64 attrs (BlobsizeAttr fs)) as [size|] eqn:Hs.
      * eexists; split; [reflexivity|]. intros rn [= <-] _. now exists attrs, size.
      * eexists; split; [reflexivity|]. discriminate.
    + eexists; split; [reflexivity|]. intros rn [= <-]. discriminate.
Qed.

Lemma GetMTime_run (n : Node) (w : World) :
  let path := Node_InternalPath fs n in
  exists res,
    GetMTime fs n w = (res, log w (backend_All path)) /\
    forall t, res = Ok t ->
      exists attrs v, metadata w !! path = Some attrs /\
                      attrs !! MTimeAttr fs = Some v /\ time_Parse fs v = Some t.
Proof.
  intros path. unfold GetMTime, Xattrs, backend_all. fold path.
  unfold bind. rewrite call_eq.
  destruct (fails fs _ (backend_All path)).
  - eexists; split; [reflexivity|]. discriminate.
  - unfold get_metadata. rewrite metadata_log.
    destruct (metadata w !! path) as [attrs|] eqn:Hm.
    + unfold ret. cbv beta iota.
      destruct (attrs !! MTimeAttr fs) as [v|] eqn:Hv.
      * destruct (time_Parse fs v) as [t|] eqn:Ht.
        -- eexists; split; [reflexivity|]. intros t' [= <-]. now exists attrs, v.
        -- eexists; split; [reflexivity|]. discriminate.
      * eexists; split; [reflexivity|]. discriminate.
    + eexists; split; [reflexivity|]. discriminate.
Qed.

(** One round never fails; it appends at most one version, and none
    for a metadata file. *)
Lemma ListRevisions_item_run (n : Node) (item : string)
    (revisions : list FileVersion) (w : World) :
  exists revisions' w',
    ListRevisions_item fs n item revisions w = (Ok revisions', w') /\
    files w' = files w /\ metadata w' = metadata w /\
    (revisions' = revisions \/
     exists v, revisions' = (revisions ++ [v])%list /\ listed fs n (metadata w) item v) /\
    (IsMetaFile fs item = true -> revisions' = revisions /\ w' = w).
Proof.
  unfold ListRevisions_item.
  destruct (IsMetaFile fs item) eqn:Hmeta.
  { exists revisions, w. repeat split; auto. }
  destruct (strings.SplitN item RevisionIDDelimiter 2)
    as [|prefix [|ts [|? ?]]] eqn:Hsplit;
    try (exists revisions, w; repeat split; auto; discriminate).
  unfold bind at 1. unfold attempt at 1.
  destruct (ReadRevision_run n ts w) as (res & Hrev & Hrn). rewrite Hrev.
  destruct res as [rn|e];
    [|eexists _, _; split; [reflexivity|]; repeat split; auto; discriminate].
  destruct (Exists rn) eqn:Hex; cbn [negb];
    [|eexists _, _; split; [reflexivity|]; repeat split; auto; discriminate].
  destruct (Hrn rn eq_refl Hex) as (attrs & size & Hm & Hs & Hrneq).
  unfold bind, attempt.
  destruct (GetMTime_run rn (log w (backend_All
              (InternalPath fs (SpaceID n) (JoinRevisionKey (ID n) ts)))))
    as (res & Hmt & Ht). rewrite Hmt.
  destruct res as [t|e];
    [|eexists _, _; split; [reflexivity|]; repeat split; auto; discriminate].
  destruct (Ht t eq_refl) as (attrs' & mt & Hm' & Hmtv & Hparse).
  rewrite metadata_log in Hm'.
  assert (Hp : Node_InternalPath fs rn
               = InternalPath fs (SpaceID n) (JoinRevisionKey (ID n) ts)).
  { now rewrite Hrneq. }
  rewrite Hp, Hm in Hm'. injection Hm' as <-.
  destruct (CalculateEtag fs rn t) as [etag|] eqn:Hetag;
    [|eexists _, _; split; [reflexivity|]; repeat split; auto; discriminate].
  eexists _, _; split; [reflexivity|].
  split; [reflexivity|]. split; [reflexivity|]. split; [|discriminate].
  right. eexists. split; [reflexivity|].
  split; [exact Hmeta|].
  exists prefix, ts, attrs, size, mt, t, etag.
  rewrite Hrneq in Hetag. rewrite Hrneq. simpl.
  repeat split; assumption.
Qed.

Lemma ListRevisions_loop_run (n : Node) (items : list string) :
  forall (revisions : list FileVersion) (w : World),
  exists revisions' w',
    ListRevisions_loop fs n items revisions w = (Ok revisions', w') /\
    files w' = files w /\ metadata w' = metadata w /\
    (forall v, v ∈ revisions' ->
               v ∈ revisions \/ exists item, item ∈ items /\ listed fs n (metadata w) item v) /\
    length revisions' <=
      length revisions + length (filter (fun i => IsMetaFile fs i = false) items).
Proof.
  induction items as [|item items IH]; intros revisions w.
  - exists revisions, w. simpl. repeat split; auto. lia.
  - simpl ListRevisions_loop. unfold bind.
    destruct (ListRevisions_item_run n item revisions w)
      as (revs1 & w1 & Hitem & Hf1 & Hm1 & Hcase & Hskip).
    rewrite Hitem.
    destruct (IH revs1 w1) as (revs2 & w2 & Hloop & Hf2 & Hm2 & Hin & Hlen).
    exists revs2, w2. split; [exact Hloop|].
    split; [congruence|]. split; [congruence|]. split.
    + intros v Hv. destruct (Hin v Hv) as [Hv1 | (i & Hi & Hl)].
      * destruct Hcase as [-> | (v1 & -> & Hl)]; [now left|].
        apply elem_of_app in Hv1 as [Hv1 | Hv1]; [now left|].
        apply list_elem_of_singleton in Hv1 as ->.
        right. exists item. split; [apply list_elem_of_here | exact Hl].
      * right. exists i. split; [now apply list_elem_of_further|].
        now rewrite <- Hm1.
    + rewrite filter_cons.
      destruct (IsMetaFile fs item) eqn:Hmeta.
      * destruct (Hskip eq_refl) as [-> _].
        destruct (decide (true = false)); [discriminate|]. exact Hlen.
      * destruct (decide (false = false)); [|contradiction]. simpl.
        destruct Hcase as [-> | (v1 & -> & _)]; [lia|].
        rewrite length_app in Hlen. simpl in Hlen. lia.
Qed.

End ListRevisionsFacts.



(** * Further properties of the revision operations *)

(** ** Validation comes first *)

(** X1: a revision key without the delimiter is turned down by
    [DownloadRevision], [RestoreRevision] and [DeleteRevision] with
    NotFound of the key, before any collaborator is called: the world,
    trace included, is as it was. *)
Theorem malformed_key_is_not_found
    (fs : Decomposedfs) (ref : Reference) (revisionKey : string) (w : World) :
  strings.Contains revisionKey RevisionIDDelimiter = false ->
  DownloadRevision fs ref revisionKey w = (Err (NotFound revisionKey), w) /\
  RestoreRevision fs ref revisionKey w = (Err (NotFound revisionKey), w) /\
  DeleteRevision fs ref revisionKey w = (Err (NotFound revisionKey), w).
Proof.
  intros Hno. apply SplitN_no_delimiter in Hno.
  unfold DownloadRevision, RestoreRevision, RestoreRevision_begin, DeleteRevision,
    getRevisionNode, bind. rewrite Hno. repeat split.
Qed.

Lemma malformed_key_is_not_found_witness :
  let fs := Sample.storage Sample.all_permissions Sample.no_faults in
  DownloadRevision fs Sample.ref "n1" Sample.world = (Err (NotFound "n1"), Sample.world) /\
  RestoreRevision fs Sample.ref "n1" Sample.world = (Err (NotFound "n1"), Sample.world) /\
  DeleteRevision fs Sample.ref "n1" Sample.world = (Err (NotFound "n1"), Sample.world).
Proof.
  intros fs. apply (malformed_key_is_not_found fs Sample.ref "n1" Sample.world).
  vm_compute. reflexivity.
Defined.

(** [ReadNode] of a node the backend does not know. *)
Lemma ReadNode_missing (fs : Decomposedfs) (spaceID nodeID : string) (w : World) :
  fails fs (length (trace w)) (node_ReadNode spaceID nodeID) = false ->
  metadata w !! InternalPath fs spaceID nodeID = None ->
  ReadNode fs spaceID nodeID w =
    (Ok (mkNode spaceID nodeID "" "" false "" 0), log w (node_ReadNode spaceID nodeID)).
Proof.
  intros Hf Hm. unfold ReadNode. rewrite bind_call_ok by assumption.
  unfold bind, get_metadata. rewrite metadata_log, Hm. reflexivity.
Qed.

(** X2: for a node the backend does not know, the four operations
    answer NotFound right after [ReadNode]: the permission engine is not
    asked, no lock is taken and nothing is written. *)
Theorem missing_node_is_not_found
    (fs : Decomposedfs) (ref : Reference) (revisionKey kp0 kp1 : string) (w : World) :
  let w1 := log w (node_ReadNode (SpaceId ref) kp0) in
  strings.SplitN revisionKey RevisionIDDelimiter 2 = [kp0; kp1] ->
  OpaqueId ref = kp0 ->
  metadata w !! InternalPath fs (SpaceId ref) kp0 = None ->
  fails fs (length (trace w)) (node_ReadNode (SpaceId ref) kp0) = false ->
  ListRevisions fs ref w = (Err (NotFound ""), w1) /\
  DownloadRevision fs ref revisionKey w = (Err (NotFound ""), w1) /\
  RestoreRevision fs ref revisionKey w = (Err (NotFound ""), w1) /\
  DeleteRevision fs ref revisionKey w = (Err (NotFound ""), w1).
Proof.
  intros w1 Hsplit Hid Hm Hf.
  assert (Hread := ReadNode_missing fs (SpaceId ref) kp0 w Hf Hm). fold w1 in Hread.
  unfold ListRevisions, NodeFromResource, DownloadRevision, RestoreRevision,
    RestoreRevision_begin, DeleteRevision, getRevisionNode.
  rewrite Hsplit, Hid. unfold bind. rewrite Hread. repeat split.
Qed.

Lemma missing_node_is_not_found_witness :
  let fs := Sample.storage Sample.all_permissions Sample.no_faults in
  let ref := mkReference "storage-1" "s1" "n9" "" in
  let w1 := log Sample.world (node_ReadNode "s1" "n9") in
  ListRevisions fs ref Sample.world = (Err (NotFound ""), w1) /\
  DownloadRevision fs ref "n9.REV.1000" Sample.world = (Err (NotFound ""), w1) /\
  RestoreRevision fs ref "n9.REV.1000" Sample.world = (Err (NotFound ""), w1) /\
  DeleteRevision fs ref "n9.REV.1000" Sample.world = (Err (NotFound ""), w1).
Proof.
  intros fs ref w1.
  apply (missing_node_is_not_found fs ref "n9.REV.1000" "n9" "1000" Sample.world);
    vm_compute; reflexivity.
Defined.

Lemma permission_switch_witness :
  let fs := Sample.storage Sample.stat_only Sample.no_faults in
  let expected := PermissionDenied "storage-1$s1!n1" in
  fst (ListRevisions fs Sample.ref Sample.world) = Err expected /\
  fst (DownloadRevision fs Sample.ref "n1.REV.1000" Sample.world) = Err expected /\
  fst (RestoreRevision fs Sample.ref "n1.REV.1000" Sample.world) = Err expected.
Proof.
  intros fs expected.
  destruct (permission_switch fs Sample.ref "n1.REV.1000" "n1" "1000" Sample.world
              (Sample.file_attrs "b2" 10 2000) 10
              eq_refl eq_refl eq_refl eq_refl eq_refl)
    as (Hlist & Hdown & Hrestore).
  split; [exact (Hlist eq_refl eq_refl)|].
  split; [exact (Hdown eq_refl) | exact (Hrestore eq_refl)].
Defined.

(** ** Downloading a revision that exists *)

(** The run of [DownloadRevision] on a revision the backend knows. *)
Lemma DownloadRevision_run
    (fs : Decomposedfs) (ref : Reference) (revisionKey kp0 kp1 : string)
    (w : World) (attrs rattrs : Attributes) (size rsize : Z) :
  let n := mkNode (SpaceId ref) kp0
             (Attributes.String attrs (ParentidAttr fs))
             (Attributes.String attrs (NameAttr fs))
             true (Attributes.String attrs (BlobIDAttr fs)) size in
  let rn := mkNode (SpaceId ref) revisionKey (ParentID n) (Name n) true
              (Attributes.String rattrs (BlobIDAttr fs)) rsize in
  let revisionPath := InternalPath fs (SpaceId ref) revisionKey in
  let w1 := log w (node_ReadNode (SpaceId ref) kp0) in
  let w2 := log w1 (p_AssemblePermissions n) in
  let w3 := log w2 (backend_All revisionPath) in
  strings.SplitN revisionKey RevisionIDDelimiter 2 = [kp0; kp1] ->
  metadata w !! InternalPath fs (SpaceId ref) kp0 = Some attrs ->
  Attributes.Int64 attrs (BlobsizeAttr fs) = Some size ->
  ListFileVersions (permissions fs n) = true ->
  InitiateFileDownload (permissions fs n) = true ->
  metadata w !! revisionPath = Some rattrs ->
  Attributes.Int64 rattrs (BlobsizeAttr fs) = Some rsize ->
  fails fs (length (trace w)) (node_ReadNode (SpaceId ref) kp0) = false ->
  fails fs (length (trace w1)) (p_AssemblePermissions n) = false ->
  fails fs (length (trace w2)) (backend_All revisionPath) = false ->
  DownloadRevision fs ref revisionKey w =
    (if fails fs (length (trace w3)) (blobstore_Download rn)
     then Err (Wrap (Failed (blobstore_Download rn))
                 "Decomposedfs: could not download blob of revision")
     else Ok rn,
     log w3 (blobstore_Download rn)).
Proof.
  intros n rn revisionPath w1 w2 w3 Hsplit Hmeta Hsize Hlist Hdown Hrev Hrsize Hf1 Hf2 Hf3.
  destruct (SplitN_two _ _ _ Hsplit) as [Hkey _].
  assert (Hpath : Node_InternalPath fs (RevisionNode n kp1) = revisionPath).
  { unfold Node_InternalPath, RevisionNode, n, revisionPath. simpl. now rewrite Hkey. }
  assert (Hread : ReadRevision fs n kp1 w2 = (Ok rn, w3)).
  { rewrite (ReadRevision_exists fs n kp1 w2 rattrs rsize).
    - unfold rn, w3. rewrite Hpath. simpl. now rewrite <- Hkey.
    - rewrite Hpath. exact Hf3.
    - rewrite Hpath. exact Hrev.
    - exact Hrsize. }
  unfold DownloadRevision. rewrite Hsplit.
  unfold bind at 1.
  rewrite (ReadNode_exists fs _ _ w attrs size Hf1 Hmeta Hsize). fold n w1.
  change (negb (Exists n)) with false. cbv iota.
  unfold bind at 1. rewrite (AssemblePermissions_ok fs n w1 Hf2). fold w2.
  rewrite Hlist, Hdown. cbn [negb orb].
  unfold bind, orError. rewrite Hread.
  unfold blobstore_download, bind. rewrite call_eq.
  destruct (fails fs (length (trace w3)) (blobstore_Download rn)); reflexivity.
Qed.

(** X4: for a well-formed key of an existing node on which the caller
    may list and download, and a revision the backend knows,
    [DownloadRevision] asks the blobstore for the revision node: its id
    is the revision key and its blob id and blob size are the
    revision's, not the current node's; the result is the blobstore's
    and neither files nor metadata change. *)
Theorem DownloadRevision_existing_revision
    (fs : Decomposedfs) (ref : Reference) (revisionKey kp0 kp1 : string)
    (w : World) (attrs rattrs : Attributes) (size rsize : Z) :
  let n := mkNode (SpaceId ref) kp0
             (Attributes.String attrs (ParentidAttr fs))
             (Attributes.String attrs (NameAttr fs))
             true (Attributes.String attrs (BlobIDAttr fs)) size in
  let rn := mkNode (SpaceId ref) revisionKey (ParentID n) (Name n) true
              (Attributes.String rattrs (BlobIDAttr fs)) rsize in
  let revisionPath := InternalPath fs (SpaceId ref) revisionKey in
  let w1 := log w (node_ReadNode (SpaceId ref) kp0) in
  let w2 := log w1 (p_AssemblePermissions n) in
  let w3 := log w2 (backend_All revisionPath) in
  strings.SplitN revisionKey RevisionIDDelimiter 2 = [kp0; kp1] ->
  metadata w !! InternalPath fs (SpaceId ref) kp0 = Some attrs ->
  Attributes.Int64 attrs (BlobsizeAttr fs) = Some size ->
  ListFileVersions (permissions fs n) = true ->
  InitiateFileDownload (permissions fs n) = true ->
  metadata w !! revisionPath = Some rattrs ->
  Attributes.Int64 rattrs (BlobsizeAttr fs) = Some rsize ->
  fails fs (length (trace w)) (node_ReadNode (SpaceId ref) kp0) = false ->
  fails fs (length (trace w1)) (p_AssemblePermissions n) = false ->
  fails fs (length (trace w2)) (backend_All revisionPath) = false ->
  DownloadRevision fs ref revisionKey w =
    (if fails fs (length (trace w3)) (blobstore_Download rn)
     then Err (Wrap (Failed (blobstore_Download rn))
                 "Decomposedfs: could not download blob of revision")
     else Ok rn,
     log w3 (blobstore_Download rn)).
Proof. exact (DownloadRevision_run fs ref revisionKey kp0 kp1 w attrs rattrs size rsize). Qed.

Lemma DownloadRevision_existing_revision_witness :
  let fs := Sample.storage Sample.all_permissions Sample.no_faults in
  let rn := mkNode "s1" "n1.REV.1000" "root" "a.txt" true "b1" 5 in
  DownloadRevision fs Sample.ref "n1.REV.1000" Sample.world =
    (Ok rn,
     mkWorld (files Sample.world) (metadata Sample.world)
       [node_ReadNode "s1" "n1"; p_AssemblePermissions Sample.n1;
        backend_All "/spaces/s1/nodes/n1.REV.1000"; blobstore_Download rn]).
Proof.
  intros fs rn.
  exact (DownloadRevision_existing_revision fs Sample.ref "n1.REV.1000" "n1" "1000"
           Sample.world (Sample.file_attrs "b2" 10 2000) (Sample.file_attrs "b1" 5 1000)
           10 5 eq_refl eq_refl eq_refl eq_refl eq_refl eq_refl eq_refl
           eq_refl eq_refl eq_refl).
Defined.

(** ** Deleting a revision is not undone *)



(** ** Restoring a revision: the regular case, on the sample *)

Lemma RestoreRevision_promotes_witness :
  let fs := Sample.storage Sample.all_permissions Sample.no_faults in
  let w' := snd (RestoreRevision fs Sample.ref "n1.REV.1000" Sample.world) in
  exists (r : Restore) (kp1 : string) (nattrs : Attributes) (v : string),
    strings.SplitN "n1.REV.1000" RevisionIDDelimiter 2 = [r_kp0 r; kp1] /\
    ID (r_node r) = r_kp0 r /\
    metadata Sample.world !! r_nodePath fs Sample.ref r = Some nattrs /\
    nattrs !! MTimeAttr fs = Some v /\ time_Parse fs v = Some (r_mtime r).
Proof.
  intros fs w'.
  destruct (RestoreRevision_promotes fs Sample.ref "n1.REV.1000" Sample.world w')
    as (r & kp1 & nattrs & v & H1 & H2 & H3 & H4 & H5 & _).
  - intros id id'. apply Sample_InternalPath_inj.
  - vm_compute. reflexivity.
  - now exists r, kp1, nattrs, v.
Defined.

(** ** What the operations leave alone *)

Section Frame.

Variable fs : Decomposedfs.
Variables F P : string -> Prop.

Lemma frame_ret {A} (a : A) : frame F P (ret a).
Proof. intros w. now split. Qed.

Lemma frame_fail {A} (e : Error) : frame F P (@fail A e).
Proof. intros w. now split. Qed.

Lemma frame_call (c : Call) : frame F P (call fs c).
Proof. intros w. rewrite call_eq. now split. Qed.

Lemma frame_get_metadata (path : string) : frame F P (get_metadata path).
Proof. intros w. now split. Qed.

Lemma frame_file_exists (path : string) : frame F P (file_exists path).
Proof. intros w. now split. Qed.

Lemma frame_bind_Ok {A B} (m : M A) (k : A -> M B) :
  frame F P m ->
  (forall w a w1, m w = (Ok a, w1) ->
     (forall f, ~ F f -> (f ∈ files (snd (k a w1)) <-> f ∈ files w1)) /\
     (forall p, ~ P p -> metadata (snd (k a w1)) !! p = metadata w1 !! p)) ->
  frame F P (bind m k).
Proof.
  intros Hm Hk w. destruct (Hm w) as [Hf Hp]. unfold bind.
  destruct (m w) as [[a|e] w1] eqn:E; simpl in Hf, Hp; [|now split].
  destruct (Hk w a w1 E) as [Hf' Hp']. split.
  - intros f Hn. rewrite (Hf' f Hn). now apply Hf.
  - intros p Hn. rewrite (Hp' p Hn). now apply Hp.
Qed.

Lemma frame_bind {A B} (m : M A) (k : A -> M B) :
  frame F P m -> (forall a, frame F P (k a)) -> frame F P (bind m k).
Proof. intros Hm Hk. apply frame_bind_Ok; [exact Hm|]. intros w a w1 _. apply Hk. Qed.

Lemma frame_attempt {A} (m : M A) : frame F P m -> frame F P (attempt m).
Proof. intros Hm w. specialize (Hm w). unfold attempt. now destruct (m w). Qed.

Lemma frame_orError {A} (m : M A) (e : Error -> Error) :
  frame F P m -> frame F P (orError m e).
Proof. intros Hm w. specialize (Hm w). unfold orError. now destruct (m w) as [[?|?] ?]. Qed.

Lemma frame_logged (m : M unit) : frame F P m -> frame F P (logged m).
Proof. intros Hm w. specialize (Hm w). unfold logged. now destruct (m w). Qed.

Lemma frame_deferOnError {A} (body : M A) (cleanup : M unit) :
  frame F P body -> frame F P cleanup -> frame F P (deferOnError body cleanup).
Proof.
  intros Hb Hc w. destruct (Hb w) as [Hf Hp]. unfold deferOnError.
  destruct (body w) as [[a|e] w1]; simpl in Hf, Hp; [now split|].
  destruct (Hc w1) as [Hf' Hp']. destruct (cleanup w1) as [u w2]. simpl in *. split.
  - intros f Hn. rewrite (Hf' f Hn). now apply Hf.
  - intros p Hn. rewrite (Hp' p Hn). now apply Hp.
Qed.

Lemma frame_set_files (g : gset string -> gset string) :
  (forall s f, ~ F f -> (f ∈ g s <-> f ∈ s)) -> frame F P (set_files g).
Proof. intros Hg w. split; [intros f Hn; now apply Hg | reflexivity]. Qed.

Lemma frame_set_metadata (g : gmap string Attributes -> gmap string Attributes) :
  (forall m p, ~ P p -> g m !! p = m !! p) -> frame F P (set_metadata g).
Proof. intros Hg w. split; [reflexivity | intros p Hn; now apply Hg]. Qed.

Lemma frame_add_file (path : string) :
  F path -> frame F P (set_files (fun f => {[path]} ∪ f)).
Proof.
  intros HF. apply frame_set_files. intros s f Hn.
  rewrite elem_of_union, elem_of_singleton. split; [|now right].
  intros [-> | H]; [contradiction | exact H].
Qed.

Lemma frame_drop_file (path : string) :
  F path -> frame F P (set_files (fun f => f ∖ {[path]})).
Proof.
  intros HF. apply frame_set_files. intros s f Hn.
  rewrite elem_of_difference, elem_of_singleton. split; [now intros [H _]|].
  intros H. split; [exact H|]. intros ->. contradiction.
Qed.

Lemma frame_os_create (path : string) : F path -> frame F P (os_create fs path).
Proof.
  intros HF. apply frame_bind; [apply frame_call|]. intros _. now apply frame_add_file.
Qed.

Lemma frame_os_remove (path : string) : F path -> frame F P (os_remove fs path).
Proof.
  intros HF. apply frame_bind; [apply frame_call|]. intros _.
  apply frame_bind; [apply frame_file_exists|].
  intros [|]; [now apply frame_drop_file | apply frame_fail].
Qed.


Lemma frame_lockedfile_open (path : string) (create : bool) :
  F path -> frame F P (lockedfile_open fs path create).
Proof.
  intros HF. apply frame_bind; [apply frame_call|]. intros _.
  apply frame_bind; [apply frame_file_exists|]. intros b.
  destruct (create || b); [|apply frame_fail].
  apply frame_bind; [now apply frame_add_file|]. intros _. apply frame_ret.
Qed.

Lemma frame_backend_all (path : string) : frame F P (backend_all fs path).
Proof.
  apply frame_bind; [apply frame_call|]. intros _.
  apply frame_bind; [apply frame_get_metadata|].
  intros [attrs|]; [apply frame_ret | apply frame_fail].
Qed.

Lemma frame_backend_getInt64 (path key : string) : frame F P (backend_getInt64 fs path key).
Proof.
  apply frame_bind; [apply frame_call|]. intros _.
  apply frame_bind; [apply frame_get_metadata|].
  intros [attrs|]; [|apply frame_fail].
  destruct (attrs !! key) as [v|]; [|apply frame_fail].
  destruct (ParseInt v); [apply frame_ret | apply frame_fail].
Qed.

Lemma frame_backend_setMultiple (path : string) (attrs : Attributes) :
  P path -> frame F P (backend_setMultiple fs path attrs).
Proof.
  intros HP. apply frame_bind; [apply frame_call|]. intros _.
  apply frame_set_metadata. intros m p Hn.
  apply lookup_insert_ne. intros ->. contradiction.
Qed.

Lemma frame_backend_purge (path : string) : P path -> frame F P (backend_purge fs path).
Proof.
  intros HP. apply frame_bind; [apply frame_call|]. intros _.
  apply frame_set_metadata. intros m p Hn.
  apply lookup_delete_ne. intros ->. contradiction.
Qed.

Lemma frame_ReadNode (spaceID nodeID : string) : frame F P (ReadNode fs spaceID nodeID).
Proof.
  apply frame_bind; [apply frame_call|]. intros _.
  apply frame_bind; [apply frame_get_metadata|].
  intros [attrs|]; [|apply frame_ret].
  destruct (Attributes.Int64 attrs (BlobsizeAttr fs)); [apply frame_ret | apply frame_fail].
Qed.

Lemma frame_AssemblePermissions (n : Node) : frame F P (AssemblePermissions fs n).
Proof. apply frame_bind; [apply frame_call|]. intros _. apply frame_ret. Qed.

Lemma frame_GetMTime (n : Node) : frame F P (GetMTime fs n).
Proof.
  apply frame_bind; [apply frame_backend_all|]. intros attrs.
  destruct (attrs !! MTimeAttr fs) as [v|]; [|apply frame_fail].
  destruct (time_Parse fs v); [apply frame_ret | apply frame_fail].
Qed.

Lemma frame_ReadRevision (n : Node) (revision : string) :
  frame F P (ReadRevision fs n revision).
Proof.
  apply frame_bind; [apply frame_attempt, frame_backend_all|].
  intros [attrs|err].
  - destruct (Attributes.Int64 attrs (BlobsizeAttr fs)); [apply frame_ret | apply frame_fail].
  - destruct (IsNotExist err); [apply frame_ret | apply frame_fail].
Qed.

Lemma frame_CopyMetadata (source target : string)
    (filter : string -> string -> string * bool) :
  P target -> frame F P (CopyMetadata fs source target filter).
Proof.
  intros HP. apply frame_bind; [apply frame_backend_all|]. intros attrs.
  now apply frame_backend_setMultiple.
Qed.


Lemma frame_ListRevisions_item (n : Node) (item : string) (revisions : list FileVersion) :
  frame F P (ListRevisions_item fs n item revisions).
Proof.
  unfold ListRevisions_item.
  destruct (IsMetaFile fs item); [apply frame_ret|].
  destruct (strings.SplitN item RevisionIDDelimiter 2) as [|prefix [|ts [|? ?]]];
    try apply frame_ret.
  apply frame_bind; [apply frame_attempt, frame_ReadRevision|].
  intros [rn|e]; [|apply frame_ret].
  destruct (negb (Exists rn)); [apply frame_ret|].
  apply frame_bind; [apply frame_attempt, frame_GetMTime|].
  intros [t|e]; [|apply frame_ret].
  destruct (CalculateEtag fs rn t); apply frame_ret.
Qed.

Lemma frame_ListRevisions_loop (n : Node) (items : list string) :
  forall revisions, frame F P (ListRevisions_loop fs n items revisions).
Proof.
  induction items as [|item items IH]; intros revisions; [apply frame_ret|].
  simpl. apply frame_bind; [apply frame_ListRevisions_item | exact IH].
Qed.

Lemma frame_ListRevisions (ref : Reference) : frame F P (ListRevisions fs ref).
Proof.
  unfold ListRevisions, NodeFromResource.
  apply frame_bind; [apply frame_ReadNode|]. intros n.
  destruct (negb (Exists n)); [apply frame_fail|].
  apply frame_bind; [apply frame_AssemblePermissions|]. intros rp.
  destruct (negb (ListFileVersions rp)); [apply frame_fail|].
  apply frame_bind.
  - apply frame_attempt. unfold filepath_glob.
    apply frame_bind; [apply frame_call|]. intros _ w. now split.
  - intros [items|e]; [apply frame_ListRevisions_loop | apply frame_ret].
Qed.

Lemma frame_DownloadRevision (ref : Reference) (revisionKey : string) :
  frame F P (DownloadRevision fs ref revisionKey).
Proof.
  unfold DownloadRevision.
  destruct (strings.SplitN revisionKey RevisionIDDelimiter 2) as [|kp0 [|kp1 [|? ?]]];
    try apply frame_fail.
  apply frame_bind; [apply frame_ReadNode|]. intros n.
  destruct (negb (Exists n)); [apply frame_fail|].
  apply frame_bind; [apply frame_AssemblePermissions|]. intros rp.
  destruct (negb (ListFileVersions rp) || negb (InitiateFileDownload rp));
    [apply frame_fail|].
  apply frame_bind; [apply frame_orError, frame_ReadRevision|]. intros rn.
  apply frame_orError. unfold blobstore_download.
  apply frame_bind; [apply frame_call|]. intros _. apply frame_ret.
Qed.

End Frame.

(** A step that may change nothing changes nothing. *)
Lemma frame_nothing {A} (m : M A) (w : World) :
  frame (fun _ => False) (fun _ => False) m ->
  files (snd (m w)) = files w /\ metadata (snd (m w)) = metadata w.
Proof.
  intros H. destruct (H w) as [Hf Hp]. split.
  - apply set_eq. intros f. apply Hf. tauto.
  - apply map_eq. intros p. apply Hp. tauto.
Qed.

(** X5: [ListRevisions] and [DownloadRevision] only read: for every
    reference, key, world and environment, whatever they return and
    whatever fails on the way, the files and the metadata are as before. *)
Theorem ListRevisions_DownloadRevision_only_read
    (fs : Decomposedfs) (ref : Reference) (revisionKey : string) (w : World) :
  (files (snd (ListRevisions fs ref w)) = files w /\
   metadata (snd (ListRevisions fs ref w)) = metadata w) /\
  (files (snd (DownloadRevision fs ref revisionKey w)) = files w /\
   metadata (snd (DownloadRevision fs ref revisionKey w)) = metadata w).
Proof.
  split; apply frame_nothing.
  - apply frame_ListRevisions.
  - apply frame_DownloadRevision.
Qed.


(** ** What a restore leaves alone *)

Section RestoreFrame.

Variable fs : Decomposedfs.
Variable ref : Reference.
Variables revisionKey kp0 kp1 : string.
Hypothesis Hsplit : strings.SplitN revisionKey RevisionIDDelimiter 2 = [kp0; kp1].

Let F := RestoreRevision_files fs ref revisionKey kp0.
Let P := RestoreRevision_paths fs ref kp0.

Lemma restored_is_revision :
  restoredRevisionPath fs ref revisionKey
  = InternalPath fs (SpaceId ref) (JoinRevisionKey kp0 kp1).
Proof. unfold restoredRevisionPath. now destruct (SplitN_two _ _ _ Hsplit) as [-> _]. Qed.

Lemma frame_RestoreRevision_begin :
  frame F P (RestoreRevision_begin fs ref revisionKey).
Proof.
  unfold RestoreRevision_begin. rewrite Hsplit.
  apply frame_bind_Ok; [apply frame_ReadNode|]. intros w n w1 Hn.
  apply ReadNode_Ok in Hn as (_ & Hs & Hid & _).
  revert w1. change (frame F P
    (if negb (Exists n) then fail (NotFound (filepath_Join (ParentID n) (Name n)))
     else bind (AssemblePermissions fs n) (fun rp =>
       if negb (RestoreFileVersion rp) then fail (denied fs ref rp)
       else bind (CheckLock fs n) (fun _ =>
         bind (lockedfile_open fs (LockfilePath fs (Node_InternalPath fs n)) true) (fun f =>
         bind (GetMTime fs n) (fun mtime =>
           bind (os_create fs (r_newRevisionPath fs ref (mkRestore kp0 n f mtime)))
                (fun _ => ret (mkRestore kp0 n f mtime)))))))).
  destruct (negb (Exists n)); [apply frame_fail|].
  apply frame_bind; [apply frame_AssemblePermissions|]. intros rp.
  destruct (negb (RestoreFileVersion rp)); [apply frame_fail|].
  apply frame_bind; [apply frame_call|]. intros _.
  apply frame_bind.
  { apply frame_lockedfile_open. left. unfold Node_InternalPath. now rewrite Hs, Hid. }
  intros f. apply frame_bind; [apply frame_GetMTime|]. intros mtime.
  apply frame_bind; [|intros _; apply frame_ret].
  apply frame_os_create. right; left. now eexists.
Qed.

Lemma frame_RestoreRevision_rollback (r : Restore) :
  r_kp0 r = kp0 ->
  frame F P (RestoreRevision_rollback fs ref r).
Proof.
  intros Hk.
  assert (Hnew : exists ts, r_newRevisionPath fs ref r
                            = InternalPath fs (SpaceId ref) (JoinRevisionKey kp0 ts)).
  { unfold r_newRevisionPath. rewrite Hk. now eexists. }
  unfold RestoreRevision_rollback.
  apply frame_bind.
  - apply frame_logged, frame_os_remove. now right; left.
  - intros _. apply frame_logged, frame_backend_purge. now right.
Qed.

Lemma frame_RestoreRevision_body (r : Restore) :
  r_kp0 r = kp0 ->
  frame F P (RestoreRevision_body fs ref revisionKey r).
Proof.
  intros Hk.
  assert (Hnew : exists ts, r_newRevisionPath fs ref r
                            = InternalPath fs (SpaceId ref) (JoinRevisionKey kp0 ts)).
  { unfold r_newRevisionPath. rewrite Hk. now eexists. }
  assert (Hnode : r_nodePath fs ref r = InternalPath fs (SpaceId ref) kp0).
  { unfold r_nodePath. now rewrite Hk. }
  assert (Hrev : exists ts, restoredRevisionPath fs ref revisionKey
                            = InternalPath fs (SpaceId ref) (JoinRevisionKey kp0 ts)).
  { exists kp1. apply restored_is_revision. }
  unfold RestoreRevision_body. apply frame_bind; [|intros sizeDiff; apply frame_call].
  unfold RestoreRevision_swap.
  apply frame_bind.
  { apply frame_orError. unfold CopyMetadataWithSourceLock.
    destruct (negb _); [apply frame_fail|]. apply frame_CopyMetadata. now right. }
  intros _. apply frame_bind; [apply frame_orError, frame_call|].
  intros _. apply frame_bind; [apply frame_orError, frame_call|].
  intros _. apply frame_bind.
  { apply frame_orError, frame_CopyMetadata. left. exact Hnode. }
  intros _. apply frame_bind; [apply frame_orError, frame_backend_getInt64|].
  intros revisionSize. apply frame_bind.
  { apply frame_logged, frame_os_remove. now right; left. }
  intros _. apply frame_bind.
  { apply frame_logged, frame_os_remove. unfold restoredRevisionPath. now right; right; left. }
  intros _. apply frame_bind.
  { apply frame_logged, frame_os_remove. unfold restoredRevisionPath. now right; right; right. }
  intros _. apply frame_bind; [|intros _; apply frame_ret].
  apply frame_logged, frame_backend_purge. now right.
Qed.

Lemma frame_RestoreRevision : frame F P (RestoreRevision fs ref revisionKey).
Proof.
  unfold RestoreRevision. apply frame_bind_Ok; [apply frame_RestoreRevision_begin|].
  intros w r w1 Hr.
  assert (Hk : r_kp0 r = kp0).
  { apply RestoreRevision_begin_Ok in Hr as (kp1' & _ & _ & Hs & _).
    rewrite Hsplit in Hs. now injection Hs as -> _. }
  clear Hr. revert w1. apply frame_deferOnError.
  - now apply frame_RestoreRevision_body.
  - now apply frame_RestoreRevision_rollback.
Qed.

End RestoreFrame.

(** X8: whatever happens in [RestoreRevision] of a revision of node
    [kp0], the metadata of every path other than the node's and its
    revisions' is as before, and so is every file other than the lock
    of the node, the revisions of the node, and the metadata and lock
    files of the restored revision. *)
Theorem RestoreRevision_frame
    (fs : Decomposedfs) (ref : Reference) (revisionKey kp0 kp1 : string) (w : World) :
  strings.SplitN revisionKey RevisionIDDelimiter 2 = [kp0; kp1] ->
  let space := SpaceId ref in
  let w' := snd (RestoreRevision fs ref revisionKey w) in
  (forall p,
     p <> InternalPath fs space kp0 ->
     (forall ts, p <> InternalPath fs space (JoinRevisionKey kp0 ts)) ->
     metadata w' !! p = metadata w !! p) /\
  (forall f,
     f <> LockfilePath fs (InternalPath fs space kp0) ->
     (forall ts, f <> InternalPath fs space (JoinRevisionKey kp0 ts)) ->
     f <> MetadataPath fs (InternalPath fs space revisionKey) ->
     f <> LockfilePath fs (InternalPath fs space revisionKey) ->
     (f ∈ files w' <-> f ∈ files w)).
Proof.
  intros Hsplit space w'.
  destruct (frame_RestoreRevision fs ref revisionKey kp0 kp1 Hsplit w) as [Hf Hp].
  fold w' in Hf, Hp. split.
  - intros p H1 H2. apply Hp. intros [->|[ts ->]]; [now apply H1 | now apply (H2 ts)].
  - intros f H1 H2 H3 H4. apply Hf.
    intros [->|[[ts ->]|[->| ->]]];
      [now apply H1 | now apply (H2 ts) | now apply H3 | now apply H4].
Qed.

Lemma RestoreRevision_frame_witness :
  let fs := Sample.storage Sample.all_permissions Sample.no_faults in
  let w' := snd (RestoreRevision fs Sample.ref "n1.REV.1000" Sample.world) in
  "/spaces/s1/nodes/n1" ∈ files w' /\
  metadata w' !! "/spaces/s1/nodes/n2" = metadata Sample.world !! "/spaces/s1/nodes/n2".
Proof.
  intros fs w'.
  destruct (RestoreRevision_frame fs Sample.ref "n1.REV.1000" "n1" "1000" Sample.world)
    as [Hp Hf]; [vm_compute; reflexivity|].
  split.
  - apply Hf.
    + discriminate.
    + intros ts. vm_compute. discriminate.
    + discriminate.
    + discriminate.
    + apply elem_of_union_l. now apply elem_of_singleton.
  - apply Hp.
    + discriminate.
    + intros ts. vm_compute. discriminate.
Defined.

(** ** Listing, then downloading *)

(** X10: what is listed can be downloaded. When nothing fails, the
    caller may list and download, and the node id is a valid id of the
    key round trip, every key that [ListRevisions] returns is accepted
    by [DownloadRevision] in the world the listing leaves: the blobstore
    is asked for the revision node of that key, which exists and has
    the listed size. *)
Theorem listed_revisions_download
    (fs : Decomposedfs) (ref : Reference) (w w1 : World) (attrs : Attributes) (size : Z)
    (revisions : list FileVersion) :
  let n := mkNode (SpaceId ref) (OpaqueId ref)
             (Attributes.String attrs (ParentidAttr fs))
             (Attributes.String attrs (NameAttr fs))
             true (Attributes.String attrs (BlobIDAttr fs)) size in
  (forall i c, fails fs i c = false) ->
  metadata w !! InternalPath fs (SpaceId ref) (OpaqueId ref) = Some attrs ->
  Attributes.Int64 attrs (BlobsizeAttr fs) = Some size ->
  ListFileVersions (permissions fs n) = true ->
  InitiateFileDownload (permissions fs n) = true ->
  strings.Contains (OpaqueId ref ++ ".REV") RevisionIDDelimiter = false ->
  ListRevisions fs ref w = (Ok revisions, w1) ->
  forall v, v ∈ revisions ->
    exists rn w2,
      DownloadRevision fs ref (Key v) w1 = (Ok rn, w2) /\
      ID rn = Key v /\ Exists rn = true /\ Size v = to_uint64 (Blobsize rn).
Proof.
  intros n Hnofail Hmeta Hsize Hlist Hdown Hvalid Hrun v Hv.
  (* the listing *)
  unfold ListRevisions, NodeFromResource in Hrun. unfold bind at 1 in Hrun.
  rewrite (ReadNode_exists fs _ _ w attrs size (Hnofail _ _) Hmeta Hsize) in Hrun.
  fold n in Hrun. change (negb (Exists n)) with false in Hrun. cbv iota in Hrun.
  unfold bind at 1 in Hrun. rewrite (AssemblePermissions_ok fs n _ (Hnofail _ _)) in Hrun.
  rewrite Hlist in Hrun. cbn [negb] in Hrun.
  unfold attempt, filepath_glob in Hrun. unfold bind in Hrun. rewrite call_eq in Hrun.
  rewrite Hnofail in Hrun.
  match type of Hrun with
  | ListRevisions_loop _ _ ?items _ ?w3 = _ =>
      destruct (ListRevisions_loop_run fs n items [] w3)
        as (revisions' & w' & Hloop & _ & Hm & Hin & _)
  end.
  rewrite Hloop in Hrun. injection Hrun as -> ->.
  destruct (Hin v Hv) as [Hnil | (item & _ & _ & Hlisted)];
    [now apply elem_of_nil in Hnil|].
  destruct Hlisted as (prefix & ts & rattrs & rsize & mt & t & etag
                       & _ & Hrev & Hrsize & _ & _ & _ & ->).
  cbn [Key Size SpaceID ID] in *.
  (* the download *)
  simpl in Hm. simpl in Hrev.
  assert (Hsplit : strings.SplitN (JoinRevisionKey (OpaqueId ref) ts) RevisionIDDelimiter 2
                   = [OpaqueId ref; ts])
    by now apply SplitN_JoinRevisionKey.
  rewrite <- Hm in Hmeta, Hrev.
  assert (Hd := DownloadRevision_run fs ref _ (OpaqueId ref) ts w1 attrs rattrs size rsize
                  Hsplit Hmeta Hsize Hlist Hdown Hrev Hrsize
                  (Hnofail _ _) (Hnofail _ _) (Hnofail _ _)).
  cbv zeta in Hd. rewrite Hnofail in Hd.
  eexists _, _. split; [exact Hd|]. now repeat split.
Qed.

Lemma listed_revisions_download_witness :
  let fs := Sample.storage Sample.all_permissions Sample.no_faults in
  let w1 := snd (ListRevisions fs Sample.ref Sample.world_listing) in
  exists rn w2,
    DownloadRevision fs Sample.ref "n1.REV.1000" w1 = (Ok rn, w2) /\
    ID rn = "n1.REV.1000" /\ Exists rn = true /\ 5%Z = to_uint64 (Blobsize rn).
Proof.
  intros fs w1.
  assert (Hfst : fst (ListRevisions fs Sample.ref Sample.world_listing)
                 = Ok [mkFileVersion "n1.REV.1000" 0 5 "n1.REV.1000@1000"])
    by (vm_compute; reflexivity).
  assert (Hrun : ListRevisions fs Sample.ref Sample.world_listing
                 = (Ok [mkFileVersion "n1.REV.1000" 0 5 "n1.REV.1000@1000"], w1)).
  { unfold w1. rewrite <- Hfst. apply surjective_pairing. }
  apply (listed_revisions_download fs Sample.ref Sample.world_listing w1
           (Sample.file_attrs "b2" 10 2000) 10 _
           (fun _ _ => eq_refl)
         ltac:(vm_compute; reflexivity) ltac:(vm_compute; reflexivity)
           eq_refl eq_refl ltac:(vm_compute; reflexivity) Hrun
           (mkFileVersion "n1.REV.1000" 0 5 "n1.REV.1000@1000")).
  apply list_elem_of_here.
Defined.

(** ** Uploads: the lock and the attributes of the node *)

(** X11: [SetNodeToUpload] opens the lock of the node without
    [os.O_CREATE]: when the lock file is not there it fails before the
    node is read, with the error of the open, and neither files nor
    metadata change. *)
Theorem SetNodeToUpload_without_lock
    (fs : Decomposedfs) (n : Node) (rm : RevisionMetadata) (w : World) :
  let lock := LockfilePath fs (Node_InternalPath fs n) in
  lock ∉ files w ->
  SetNodeToUpload fs n rm w =
    (Err (if fails fs (length (trace w)) (lockedfile_OpenFile lock)
          then Failed (lockedfile_OpenFile lock) else NotExist lock),
     log w (lockedfile_OpenFile lock)).
Proof.
  intros lock Hno. unfold SetNodeToUpload, lockedfile_open. fold lock.
  unfold bind at 1. unfold bind at 1. rewrite call_eq.
  destruct (fails fs _ _); [reflexivity|].
  unfold bind, file_exists. rewrite files_log.
  rewrite bool_decide_eq_false_2 by exact Hno. reflexivity.
Qed.

Lemma SetNodeToUpload_without_lock_witness :
  let fs := Sample.storage Sample.all_permissions Sample.no_faults in
  SetNodeToUpload fs Sample.n1 Sample.upload Sample.world =
    (Err (NotExist "/spaces/s1/nodes/n1.mlock"),
     log Sample.world (lockedfile_OpenFile "/spaces/s1/nodes/n1.mlock")).
Proof.
  intros fs.
  refine (SetNodeToUpload_without_lock fs Sample.n1 Sample.upload Sample.world _).
  change (files Sample.world)
    with ({[ "/spaces/s1/nodes/n1"; "/spaces/s1/nodes/n1.REV.1000" ]} : gset string).
  intros [Hin|Hin]%elem_of_union; apply elem_of_singleton in Hin; discriminate Hin.
Defined.

(** A step that may change no metadata changes none. *)
Lemma frame_metadata {A} (F : string -> Prop) (m : M A) (w : World) :
  frame F (fun _ => False) m -> metadata (snd (m w)) = metadata w.
Proof. intros H. destruct (H w) as [_ Hp]. apply map_eq. intros p. apply Hp. tauto. Qed.

(** The revision attributes do not depend on the mtime. *)
Lemma revision_attributes_mtime (fs : Decomposedfs) (rm : RevisionMetadata) (t : option Time) :
  revision_attributes fs
    (mkRevisionMetadata t (rm_BlobID rm) (rm_BlobSize rm) (rm_ChecksumSHA1 rm)
       (rm_ChecksumMD5 rm) (rm_ChecksumADLER32 rm))
  = revision_attributes fs rm.
Proof. reflexivity. Qed.

(** What [SetNodeToUpload] does to the metadata: nothing, or the write
    of the revision attributes over the attributes of the node. *)
Lemma SetNodeToUpload_metadata
    (fs : Decomposedfs) (n : Node) (rm : RevisionMetadata) (w : World) :
  let p := Node_InternalPath fs n in
  let w' := snd (SetNodeToUpload fs n rm w) in
  metadata w' = metadata w \/
  metadata w' = <[p := revision_attributes fs rm ∪ default ∅ (metadata w !! p)]> (metadata w).
Proof.
  intros p w'. assert (Hw : w' = snd (SetNodeToUpload fs n rm w)) by reflexivity.
  clearbody w'. unfold SetNodeToUpload in Hw. fold p in Hw. unfold bind at 1 in Hw.
  assert (Hm1 := frame_metadata (fun _ => True) _ w
                   (frame_lockedfile_open fs _ _ (LockfilePath fs p) false I)).
  destruct (lockedfile_open fs (LockfilePath fs p) false w) as [[f|e] w1];
    simpl in Hm1; [|subst w'; now left].
  unfold bind at 1 in Hw.
  assert (Hm2 := frame_metadata (fun _ => True) _ w1
                   (frame_ReadNode fs _ _ (SpaceID n) (ID n))).
  destruct (ReadNode fs (SpaceID n) (ID n) w1) as [[n'|e] w2] eqn:Hread;
    simpl in Hm2; [|subst w'; left; simpl; congruence].
  apply ReadNode_Ok in Hread as (_ & Hs & Hi & _).
  unfold bind, orError, WriteRevisionMetadataToNode, SetXattrsWithContext,
    backend_setMultiple, Node_InternalPath in Hw. cbn [SpaceID ID] in Hw.
  rewrite Hs, Hi in Hw. fold (Node_InternalPath fs n) in Hw. fold p in Hw.
  unfold bind in Hw. rewrite call_eq in Hw.
  destruct (fails fs _ _); subst w'; cbn [snd metadata log]; [left; simpl; congruence|].
  right. unfold set_metadata. simpl. rewrite Hm2, Hm1.
  unfold Attributes.SetString, Attributes.SetInt64.
  destruct (rm_MTime rm); reflexivity.
Qed.

(** A step that may change no file changes none. *)
Lemma frame_files {A} (P : string -> Prop) (m : M A) (w : World) :
  frame (fun _ => False) P m -> files (snd (m w)) = files w.
Proof. intros H. destruct (H w) as [Hf _]. apply set_eq. intros f. apply Hf. tauto. Qed.

(** What [SetNodeToUpload] does to the files: nothing, or the lock of
    the node is there afterwards. *)
Lemma SetNodeToUpload_files
    (fs : Decomposedfs) (n : Node) (rm : RevisionMetadata) (w : World) :
  let lock := LockfilePath fs (Node_InternalPath fs n) in
  let w' := snd (SetNodeToUpload fs n rm w) in
  files w' = files w \/ files w' = {[lock]} ∪ files w.
Proof.
  intros lock w'. assert (Hw : w' = snd (SetNodeToUpload fs n rm w)) by reflexivity.
  clearbody w'. unfold SetNodeToUpload in Hw. fold lock in Hw. unfold bind at 1 in Hw.
  assert (Hopen : forall r w1, lockedfile_open fs lock false w = (r, w1) ->
            (r = Err (if fails fs (length (trace w)) (lockedfile_OpenFile lock)
                      then Failed (lockedfile_OpenFile lock) else NotExist lock)
             /\ files w1 = files w) \/
            (r = Ok lock /\ files w1 = {[lock]} ∪ files w)).
  { intros r w1. unfold lockedfile_open, bind. rewrite call_eq.
    destruct (fails fs _ _); [intros [= <- <-]; now left|].
    unfold file_exists. cbn [orb]. destruct (bool_decide _).
    - intros [= <- <-]. now right.
    - intros [= <- <-]. now left. }
  destruct (lockedfile_open fs lock false w) as [r w1].
  destruct (Hopen r w1 eq_refl) as [[-> Hf]|[-> Hf]]; [subst w'; now left|].
  right. rewrite <- Hf. subst w'.
  apply (frame_files (fun _ => True)).
  apply frame_bind; [apply frame_ReadNode|]. intros n'. cbv zeta.
  apply frame_bind; [|intros _; apply frame_ret].
  apply frame_orError. unfold WriteRevisionMetadataToNode, SetXattrsWithContext.
  now apply frame_backend_setMultiple.
Qed.

(** X12: whatever happens, [SetNodeToUpload] leaves the metadata of
    every other path alone, and of the attributes of the node it changes
    none but the blob id, the blob size and the three checksums: the
    mtime attribute of the node is not written; the lock of the node is
    the only file it can add and it removes none; and the mtime of the
    revision metadata, which the code fills in with the current time
    when it is zero, has no effect on the result. *)
Theorem SetNodeToUpload_writes_blob_attributes_only
    (fs : Decomposedfs) (n : Node) (rm : RevisionMetadata) (w : World) :
  let p := Node_InternalPath fs n in
  let w' := snd (SetNodeToUpload fs n rm w) in
  (forall q, q <> p -> metadata w' !! q = metadata w !! q) /\
  (forall k,
     k <> BlobIDAttr fs -> k <> BlobsizeAttr fs ->
     k <> ChecksumPrefix fs ++ XSSHA1 fs -> k <> ChecksumPrefix fs ++ XSMD5 fs ->
     k <> ChecksumPrefix fs ++ XSAdler32 fs ->
     default ∅ (metadata w' !! p) !! k = default ∅ (metadata w !! p) !! k) /\
  (forall f, f <> LockfilePath fs p -> (f ∈ files w' <-> f ∈ files w)) /\
  files w ⊆ files w' /\
  (forall t,
     SetNodeToUpload fs n
       (mkRevisionMetadata t (rm_BlobID rm) (rm_BlobSize rm) (rm_ChecksumSHA1 rm)
          (rm_ChecksumMD5 rm) (rm_ChecksumADLER32 rm)) w
     = SetNodeToUpload fs n rm w).
Proof.
  intros p w'.
  destruct (SetNodeToUpload_metadata fs n rm w) as [Hm|Hm]; fold p w' in Hm.
  all: split; [intros q Hq; rewrite Hm; [reflexivity || now apply lookup_insert_ne] |].
  all: split.
  1: intros k _ _ _ _ _; now rewrite Hm.
  2: { intros k H1 H2 H3 H4 H5. rewrite Hm, lookup_insert_eq. cbn [default].
       apply lookup_union_r. unfold revision_attributes.
       rewrite !lookup_insert_ne by congruence. apply lookup_empty. }
  all: destruct (SetNodeToUpload_files fs n rm w) as [Hf|Hf]; fold p w' in Hf; rewrite Hf.
  all: split; [intros f Hne; rewrite ?elem_of_union, ?elem_of_singleton; tauto |].
  all: split; [first [reflexivity | apply union_subseteq_r] |].
  all: intros t; unfold SetNodeToUpload; destruct t, (rm_MTime rm); reflexivity.
Qed.

(** ** The revision node of an upload *)

(** The run of [CreateRevisionNode]. *)
Lemma CreateRevisionNode_run (fs : Decomposedfs) (revisionNode : Node) (w : World) :
  let rp := Node_InternalPath fs revisionNode in
  let lock := LockfilePath fs rp in
  let w1 := mkWorld ({[lock]} ∪ files w) (metadata w) (trace w ++ [lockedfile_OpenFile lock]) in
  CreateRevisionNode fs revisionNode w =
    if fails fs (length (trace w)) (lockedfile_OpenFile lock)
    then (Err (Failed (lockedfile_OpenFile lock)), log w (lockedfile_OpenFile lock))
    else if fails fs (length (trace w1)) (os_Create rp)
         then (Ok (lock, Some (Failed (os_Create rp))), log w1 (os_Create rp))
         else (Ok (lock, None),
               mkWorld ({[rp]} ∪ files w1) (metadata w) (trace w1 ++ [os_Create rp])).
Proof.
  intros rp lock w1. unfold CreateRevisionNode. fold rp lock.
  unfold lockedfile_open. unfold bind at 1. unfold bind at 1. rewrite call_eq.
  destruct (fails fs (length (trace w)) _); [reflexivity|].
  unfold bind at 1. unfold file_exists at 1. cbn [orb].
  unfold bind at 1. unfold set_files at 1. unfold bind at 1. unfold ret at 1.
  rewrite files_log. change (metadata (log w _)) with (metadata w).
  change (trace (log w (lockedfile_OpenFile lock)))
    with (trace w ++ [lockedfile_OpenFile lock])%list. fold w1.
  unfold bind, attempt, os_create, bind. rewrite call_eq.
  destruct (fails fs (length (trace w1)) _); reflexivity.
Qed.

(** X13: [CreateRevisionNode] changes no metadata and removes no file;
    the lock of the revision and the revision file are the only files
    it can add. It fails only when the open of the lock fails, so not
    because the revision is already there (the touch is without
    [os.O_EXCL]); when the touch fails the lock file has been created
    and its handle comes back next to the error. *)
Theorem CreateRevisionNode_touches_lock_and_revision
    (fs : Decomposedfs) (revisionNode : Node) (w : World) :
  let rp := Node_InternalPath fs revisionNode in
  let lock := LockfilePath fs rp in
  let r := fst (CreateRevisionNode fs revisionNode w) in
  let w' := snd (CreateRevisionNode fs revisionNode w) in
  metadata w' = metadata w /\
  files w ⊆ files w' /\
  (forall f, f <> lock -> f <> rp -> (f ∈ files w' <-> f ∈ files w)) /\
  (forall e, r = Err e ->
     e = Failed (lockedfile_OpenFile lock) /\ files w' = files w /\
     fails fs (length (trace w)) (lockedfile_OpenFile lock) = true) /\
  (forall f oe, r = Ok (f, oe) ->
     f = lock /\ lock ∈ files w' /\
     match oe with
     | None => rp ∈ files w'
     | Some e => e = Failed (os_Create rp) /\ files w' = {[lock]} ∪ files w
     end).
Proof.
  intros rp lock r w'. unfold r, w'. rewrite CreateRevisionNode_run. fold rp lock.
  destruct (fails fs (length (trace w)) _).
  { cbn [fst snd]. rewrite files_log.
    split; [reflexivity|]. split; [reflexivity|]. split; [tauto|].
    split; [now intros e [= <-] | discriminate]. }
  match goal with |- context [fails fs ?i (os_Create rp)] =>
    destruct (fails fs i (os_Create rp)) end; cbn [fst snd files metadata log].
  all: split; [reflexivity|].
  all: split; [set_solver|].
  all: split; [intros f H1 H2; rewrite ?elem_of_union, !elem_of_singleton; tauto|].
  all: split; [discriminate|].
  all: intros f oe [= <- <-]; split; [reflexivity|]; split; [set_solver|].
  - now split.
  - set_solver.
Qed.

(** X14: a revision created for an upload is found by the glob of
    [ListRevisions]. When the internal path of a revision is the
    internal path of its node followed by the delimiter and the
    timestamp, and the timestamp holds no slash, then after a
    [CreateRevisionNode] that returned no error the path of the revision
    is among the matches of [<node path>.REV.*]. *)
Theorem created_revision_is_globbed
    (fs : Decomposedfs) (n : Node) (ts f : string) (w : World) :
  let rn := RevisionNode n ts in
  (forall id s, InternalPath fs (SpaceID n) (id ++ s) = InternalPath fs (SpaceID n) id ++ s) ->
  strings.Contains ts "/" = false ->
  fst (CreateRevisionNode fs rn w) = Ok (f, None) ->
  Node_InternalPath fs rn
    ∈ glob_matches (Node_InternalPath fs n ++ RevisionIDDelimiter)
        (snd (CreateRevisionNode fs rn w)).
Proof.
  intros rn Happ Hts Hrun.
  assert (Hin : Node_InternalPath fs rn ∈ files (snd (CreateRevisionNode fs rn w))).
  { revert Hrun. rewrite CreateRevisionNode_run.
    destruct (fails fs (length (trace w)) _); [discriminate|].
    match goal with |- context [fails fs ?i (os_Create ?p)] =>
      destruct (fails fs i (os_Create p)) end; [discriminate|].
    intros _. cbn [snd files]. apply elem_of_union_l. now apply elem_of_singleton. }
  assert (Hpath : Node_InternalPath fs rn
                  = (Node_InternalPath fs n ++ RevisionIDDelimiter) ++ ts).
  { unfold Node_InternalPath, rn, RevisionNode, JoinRevisionKey. cbn [SpaceID ID].
    now rewrite Happ, app_assoc_s. }
  unfold glob_matches. apply list_elem_of_filter. split; [|now apply elem_of_elements].
  rewrite Hpath, HasPrefix_app, drop_app_length. unfold strings.Contains in *.
  now destruct (strings.Index ts "/").
Qed.

Lemma created_revision_is_globbed_witness :
  let fs := Sample.storage Sample.all_permissions Sample.no_faults in
  let w' := snd (CreateRevisionNode fs (RevisionNode Sample.n1 "3000") Sample.world) in
  "/spaces/s1/nodes/n1.REV.3000" ∈ glob_matches "/spaces/s1/nodes/n1.REV." w'.
Proof.
  intros fs w'.
  refine (created_revision_is_globbed fs Sample.n1 "3000" "/spaces/s1/nodes/n1.REV.3000.mlock"
            Sample.world _ _ _).
  - intros id s. cbn [InternalPath fs Sample.storage]. now rewrite !app_assoc_s.
  - reflexivity.
  - rewrite CreateRevisionNode_run. reflexivity.
Defined.

(** * Further properties of the ocis tree *)

Section PropagateRuns.

Import ocis.

Variable t : Tree.

(** Whatever the loop returns, it has written etags only. *)
Lemma Propagate_loop_inv (etag : string) (root : Node) (fuel : nat) :
  forall (node : Node) (st : State) (r : Result unit) (st' : State),
    Propagate_loop t fuel etag root node st = Some (r, st') ->
    dirs st' = dirs st /\ links st' = links st /\
    xattr_parentid st' = xattr_parentid st /\ xattr_name st' = xattr_name st /\
    (exists ids, etag_writes st' = (etag_writes st ++ ids)%list /\ length ids <= fuel) /\
    (forall id, xattr_etag st' !! id = xattr_etag st !! id \/
                xattr_etag st' !! id = Some etag).
Proof.
  induction fuel as [|fuel IH]; intros node st r st'; simpl.
  - destruct (String.eqb (ID node) (ID root)); [|discriminate].
    intros [= <- <-]. repeat split; auto. exists []. now rewrite app_nil_r.
  - destruct (String.eqb (ID node) (ID root)).
    { intros [= <- <-]. repeat split; auto. exists []. rewrite app_nil_r. split; [auto|simpl; lia]. }
    set (st1 := set_etag t (ID node) etag st).
    assert (Hstep : forall id, xattr_etag st1 !! id = xattr_etag st !! id \/
                               xattr_etag st1 !! id = Some etag).
    { intros id. unfold st1, set_etag; simpl.
      destruct (os_fails t (SetEtag (ID node))); [now left|].
      destruct (decide (ID node = id)) as [->|Hne].
      - right. apply lookup_insert_eq.
      - left. now apply lookup_insert_ne. }
    destruct (Parent st1 node) as [parent|err].
    + intros H. apply IH in H as (Hd & Hl & Hp & Hn & (ids & Hw & Hlen) & He).
      repeat split; auto.
      * exists (ID node :: ids). split; [|simpl; lia].
        rewrite Hw. unfold st1, set_etag; simpl. now rewrite <- app_assoc.
      * intros id. destruct (He id) as [E|E]; [|now right].
        rewrite E. apply Hstep.
    + intros [= <- <-]. repeat split; auto.
      exists [ID node]. split; [reflexivity|simpl; lia].
Qed.

(** The loop on a broken chain: it writes on the way up and returns the
    error of the parent that could not be read. *)
Lemma Propagate_loop_breaks (st : State) (etag : string) (root node : Node)
    (ids : list string) (err : Error) :
  path_broken st (ID root) node ids err ->
  forall (fuel : nat) (st0 : State),
    same_tree st st0 -> length ids <= fuel ->
    exists st',
      Propagate_loop t fuel etag root node st0 = Some (Err err, st') /\
      etag_writes st' = (etag_writes st0 ++ ids)%list.
Proof.
  induction 1 as [n err Hn Hp | n parent ids err Hn Hp Hpath IH];
    intros fuel st0 Hsame Hfuel.
  all: destruct fuel as [|fuel]; [simpl in Hfuel; lia|]; simpl.
  all: destruct (String.eqb_spec (ID n) (ID root)) as [E|_]; [contradiction|].
  all: set (st1 := set_etag t (ID n) etag st0).
  all: assert (Hsame1 : same_tree st st1) by exact Hsame.
  all: rewrite (Parent_same_tree st st1 n Hsame1), Hp.
  - now exists st1.
  - destruct (IH fuel st1 Hsame1) as (st' & Hrun & Hw); [simpl in Hfuel; lia|].
    exists st'. split; [exact Hrun|].
    rewrite Hw. unfold st1, set_etag; simpl. now rewrite <- app_assoc.
Qed.

End PropagateRuns.

(** X15: whatever [Propagate] returns, it has changed nothing of the
    tree but etags: directories, links, parent ids and names are as
    before; it has asked for at most as many etag writes as it had
    rounds; and every etag is the old one or the one fresh etag of this
    run. *)
Theorem Propagate_only_writes_etags
    (t : ocis.Tree) (fuel : nat) (node : ocis.Node) (st st' : ocis.State)
    (r : Result unit) :
  ocis.Propagate t fuel node st = Some (r, st') ->
  ocis.dirs st' = ocis.dirs st /\ ocis.links st' = ocis.links st /\
  ocis.xattr_parentid st' = ocis.xattr_parentid st /\
  ocis.xattr_name st' = ocis.xattr_name st /\
  (exists ids, ocis.etag_writes st' = (ocis.etag_writes st ++ ids)%list /\
               length ids <= fuel) /\
  (forall id, ocis.xattr_etag st' !! id = ocis.xattr_etag st !! id \/
              exists etag, ocis.rand_Read t = Ok etag /\
                           ocis.xattr_etag st' !! id = Some etag).
Proof.
  unfold ocis.Propagate. intros H.
  assert (Hnone : forall e, Some (@Err unit e, st) = Some (r, st') ->
            ocis.dirs st' = ocis.dirs st /\ ocis.links st' = ocis.links st /\
            ocis.xattr_parentid st' = ocis.xattr_parentid st /\
            ocis.xattr_name st' = ocis.xattr_name st /\
            (exists ids, ocis.etag_writes st' = (ocis.etag_writes st ++ ids)%list /\
                         length ids <= fuel) /\
            (forall id, ocis.xattr_etag st' !! id = ocis.xattr_etag st !! id \/
                        exists etag, ocis.rand_Read t = Ok etag /\
                                     ocis.xattr_etag st' !! id = Some etag)).
  { intros e [= <- <-]. repeat split; auto. exists []. rewrite app_nil_r.
    split; [reflexivity | simpl; lia]. }
  destruct (ocis.rand_Read t) as [etag|e]; [|now apply (Hnone e)].
  destruct (if ocis.EnableHome t then ocis.HomeNode t else ocis.RootNode t)
    as [root|e]; [|now apply (Hnone e)].
  apply Propagate_loop_inv in H as (Hd & Hl & Hp & Hn & Hw & He).
  repeat split; auto.
  intros id. destruct (He id) as [E|E]; [now left | right; now exists etag].
Qed.

Lemma Propagate_only_writes_etags_witness :
  let st' := ocis.set_etag TreeSample.tree "a" "0123456789abcdef0123456789abcdef"
               (ocis.set_etag TreeSample.tree "b" "0123456789abcdef0123456789abcdef"
                  TreeSample.state) in
  ocis.links st' = ocis.links TreeSample.state /\
  ocis.xattr_parentid st' = ocis.xattr_parentid TreeSample.state.
Proof.
  intros st'.
  destruct (Propagate_only_writes_etags TreeSample.tree 2 TreeSample.b TreeSample.state
              st' (Ok tt)) as (_ & Hl & Hp & _).
  - reflexivity.
  - now split.
Defined.

(** X16: on a parent chain that breaks below the root, [Propagate]
    returns the error of the parent that could not be read, after it has
    asked for the etag writes of the nodes up to the break, the starting
    node first: the propagation has been done in part. *)
Theorem Propagate_broken_chain
    (t : ocis.Tree) (st : ocis.State) (etag : string) (root node : ocis.Node)
    (ids : list string) (err : Error) (fuel : nat) :
  ocis.rand_Read t = Ok etag ->
  (if ocis.EnableHome t then ocis.HomeNode t else ocis.RootNode t) = Ok root ->
  path_broken st (ocis.ID root) node ids err ->
  length ids <= fuel ->
  exists st',
    ocis.Propagate t fuel node st = Some (Err err, st') /\
    ocis.etag_writes st' = (ocis.etag_writes st ++ ids)%list /\
    hd_error ids = Some (ocis.ID node) /\
    same_tree st st'.
Proof.
  intros Hrand Hroot Hpath Hfuel.
  destruct (Propagate_loop_breaks t st etag root node ids err Hpath fuel st)
    as (st' & Hrun & Hw); [now repeat split | exact Hfuel |].
  exists st'. unfold ocis.Propagate. rewrite Hrand, Hroot.
  split; [exact Hrun|]. split; [exact Hw|]. split; [now destruct Hpath|].
  apply Propagate_loop_inv in Hrun as (Hd & _ & Hp & Hn & _). now repeat split.
Qed.

Lemma Propagate_broken_chain_witness :
  exists st',
    ocis.Propagate TreeSample.tree 1 TreeSample.lost TreeSample.state_with_lost
      = Some (Err (NotExist "gone"), st') /\
    ocis.etag_writes st' = ["lost"].
Proof.
  destruct (Propagate_broken_chain TreeSample.tree TreeSample.state_with_lost
              "0123456789abcdef0123456789abcdef" TreeSample.root TreeSample.lost
              ["lost"] (NotExist "gone") 1)
    as (st' & Hrun & Hw & _).
  - reflexivity.
  - reflexivity.
  - apply broken_here; [discriminate | reflexivity].
  - simpl. lia.
  - exists st'. now split.
Defined.

(** ** Move *)

Section MoveRuns.

Import ocis.

Variable t : Tree.
Hypothesis Hok : forall c, os_fails t c = false.

Lemma step_ok (c : OsCall) (msg : string) (f : State -> option State) (st st' : State) :
  f st = Some st' -> step t c msg f st = (Ok tt, st').
Proof. intros H. unfold step. now rewrite Hok, H. Qed.

Lemma Propagate_walks (st : State) (etag : string) (root node : Node)
    (ids : list string) (fuel : nat) (st0 : State) :
  rand_Read t = Ok etag ->
  (if EnableHome t then HomeNode t else RootNode t) = Ok root ->
  path_below st (ID root) node ids ->
  same_tree st st0 -> length ids <= fuel ->
  exists st',
    Propagate t fuel node st0 = Some (Ok tt, st') /\
    dirs st' = dirs st0 /\ links st' = links st0 /\
    xattr_parentid st' = xattr_parentid st0 /\ xattr_name st' = xattr_name st0 /\
    etag_writes st' = (etag_writes st0 ++ ids)%list /\
    (forall id, xattr_etag st0 !! id = Some etag -> xattr_etag st' !! id = Some etag) /\
    (forall id, id ∈ ids -> xattr_etag st' !! id = Some etag).
Proof.
  intros Hrand Hroot Hpath Hsame Hfuel.
  destruct (Propagate_loop_walks t st etag root node ids Hpath fuel st0 Hsame Hfuel)
    as (st' & Hrun & _ & Hw & _ & Hkeep & Hin).
  exists st'. unfold Propagate. rewrite Hrand, Hroot. split; [exact Hrun|].
  apply Propagate_loop_inv in Hrun as (Hd & Hl & Hp & Hn & _).
  repeat split; auto.
Qed.

End MoveRuns.



(** The run of a rename below the same parent in which nothing fails. *)
Lemma Move_rename_run
    (t : ocis.Tree) (fuel : nat) (oldNode newNode : ocis.Node) (st : ocis.State)
    (child etag : string) (root : ocis.Node) (ids : list string) :
  let renamed :=
    ocis.mkState (ocis.dirs st)
      (<[(ocis.ParentID oldNode, ocis.Name newNode) := child]>
         (delete (ocis.ParentID oldNode, ocis.Name oldNode) (ocis.links st)))
      (ocis.xattr_parentid st)
      (<[ocis.ID newNode := ocis.Name newNode]> (ocis.xattr_name st))
      (ocis.xattr_etag st) (ocis.etag_writes st) in
  ocis.Exists newNode = false ->
  ocis.ParentID oldNode = ocis.ParentID newNode ->
  (forall c, ocis.os_fails t c = false) ->
  ocis.links st !! (ocis.ParentID oldNode, ocis.Name oldNode) = Some child ->
  ocis.ID newNode ∈ ocis.dirs st ->
  ocis.rand_Read t = Ok etag ->
  (if ocis.EnableHome t then ocis.HomeNode t else ocis.RootNode t) = Ok root ->
  ocis.path_below renamed (ocis.ID root) newNode ids ->
  length ids <= fuel ->
  exists st',
    ocis.Move t fuel oldNode newNode st = Some (Ok tt, st') /\
    ocis.dirs st' = ocis.dirs st /\
    ocis.links st' = ocis.links renamed /\
    ocis.links st' !! (ocis.ParentID oldNode, ocis.Name newNode) = Some child /\
    ocis.xattr_parentid st' = ocis.xattr_parentid st /\
    ocis.xattr_name st' !! ocis.ID newNode = Some (ocis.Name newNode) /\
    ocis.etag_writes st' = (ocis.etag_writes st ++ ids)%list /\
    (forall id, id ∈ ids -> ocis.xattr_etag st' !! id = Some etag).
Proof.
  intros renamed Hex Heq Hok Hlink Hdir Hrand Hroot Hpath Hfuel.
  unfold ocis.Move. rewrite Hex.
  destruct (String.eqb_spec (ocis.ParentID oldNode) (ocis.ParentID newNode));
    [|contradiction].
  rewrite (step_ok t Hok _ _ _ st
             (ocis.mkState (ocis.dirs st) (ocis.links renamed) (ocis.xattr_parentid st)
                (ocis.xattr_name st) (ocis.xattr_etag st) (ocis.etag_writes st)))
    by (unfold ocis.rename_link; now rewrite Hlink).
  rewrite (step_ok t Hok _ _ _ _ renamed)
    by (unfold ocis.set_name; cbn [ocis.dirs];
        now rewrite bool_decide_eq_true_2 by exact Hdir).
  destruct (Propagate_walks t Hok renamed etag root newNode ids fuel renamed
              Hrand Hroot Hpath)
    as (st1 & Hrun & Hd & Hl & Hp & Hn & Hw & _ & Hin);
    [now repeat split | exact Hfuel |].
  exists st1. split; [exact Hrun|]. split; [exact Hd|]. split; [exact Hl|].
  split; [rewrite Hl; apply lookup_insert_eq|]. split; [exact Hp|].
  split; [rewrite Hn; apply lookup_insert_eq|]. split; [exact Hw | exact Hin].
Qed.

(** X18: a rename below the same parent in which nothing fails. The
    link gets the new name, the name attribute of the node is updated
    and its parent id is not written; the etags are propagated once,
    from the new node. *)
Theorem Move_renames_in_place
    (t : ocis.Tree) (fuel : nat) (oldNode newNode : ocis.Node) (st : ocis.State)
    (child etag : string) (root : ocis.Node) (ids : list string) :
  let renamed :=
    ocis.mkState (ocis.dirs st)
      (<[(ocis.ParentID oldNode, ocis.Name newNode) := child]>
         (delete (ocis.ParentID oldNode, ocis.Name oldNode) (ocis.links st)))
      (ocis.xattr_parentid st)
      (<[ocis.ID newNode := ocis.Name newNode]> (ocis.xattr_name st))
      (ocis.xattr_etag st) (ocis.etag_writes st) in
  ocis.Exists newNode = false ->
  ocis.ParentID oldNode = ocis.ParentID newNode ->
  (forall c, ocis.os_fails t c = false) ->
  ocis.links st !! (ocis.ParentID oldNode, ocis.Name oldNode) = Some child ->
  ocis.ID newNode ∈ ocis.dirs st ->
  ocis.rand_Read t = Ok etag ->
  (if ocis.EnableHome t then ocis.HomeNode t else ocis.RootNode t) = Ok root ->
  ocis.path_below renamed (ocis.ID root) newNode ids ->
  length ids <= fuel ->
  exists st',
    ocis.Move t fuel oldNode newNode st = Some (Ok tt, st') /\
    ocis.dirs st' = ocis.dirs st /\
    ocis.links st' = ocis.links renamed /\
    ocis.links st' !! (ocis.ParentID oldNode, ocis.Name newNode) = Some child /\
    ocis.xattr_parentid st' = ocis.xattr_parentid st /\
    ocis.xattr_name st' !! ocis.ID newNode = Some (ocis.Name newNode) /\
    ocis.etag_writes st' = (ocis.etag_writes st ++ ids)%list /\
    (forall id, id ∈ ids -> ocis.xattr_etag st' !! id = Some etag).
Proof.
  exact (Move_rename_run t fuel oldNode newNode st child etag root ids).
Qed.

Lemma Move_renames_in_place_witness :
  exists st',
    ocis.Move TreeSample.tree 2 TreeSample.b (ocis.mkNode "b" "a" "c.txt" false)
      TreeSample.state = Some (Ok tt, st') /\
    ocis.links st' !! ("a", "c.txt") = Some "b" /\
    ocis.xattr_parentid st' = ocis.xattr_parentid TreeSample.state /\
    ocis.etag_writes st' = ["b"; "a"].
Proof.
  destruct (Move_renames_in_place TreeSample.tree 2 TreeSample.b
              (ocis.mkNode "b" "a" "c.txt" false) TreeSample.state
              "b" "0123456789abcdef0123456789abcdef" TreeSample.root ["b"; "a"])
    as (st' & Hrun & _ & _ & Hthere & Hp & _ & Hw & _).
  - reflexivity.
  - reflexivity.
  - reflexivity.
  - reflexivity.
  - change (ocis.dirs TreeSample.state) with ({[ "root"; "a"; "b" ]} : gset string).
    apply elem_of_union_r. now apply elem_of_singleton.
  - reflexivity.
  - reflexivity.
  - apply (ocis.path_up _ _ (ocis.mkNode "b" "a" "c.txt" false) TreeSample.a ["a"]);
      [discriminate | reflexivity |].
    apply (ocis.path_up _ _ TreeSample.a TreeSample.root); [discriminate | reflexivity |].
    now apply ocis.path_here.
  - simpl. lia.
  - exists st'. now repeat split.
Defined.



(** * Further properties: revision keys and the quota *)

(** X21: the round trip from the key. Joining what [SplitRevisionKey]
    returns gives the key back exactly for the keys that contain the
    delimiter; the key is split at the first delimiter, so the node id
    part holds none. *)
Theorem JoinRevisionKey_SplitRevisionKey (key : string) :
  let id := fst (SplitRevisionKey key) in
  let ts := snd (SplitRevisionKey key) in
  (JoinRevisionKey id ts = key <-> strings.Contains key RevisionIDDelimiter = true) /\
  strings.Contains id RevisionIDDelimiter = false.
Proof.
  intros id ts. unfold id, ts, SplitRevisionKey.
  destruct (strings.Contains key RevisionIDDelimiter) eqn:Hc.
  - unfold strings.Contains in Hc.
    destruct (strings.Index key RevisionIDDelimiter) as [m|] eqn:Hi; [|discriminate].
    assert (Hsplit := SplitN_delimiter key m Hi).
    destruct (SplitN_two _ _ _ Hsplit) as [Hkey Hno].
    rewrite Hsplit. cbn [fst snd]. split; [|exact Hno].
    split; [reflexivity | intros _; now symmetry].
  - rewrite (SplitN_no_delimiter key Hc). cbn [fst snd]. split; [|exact Hc].
    split; [|discriminate]. intros E. exfalso.
    apply (app_not_self key (RevisionIDDelimiter ++ "")); [discriminate|].
    now symmetry.
Qed.

(** X20: the quota. [Blocks] and [Bavail] being [uint64] and [Bsize] a
    non-negative [int64], when the filesystem holds no more available
    blocks than blocks and its size in bytes fits [uint64], [GetQuota]
    returns no error, the total is the number of blocks times the block
    size, the used bytes are no more than the total, and what is left
    of the total is the available blocks times the block size. *)
Theorem GetQuota_used_within_total
    (fs : posix.posixfs) (path : string) (stat : posix.Statfs_t) :
  posix.HomeOrRootNode fs = Ok path ->
  posix.Statfs fs path = Ok stat ->
  (0 <= posix.Bavail stat <= posix.Blocks stat)%Z ->
  (posix.Blocks stat < 2 ^ 64)%Z ->
  (0 <= posix.Bsize stat < 2 ^ 63)%Z ->
  (posix.Blocks stat * posix.Bsize stat < 2 ^ 64)%Z ->
  exists total used,
    posix.GetQuota fs = (total, used, None) /\
    total = (posix.Blocks stat * posix.Bsize stat)%Z /\
    (0 <= used <= total)%Z /\
    (total - used = posix.Bavail stat * posix.Bsize stat)%Z.
Proof.
  intros Hnode Hstat [Hav0 Hav] Hblocks [Hbs0 Hbs] Hfit.
  unfold posix.GetQuota. rewrite Hnode, Hstat. eexists _, _. split; [reflexivity|].
  unfold posix.mul_uint64, posix.sub_uint64, to_uint64.
  rewrite (Z.mod_small (posix.Bsize stat)) by lia.
  rewrite (Z.mod_small (posix.Blocks stat - posix.Bavail stat)) by lia.
  rewrite (Z.mod_small (posix.Blocks stat * posix.Bsize stat)) by nia.
  rewrite (Z.mod_small ((posix.Blocks stat - posix.Bavail stat) * posix.Bsize stat))
    by nia.
  nia.
Qed.

Lemma GetQuota_used_within_total_witness :
  exists total used,
    posix.GetQuota
      (posix.mkPosixfs (Ok "/var/lib/reva/nodes/root")
         (fun _ => Ok (posix.mkStatfs 1000 250 4096)))
    = (total, used, None) /\
    total = 4096000%Z /\ (total - used = 1024000)%Z.
Proof.
  destruct (GetQuota_used_within_total
              (posix.mkPosixfs (Ok "/var/lib/reva/nodes/root")
                 (fun _ => Ok (posix.mkStatfs 1000 250 4096)))
              "/var/lib/reva/nodes/root" (posix.mkStatfs 1000 250 4096))
    as (total & used & Hrun & Ht & _ & Hleft);
    [reflexivity | reflexivity | simpl; lia | simpl; lia | simpl; lia | simpl; lia |].
  exists total, used. split; [exact Hrun|]. split; [exact Ht | exact Hleft].
Defined.

(** * Further properties of the ocis tree: listing *)

Section ListFolderFacts.

Import ocis ocis_tree.

Lemma elem_of_entries (st : State) (nodeID name : string) :
  name ∈ entries st nodeID <-> is_Some (links st !! (nodeID, name)).
Proof.
  unfold entries. rewrite list_elem_of_omap. split.
  - intros ([[parent name'] child] & Hin & Hsome). cbn [fst snd] in Hsome.
    apply elem_of_map_to_list in Hin.
    destruct (String.eqb_spec parent nodeID) as [->|]; [|discriminate].
    injection Hsome as ->. now exists child.
  - intros [child Hchild]. exists (nodeID, name, child). split.
    + now apply elem_of_map_to_list.
    + cbn [fst snd]. now rewrite String.eqb_refl.
Qed.

Lemma ListFolder_loop_spec (d : Dirs) (st : State) (dir : string) (node : Node)
    (names : list string) :
  forall (nodes : list Node) (n : Node),
    n ∈ ListFolder_loop d st dir node names nodes <->
    n ∈ nodes \/
    exists name child,
      name ∈ names /\ links st !! (ID node, name) = Some child /\
      dir_fails d (Readlink (filepath_Join dir name)) = false /\
      n = mkNode child (ID node) name true.
Proof.
  induction names as [|name names IH]; intros nodes n; simpl.
  - split; [now left|]. intros [H|(name & child & Hin & _)]; [exact H|].
    now apply elem_of_nil in Hin.
  - destruct (dir_fails d (Readlink (filepath_Join dir name))) eqn:Hf;
      [|destruct (links st !! (ID node, name)) as [link|] eqn:Hl]; rewrite IH.
    + split; (intros [H|(name' & child & Hin & Hc & Hr & ->)]; [now left|right]).
      * exists name', child. repeat split; auto. now apply elem_of_cons; right.
      * exists name', child. repeat split; auto.
        apply elem_of_cons in Hin as [->|Hin]; [congruence | exact Hin].
    + rewrite elem_of_app, list_elem_of_singleton. split.
      * intros [[H| ->]|(name' & child & Hin & Hc & Hr & ->)].
        -- now left.
        -- right. exists name, link. repeat split; auto. now apply elem_of_cons; left.
        -- right. exists name', child. repeat split; auto. now apply elem_of_cons; right.
      * intros [H|(name' & child & Hin & Hc & Hr & ->)]; [now left; left|].
        apply elem_of_cons in Hin as [->|Hin].
        -- left; right. congruence.
        -- right. now exists name', child.
    + split; (intros [H|(name' & child & Hin & Hc & Hr & ->)]; [now left|right]).
      * exists name', child. repeat split; auto. now apply elem_of_cons; right.
      * exists name', child. repeat split; auto.
        apply elem_of_cons in Hin as [->|Hin]; [congruence | exact Hin].
Qed.

End ListFolderFacts.

(** X22: what [ListFolder] lists. The error is NotFound exactly when the
    directory of the node is missing. A returned list holds exactly the
    links below the node whose [Readlink] did not fail: each child comes
    with the id its link points to, the listed node as parent, the name
    of the link, and marked as existing, whether or not its own
    directory is there. *)
Theorem ListFolder_lists_the_links
    (d : ocis_tree.Dirs) (node : ocis.Node) (st : ocis.State) :
  let dir := filepath_Join (filepath_Join (ocis_tree.Root d) "nodes") (ocis.ID node) in
  (ocis_tree.ListFolder d node st = Err (NotFound dir) <-> ocis.ID node ∉ ocis.dirs st) /\
  (forall nodes,
     ocis_tree.ListFolder d node st = Ok nodes ->
     forall n,
       n ∈ nodes <->
       exists name child,
         ocis.links st !! (ocis.ID node, name) = Some child /\
         ocis_tree.dir_fails d (ocis_tree.Readlink (filepath_Join dir name)) = false /\
         n = ocis.mkNode child (ocis.ID node) name true).
Proof.
  intros dir. unfold ocis_tree.ListFolder. fold dir. split.
  - destruct (decide (ocis.ID node ∈ ocis.dirs st)) as [Hin|Hout].
    + rewrite bool_decide_eq_true_2 by exact Hin. cbn [negb].
      split; [|contradiction].
      destruct (ocis_tree.dir_fails d (ocis_tree.Open dir)); [discriminate|].
      destruct (ocis_tree.dir_fails d (ocis_tree.Readdirnames dir)); discriminate.
    + rewrite bool_decide_eq_false_2 by exact Hout. now split.
  - intros nodes.
    destruct (negb _); [discriminate|].
    destruct (ocis_tree.dir_fails d (ocis_tree.Open dir)); [discriminate|].
    destruct (ocis_tree.dir_fails d (ocis_tree.Readdirnames dir)); [discriminate|].
    intros [= <-] n. rewrite ListFolder_loop_spec. split.
    + intros [H|(name & child & _ & Hc & Hr & ->)]; [now apply elem_of_nil in H|].
      now exists name, child.
    + intros (name & child & Hc & Hr & ->). right. exists name, child.
      repeat split; auto. apply elem_of_entries. now exists child.
Qed.

(** ** Renaming, then listing *)

(** X23: after a rename the listing of the parent shows the child
    under its new name and no longer under the old one. When nothing
    fails in a [Move] below the same parent, nor in the listing, then
    [ListFolder] of the parent in the state the move leaves returns the
    child with the new name, and no entry with the old name. *)
Theorem renamed_child_is_listed
    (t : ocis.Tree) (d : ocis_tree.Dirs) (fuel : nat)
    (oldNode newNode parent : ocis.Node) (st : ocis.State)
    (child etag : string) (root : ocis.Node) (ids : list string) :
  let renamed :=
    ocis.mkState (ocis.dirs st)
      (<[(ocis.ParentID oldNode, ocis.Name newNode) := child]>
         (delete (ocis.ParentID oldNode, ocis.Name oldNode) (ocis.links st)))
      (ocis.xattr_parentid st)
      (<[ocis.ID newNode := ocis.Name newNode]> (ocis.xattr_name st))
      (ocis.xattr_etag st) (ocis.etag_writes st) in
  ocis.Exists newNode = false ->
  ocis.ParentID oldNode = ocis.ParentID newNode ->
  (forall c, ocis.os_fails t c = false) ->
  ocis.links st !! (ocis.ParentID oldNode, ocis.Name oldNode) = Some child ->
  ocis.ID newNode ∈ ocis.dirs st ->
  ocis.rand_Read t = Ok etag ->
  (if ocis.EnableHome t then ocis.HomeNode t else ocis.RootNode t) = Ok root ->
  ocis.path_below renamed (ocis.ID root) newNode ids ->
  length ids <= fuel ->
  ocis.ID parent = ocis.ParentID oldNode ->
  ocis.ID parent ∈ ocis.dirs st ->
  (forall c, ocis_tree.dir_fails d c = false) ->
  ocis.Name oldNode <> ocis.Name newNode ->
  exists st' nodes,
    ocis.Move t fuel oldNode newNode st = Some (Ok tt, st') /\
    ocis_tree.ListFolder d parent st' = Ok nodes /\
    ocis.mkNode child (ocis.ID parent) (ocis.Name newNode) true ∈ nodes /\
    (forall n, n ∈ nodes -> ocis.Name n <> ocis.Name oldNode).
Proof.
  intros renamed Hex Heq Hok Hlink Hdir Hrand Hroot Hpath Hfuel Hparent Hpdir Hdok Hnames.
  destruct (Move_rename_run t fuel oldNode newNode st child etag root ids
              Hex Heq Hok Hlink Hdir Hrand Hroot Hpath Hfuel)
    as (st' & Hrun & Hd & Hl & Hnew & _).
  exists st'. unfold ocis_tree.ListFolder.
  rewrite Hd, bool_decide_eq_true_2 by exact Hpdir. rewrite !Hdok. cbn [negb].
  eexists. split; [exact Hrun|]. split; [reflexivity|]. split.
  - apply ListFolder_loop_spec. right. exists (ocis.Name newNode), child.
    rewrite Hparent. repeat split; auto.
    apply elem_of_entries. now exists child.
  - intros n [Hn|(name & c & _ & Hc & _ & ->)]%ListFolder_loop_spec;
      [now apply elem_of_nil in Hn|].
    cbn [ocis.Name]. intros ->.
    rewrite Hl, Hparent in Hc. cbn [ocis.links renamed] in Hc.
    rewrite lookup_insert_ne in Hc by (intros [= E]; now apply Hnames).
    now rewrite lookup_delete_eq in Hc.
Qed.

Lemma renamed_child_is_listed_witness :
  exists st' nodes,
    ocis.Move TreeSample.tree 2 TreeSample.b (ocis.mkNode "b" "a" "c.txt" false)
      TreeSample.state = Some (Ok tt, st') /\
    ocis_tree.ListFolder (ocis_tree.mkDirs "/var/lib/ocis" (fun _ => false))
      TreeSample.a st' = Ok nodes /\
    ocis.mkNode "b" "a" "c.txt" true ∈ nodes.
Proof.
  destruct (renamed_child_is_listed TreeSample.tree
              (ocis_tree.mkDirs "/var/lib/ocis" (fun _ => false)) 2
              TreeSample.b (ocis.mkNode "b" "a" "c.txt" false) TreeSample.a
              TreeSample.state
              "b" "0123456789abcdef0123456789abcdef" TreeSample.root ["b"; "a"])
    as (st' & nodes & Hrun & Hlist & Hin & _).
  - reflexivity.
  - reflexivity.
  - reflexivity.
  - reflexivity.
  - change (ocis.dirs TreeSample.state) with ({[ "root"; "a"; "b" ]} : gset string).
    apply elem_of_union_r. now apply elem_of_singleton.
  - reflexivity.
  - reflexivity.
  - apply (ocis.path_up _ _ (ocis.mkNode "b" "a" "c.txt" false) TreeSample.a ["a"]);
      [discriminate | reflexivity |].
    apply (ocis.path_up _ _ TreeSample.a TreeSample.root); [discriminate | reflexivity |].
    now apply ocis.path_here.
  - simpl. lia.
  - reflexivity.
  - change (ocis.dirs TreeSample.state) with ({[ "root"; "a"; "b" ]} : gset string).
    apply elem_of_union_l, elem_of_union_r. now apply elem_of_singleton.
  - reflexivity.
  - discriminate.
  - exists st', nodes. now repeat split.
Defined.

(** ** Restoring a revision that is not there *)

Section RunsWithoutFaults.

Variable fs : Decomposedfs.
Hypothesis Hnofail : forall i c, fails fs i c = false.









End RunsWithoutFaults.


